(** * E-shuri: grading, enrolment and certificate workflows

    A shallow embedding of the workflow handlers of the learning platform:

    - [GradingQueue.submitGrade], [GradingQueue.handleBulkGrade] and
      [GradingQueue.fetchSubmissions] (pages/GradingQueue.tsx),
    - [CourseEnrollment.handleDrop] (pages/CourseEnrollment.tsx),
    - [Certificate.generateCertificate] (components/CertificateGenerator.tsx),
    - the completion-rate expression of pages/Analytics.tsx,

    over a model of the backend tables declared by the migrations
    (assignment_submissions, notifications, student_courses, ...), the
    storage bucket and the browser effects (toasts, console, downloads).

    Handlers are written in a state-and-exception monad over [World]; the
    replies of the backend to the requests a handler awaits are read from
    the stream [net] of the world, so that every failure the handlers
    guard against can be exercised.

    Conventions of the model:
    - a handler reads the component state it closes over from its
      argument and writes the next state into the world;
    - a request that fails changes nothing in the backend;
    - the clock is read from the world and stands still during a run;
    - numbers are exact: a double is the rational it denotes, and
      [parseFloat], [Number.toString], date formatting, the page size of
      jsPDF and the public URL of a storage path are parameters;
    - row-level security is not modelled; of the schema, the NOT NULL
      constraint on notifications.user_id, the foreign keys of
      assignment_submissions and the no-overwrite rule of an upload with
      [upsert: false] are. *)

From Stdlib Require Import String Ascii List Bool Arith ZArith NArith QArith Lia.
From Stdlib Require Import Qround DecimalString DecimalN.
From Stdlib Require Import Sorted Permutation.
Import ListNotations.

Local Close Scope Q_scope.
Local Open Scope string_scope.
Local Open Scope list_scope.

(* ================================================================== *)
(** * JavaScript values *)
(* ================================================================== *)

Module Js.

(** A JavaScript number: a double is a rational, an infinity or NaN.
    Comparisons between doubles are exact, so they are the comparisons
    of these values. *)
Inductive number : Type :=
| NaN
| NegInf
| Fin (q : Q)
| PosInf.

Definition isNaN (n : number) : bool :=
  match n with NaN => true | _ => false end.

(** [lt a b] is the JavaScript [a < b]; false whenever an operand is NaN. *)
Definition lt (a b : number) : bool :=
  match a, b with
  | NaN, _ | _, NaN => false
  | NegInf, NegInf => false
  | NegInf, _ => true
  | Fin _, NegInf => false
  | Fin x, Fin y => negb (Qle_bool y x)
  | Fin _, PosInf => true
  | PosInf, _ => false
  end.

(** [gt a b] is the JavaScript [a > b]. *)
Definition gt (a b : number) : bool := lt b a.

Definition zero : number := Fin 0%Q.

Definition of_nat (n : nat) : number := Fin (inject_Z (Z.of_nat n)).

(** The values a property of a fetched row can hold. *)
#[warnings="-register-all"]
Inductive value : Type :=
| Undefined
| Null
| Bool (b : bool)
| Num (n : number)
| Str (s : string)
| Obj (fields : list (string * value)).

Definition object : Type := list (string * value).

(** [get o k] is the property read [o.k] (or [o[k]]): [undefined] when
    the object has no such property. *)
Fixpoint get (o : object) (k : string) : value :=
  match o with
  | [] => Undefined
  | (k', v) :: o' => if String.eqb k' k then v else get o' k
  end.

(** [!s] on a string: only the empty string is falsy. *)
Definition is_empty (s : string) : bool :=
  match s with EmptyString => true | String _ _ => false end.

(** [x || d] on a nullable string, as in [submission.feedback || ...]. *)
Definition or_else (x : option string) (d : string) : string :=
  match x with
  | Some s => if is_empty s then d else s
  | None => d
  end.

(** JavaScript white space ([\s]) among the code units below 256. *)
Definition is_space (c : ascii) : bool :=
  let n := nat_of_ascii c in
  (((9 <=? n) && (n <=? 13)) || (n =? 32) || (n =? 160))%nat.

(** [s.replace(/\s+/g, "-")]: every maximal run of white space becomes
    one hyphen.  [in_run] tells that the previous unit was white space. *)
Fixpoint replace_spaces_from (in_run : bool) (s : string) : string :=
  match s with
  | EmptyString => EmptyString
  | String c s' =>
      if is_space c
      then if in_run
           then replace_spaces_from true s'
           else String "-" (replace_spaces_from true s')
      else String c (replace_spaces_from false s')
  end.

Definition replace_spaces (s : string) : string :=
  replace_spaces_from false s.

(** The decimal rendering of a non-negative integer, as a template
    literal renders [Date.now()]. *)
Definition decimal (n : N) : string :=
  NilZero.string_of_uint (N.to_uint n).

End Js.

(* ================================================================== *)
(** * Backend rows *)
(* ================================================================== *)

(** Instants (timestamptz columns, [Date.now()], [new Date()]) are
    milliseconds since the epoch. *)
Definition Timestamp : Type := N.

(** public.assignment_submissions, the columns the handlers read or
    write (file_paths, created_at and updated_at are left out). *)
Record SubmissionRow : Type := mkSubmissionRow {
  sr_id : string;
  sr_assignment_id : string;
  sr_student_id : string;
  sr_submission_text : option string;
  sr_submitted_at : option Timestamp;
  sr_grade : option Js.number;
  sr_feedback : option string;
  sr_graded_at : option Timestamp;
  sr_graded_by : option string;
  sr_status : option string;
  sr_is_late : option bool
}.

(** public.assignments: the columns embedded by the grading queue. *)
Record AssignmentRow : Type := mkAssignmentRow {
  ar_id : string;
  ar_title : string;
  ar_points : Js.number;
  ar_rubric : Js.value
}.

(** public.profiles: the columns embedded by the grading queue. *)
Record ProfileRow : Type := mkProfileRow {
  pr_id : string;
  pr_full_name : string
}.

(** public.notifications ([id], [read] and [created_at] take their
    defaults and are left out).  [user_id] is NOT NULL. *)
Record NotificationRow : Type := mkNotificationRow {
  nr_user_id : string;
  nr_type : string;
  nr_title : string;
  nr_message : string;
  nr_link : option string
}.

(** public.student_courses: the enrolment of a student in a course. *)
Record StudentCourseRow : Type := mkStudentCourseRow {
  sc_id : string;
  sc_student_id : string;
  sc_subject_id : string;
  sc_progress : option Js.number;
  sc_completed : option bool;
  sc_completed_at : option Timestamp;
  sc_certificate_url : option string
}.

(** public.content_progress: one row per (student, content item). *)
Record ContentProgressRow : Type := mkContentProgressRow {
  cp_student_id : string;
  cp_content_id : string;
  cp_completion_percentage : Z;
  cp_completed : bool
}.

(* ================================================================== *)
(** * The world a handler runs in *)
(* ================================================================== *)

(** A blob or a saved document is the sequence of drawing operations of
    the jsPDF document it was produced from. *)
Inductive PdfOp : Type :=
| SetFillColor (r g b : Z)
| SetDrawColor (r g b : Z)
| SetTextColor (r g b : Z)
| SetLineWidth (w : Q)
| SetFont (family style : string)
| SetFontSize (size : Z)
| Rect (x y w h : Q) (style : string)
| Line (x1 y1 x2 y2 : Q)
| Text (text : string) (x y : Q) (align : string).

Definition Blob : Type := list PdfOp.

(** A toast of the sonner library. *)
Inductive Toast : Type :=
| ToastError (msg : string)
| ToastSuccess (msg : string).

(** The reply of the backend to one awaited request: the request is
    carried out ([Done]), answered with an error object ([Failed]: nothing
    is changed) or the promise rejects ([Rejected]: nothing is changed and
    the [await] throws). *)
Inductive Reply : Type :=
| Done
| Failed (error : string)
| Rejected (error : string).

(** What a handler can throw. *)
Inductive Exn : Type :=
| BackendError (error : string)
| TypeError (msg : string).

(** A row of the grading queue as the page holds it: the columns named by
    the [select] of [fetchSubmissions], which are those of the
    [Submission] interface. *)
Record Student : Type := mkStudent {
  full_name : string
}.

Record Assignment : Type := mkAssignment {
  title : string;
  points : Js.number;
  rubric : Js.value
}.

Record Submission : Type := mkSubmission {
  id : string;
  submission_text : option string;
  submitted_at : option Timestamp;
  is_late : option bool;
  status : option string;
  grade : option Js.number;
  feedback : option string;
  student : Student;
  assignment : Assignment
}.

(** The state of the GradingQueue component (its [useState] cells).  The
    cells [grade] and [feedback] are [gradeInput] and [feedbackInput]
    here, the shorter names being fields of [Submission]. *)
Record GradingQueueState : Type := mkGradingQueueState {
  submissions : list Submission;
  loading : bool;
  grading : bool;
  selectedSubmission : option Submission;
  gradeInput : string;
  feedbackInput : string;
  selectedSubmissions : list string;
  bulkGrade : string;
  bulkFeedback : string
}.

Record World : Type := mkWorld {
  (* tables *)
  assignment_submissions : list SubmissionRow;
  assignments : list AssignmentRow;
  profiles : list ProfileRow;
  notifications : list NotificationRow;
  student_courses : list StudentCourseRow;
  content_progress : list ContentProgressRow;
  (* storage bucket content-files: path and object *)
  content_files : list (string * Blob);
  (* the signed-in user, the clock and the replies to come *)
  auth_user : option string;
  clock : Timestamp;
  net : list Reply;
  (* browser *)
  toasts : list Toast;
  console_errors : list Exn;
  downloads : list (string * Blob);
  (* component state *)
  gradingQueue : GradingQueueState;
  enrolledCourses : list string
}.

Definition with_assignment_submissions (x : list SubmissionRow) (w : World) : World :=
  mkWorld x (assignments w) (profiles w) (notifications w) (student_courses w)
    (content_progress w) (content_files w) (auth_user w) (clock w) (net w)
    (toasts w) (console_errors w) (downloads w) (gradingQueue w) (enrolledCourses w).

Definition with_notifications (x : list NotificationRow) (w : World) : World :=
  mkWorld (assignment_submissions w) (assignments w) (profiles w) x (student_courses w)
    (content_progress w) (content_files w) (auth_user w) (clock w) (net w)
    (toasts w) (console_errors w) (downloads w) (gradingQueue w) (enrolledCourses w).

Definition with_student_courses (x : list StudentCourseRow) (w : World) : World :=
  mkWorld (assignment_submissions w) (assignments w) (profiles w) (notifications w) x
    (content_progress w) (content_files w) (auth_user w) (clock w) (net w)
    (toasts w) (console_errors w) (downloads w) (gradingQueue w) (enrolledCourses w).

Definition with_content_files (x : list (string * Blob)) (w : World) : World :=
  mkWorld (assignment_submissions w) (assignments w) (profiles w) (notifications w)
    (student_courses w) (content_progress w) x (auth_user w) (clock w) (net w)
    (toasts w) (console_errors w) (downloads w) (gradingQueue w) (enrolledCourses w).

Definition with_clock (x : Timestamp) (w : World) : World :=
  mkWorld (assignment_submissions w) (assignments w) (profiles w) (notifications w)
    (student_courses w) (content_progress w) (content_files w) (auth_user w) x (net w)
    (toasts w) (console_errors w) (downloads w) (gradingQueue w) (enrolledCourses w).

Definition with_net (x : list Reply) (w : World) : World :=
  mkWorld (assignment_submissions w) (assignments w) (profiles w) (notifications w)
    (student_courses w) (content_progress w) (content_files w) (auth_user w) (clock w) x
    (toasts w) (console_errors w) (downloads w) (gradingQueue w) (enrolledCourses w).

Definition with_toasts (x : list Toast) (w : World) : World :=
  mkWorld (assignment_submissions w) (assignments w) (profiles w) (notifications w)
    (student_courses w) (content_progress w) (content_files w) (auth_user w) (clock w) (net w)
    x (console_errors w) (downloads w) (gradingQueue w) (enrolledCourses w).

Definition with_console_errors (x : list Exn) (w : World) : World :=
  mkWorld (assignment_submissions w) (assignments w) (profiles w) (notifications w)
    (student_courses w) (content_progress w) (content_files w) (auth_user w) (clock w) (net w)
    (toasts w) x (downloads w) (gradingQueue w) (enrolledCourses w).

Definition with_downloads (x : list (string * Blob)) (w : World) : World :=
  mkWorld (assignment_submissions w) (assignments w) (profiles w) (notifications w)
    (student_courses w) (content_progress w) (content_files w) (auth_user w) (clock w) (net w)
    (toasts w) (console_errors w) x (gradingQueue w) (enrolledCourses w).

Definition with_gradingQueue (x : GradingQueueState) (w : World) : World :=
  mkWorld (assignment_submissions w) (assignments w) (profiles w) (notifications w)
    (student_courses w) (content_progress w) (content_files w) (auth_user w) (clock w) (net w)
    (toasts w) (console_errors w) (downloads w) x (enrolledCourses w).

Definition with_enrolledCourses (x : list string) (w : World) : World :=
  mkWorld (assignment_submissions w) (assignments w) (profiles w) (notifications w)
    (student_courses w) (content_progress w) (content_files w) (auth_user w) (clock w) (net w)
    (toasts w) (console_errors w) (downloads w) (gradingQueue w) x.

(* ================================================================== *)
(** * The monad of handlers *)
(* ================================================================== *)

(** The outcome of a computation: a value or an exception on its way to
    the nearest [catch]. *)
Inductive Res (A : Type) : Type :=
| Ret (a : A)
| Throw (e : Exn).

Arguments Ret {A} a.
Arguments Throw {A} e.

Definition M (A : Type) : Type := World -> Res A * World.

Definition ret {A} (a : A) : M A := fun w => (Ret a, w).

Definition throw {A} (e : Exn) : M A := fun w => (Throw e, w).

Definition bind {A B} (m : M A) (k : A -> M B) : M B :=
  fun w =>
    match m w with
    | (Ret a, w') => k a w'
    | (Throw e, w') => (Throw e, w')
    end.

(** [try { body } catch (error) { handler }]. *)
Definition try_catch {A} (body : M A) (handler : Exn -> M A) : M A :=
  fun w =>
    match body w with
    | (Ret a, w') => (Ret a, w')
    | (Throw e, w') => handler e w'
    end.

Definition gets {A} (f : World -> A) : M A := fun w => (Ret (f w), w).

Definition modify (f : World -> World) : M unit := fun w => (Ret tt, f w).

Declare Scope handler_scope.
Delimit Scope handler_scope with handler.

Notation "x <- m ;; k" := (bind m (fun x => k))
  (at level 61, m at next level, right associativity) : handler_scope.
Notation "m ;; k" := (bind m (fun _ => k))
  (at level 61, right associativity) : handler_scope.

Local Open Scope handler_scope.

(** [for (const x of xs) { body }]: an exception leaves the loop. *)
Fixpoint for_of {A} (xs : list A) (body : A -> M unit) : M unit :=
  match xs with
  | [] => ret tt
  | x :: xs' => body x ;; for_of xs' body
  end.

(** A call that is not awaited: the promise runs on, and its rejection
    does not reach the caller. *)
Definition floating (m : M unit) : M unit :=
  try_catch m (fun _ => ret tt).

(** The final world and the result of running a handler. *)
Definition exec {A} (m : M A) (w : World) : World := snd (m w).
Definition result {A} (m : M A) (w : World) : Res A := fst (m w).

(* ================================================================== *)
(** * The backend client *)
(* ================================================================== *)

(** The next reply of the backend; a drained stream keeps answering
    [Done]. *)
Definition next_reply : M Reply :=
  fun w => (Ret (hd Done (net w)), with_net (tl (net w)) w).

(** One awaited request: [perform] is what the backend does with it and
    yields the [error] member of the response ([None] for [null]). *)
Definition request (perform : M (option string)) : M (option string) :=
  r <- next_reply ;;
  match r with
  | Done => perform
  | Failed e => ret (Some e)
  | Rejected e => throw (BackendError e)
  end.

(** [supabase.auth.getSession()]: the stored session, read locally. *)
Definition getSession : M (option string) := gets auth_user.

(** [supabase.auth.getUser()]: asks the auth server; no user on failure. *)
Definition getUser : M (option string) :=
  r <- next_reply ;;
  match r with
  | Done => gets auth_user
  | Failed _ => ret None
  | Rejected e => throw (BackendError e)
  end.

(** The body of [from("assignment_submissions").update({...})].  A key
    whose value is [undefined] is dropped from the request, and a number
    that is not finite is serialised as [null]. *)
Record SubmissionUpdate : Type := mkSubmissionUpdate {
  u_grade : Js.number;
  u_feedback : string;
  u_status : string;
  u_graded_at : Timestamp;
  u_graded_by : option string
}.

Definition json_number (n : Js.number) : option Js.number :=
  match n with
  | Js.Fin q => Some (Js.Fin q)
  | _ => None
  end.

Definition apply_update (u : SubmissionUpdate) (r : SubmissionRow) : SubmissionRow :=
  mkSubmissionRow (sr_id r) (sr_assignment_id r) (sr_student_id r)
    (sr_submission_text r) (sr_submitted_at r)
    (json_number (u_grade u))
    (Some (u_feedback u))
    (Some (u_graded_at u))
    (match u_graded_by u with Some g => Some g | None => sr_graded_by r end)
    (Some (u_status u))
    (sr_is_late r).

(** [.update(u).eq("id", id)] on assignment_submissions. *)
Definition update_submissions (u : SubmissionUpdate) (id : string) : M (option string) :=
  request
    (modify (fun w =>
       with_assignment_submissions
         (map (fun r => if String.eqb (sr_id r) id then apply_update u r else r)
              (assignment_submissions w)) w) ;;
     ret None).

(** The body of [from("notifications").insert({...})]; [n_title] is its
    [title]. *)
Record NotificationInsert : Type := mkNotificationInsert {
  user_id : Js.value;
  type : string;
  n_title : string;
  message : string;
  link : string
}.

(** The insert is refused unless [user_id] is a string: the column is
    [uuid ... NOT NULL]. *)
Definition insert_notification (n : NotificationInsert) : M (option string) :=
  request
    (match user_id n with
     | Js.Str u =>
         modify (fun w =>
           with_notifications
             (notifications w ++
                [mkNotificationRow u (type n) (n_title n) (message n) (Some (link n))]) w) ;;
         ret None
     | Js.Undefined | Js.Null =>
         ret (Some "null value in column user_id violates not-null constraint")
     | _ =>
         ret (Some "invalid input syntax for type uuid")
     end).

(** [.delete().eq("student_id", s).eq("subject_id", c)] on student_courses. *)
Definition enrolment_of (s c : string) (r : StudentCourseRow) : bool :=
  String.eqb (sc_student_id r) s && String.eqb (sc_subject_id r) c.

Definition delete_student_course (s c : string) : M (option string) :=
  request
    (modify (fun w =>
       with_student_courses
         (filter (fun r => negb (enrolment_of s c r)) (student_courses w)) w) ;;
     ret None).

(** [.update({ certificate_url }).eq("student_id", s).eq("subject_id", c)]. *)
Definition set_certificate_url (url : string) (r : StudentCourseRow) : StudentCourseRow :=
  mkStudentCourseRow (sc_id r) (sc_student_id r) (sc_subject_id r) (sc_progress r)
    (sc_completed r) (sc_completed_at r) (Some url).

Definition update_certificate_url (url s c : string) : M (option string) :=
  request
    (modify (fun w =>
       with_student_courses
         (map (fun r => if enrolment_of s c r then set_certificate_url url r else r)
              (student_courses w)) w) ;;
     ret None).

(** [storage.from("content-files").upload(path, blob, { upsert: false })]:
    an object already stored under the path is not replaced. *)
Definition stored (path : string) (files : list (string * Blob)) : bool :=
  existsb (fun f => String.eqb (fst f) path) files.

Definition upload (path : string) (blob : Blob) : M (option string) :=
  request
    (fun w =>
       if stored path (content_files w)
       then (Ret (Some "The resource already exists"), w)
       else (Ret None, with_content_files (content_files w ++ [(path, blob)]) w)).

(** Browser effects. *)
Definition toast_error (msg : string) : M unit :=
  modify (fun w => with_toasts (toasts w ++ [ToastError msg]) w).

Definition toast_success (msg : string) : M unit :=
  modify (fun w => with_toasts (toasts w ++ [ToastSuccess msg]) w).

Definition console_error (e : Exn) : M unit :=
  modify (fun w => with_console_errors (console_errors w ++ [e]) w).

(** [throw error] when the response carries an error. *)
Definition throw_if_error (error : option string) : M unit :=
  match error with
  | Some e => throw (BackendError e)
  | None => ret tt
  end.

(* ================================================================== *)
(** * pages/GradingQueue.tsx *)
(* ================================================================== *)

Definition update_gradingQueue (f : GradingQueueState -> GradingQueueState) : M unit :=
  modify (fun w => with_gradingQueue (f (gradingQueue w)) w).

Definition setSubmissions (x : list Submission) : M unit :=
  update_gradingQueue (fun s =>
    mkGradingQueueState x (loading s) (grading s) (selectedSubmission s) (gradeInput s)
      (feedbackInput s) (selectedSubmissions s) (bulkGrade s) (bulkFeedback s)).

Definition setLoading (x : bool) : M unit :=
  update_gradingQueue (fun s =>
    mkGradingQueueState (submissions s) x (grading s) (selectedSubmission s) (gradeInput s)
      (feedbackInput s) (selectedSubmissions s) (bulkGrade s) (bulkFeedback s)).

Definition setGrading (x : bool) : M unit :=
  update_gradingQueue (fun s =>
    mkGradingQueueState (submissions s) (loading s) x (selectedSubmission s) (gradeInput s)
      (feedbackInput s) (selectedSubmissions s) (bulkGrade s) (bulkFeedback s)).

Definition setSelectedSubmission (x : option Submission) : M unit :=
  update_gradingQueue (fun s =>
    mkGradingQueueState (submissions s) (loading s) (grading s) x (gradeInput s)
      (feedbackInput s) (selectedSubmissions s) (bulkGrade s) (bulkFeedback s)).

Definition setGrade (x : string) : M unit :=
  update_gradingQueue (fun s =>
    mkGradingQueueState (submissions s) (loading s) (grading s) (selectedSubmission s) x
      (feedbackInput s) (selectedSubmissions s) (bulkGrade s) (bulkFeedback s)).

Definition setFeedback (x : string) : M unit :=
  update_gradingQueue (fun s =>
    mkGradingQueueState (submissions s) (loading s) (grading s) (selectedSubmission s)
      (gradeInput s) x (selectedSubmissions s) (bulkGrade s) (bulkFeedback s)).

Definition setSelectedSubmissions (x : list string) : M unit :=
  update_gradingQueue (fun s =>
    mkGradingQueueState (submissions s) (loading s) (grading s) (selectedSubmission s)
      (gradeInput s) (feedbackInput s) x (bulkGrade s) (bulkFeedback s)).

Definition setBulkGrade (x : string) : M unit :=
  update_gradingQueue (fun s =>
    mkGradingQueueState (submissions s) (loading s) (grading s) (selectedSubmission s)
      (gradeInput s) (feedbackInput s) (selectedSubmissions s) x (bulkFeedback s)).

Definition setBulkFeedback (x : string) : M unit :=
  update_gradingQueue (fun s =>
    mkGradingQueueState (submissions s) (loading s) (grading s) (selectedSubmission s)
      (gradeInput s) (feedbackInput s) (selectedSubmissions s) (bulkGrade s) x).

(** The embedded resources of the [select]: the profile and the assignment
    a submission row references.  Both columns are NOT NULL references; a
    row whose profile or assignment is missing, for which the page would
    hold [null] in place of the embedded object, is left out. *)
Definition select_submission (w : World) (r : SubmissionRow) : option Submission :=
  match find (fun p => String.eqb (pr_id p) (sr_student_id r)) (profiles w),
        find (fun a => String.eqb (ar_id a) (sr_assignment_id r)) (assignments w) with
  | Some p, Some a =>
      Some (mkSubmission (sr_id r) (sr_submission_text r) (sr_submitted_at r)
              (sr_is_late r) (sr_status r) (sr_grade r) (sr_feedback r)
              (mkStudent (pr_full_name p))
              (mkAssignment (ar_title a) (ar_points a) (ar_rubric a)))
  | _, _ => None
  end.

Fixpoint select_submissions (w : World) (rs : list SubmissionRow) : list Submission :=
  match rs with
  | [] => []
  | r :: rs' =>
      match select_submission w r with
      | Some s => s :: select_submissions w rs'
      | None => select_submissions w rs'
      end
  end.

(** [.order("submitted_at", { ascending: true })]: nulls come last. *)
Definition submitted_le (a b : Submission) : bool :=
  match submitted_at a, submitted_at b with
  | Some x, Some y => (x <=? y)%N
  | Some _, None => true
  | None, Some _ => false
  | None, None => true
  end.

Fixpoint insert_by_submitted_at (s : Submission) (l : list Submission) : list Submission :=
  match l with
  | [] => [s]
  | x :: l' => if submitted_le s x then s :: l else x :: insert_by_submitted_at s l'
  end.

Fixpoint order_by_submitted_at (l : list Submission) : list Submission :=
  match l with
  | [] => []
  | x :: l' => insert_by_submitted_at x (order_by_submitted_at l')
  end.

(** [.eq("status", "submitted")]. *)
Definition is_submitted (r : SubmissionRow) : bool :=
  match sr_status r with
  | Some s => String.eqb s "submitted"
  | None => false
  end.

Definition query_submissions (w : World) : list Submission :=
  order_by_submitted_at
    (select_submissions w (filter is_submitted (assignment_submissions w))).

Definition fetchSubmissions : M unit :=
  session <- getSession ;;
  match session with
  | None => ret tt
  | Some _ =>
      r <- next_reply ;;
      match r with
      | Rejected e => throw (BackendError e)
      | Failed _ =>
          toast_error "Failed to load submissions" ;;
          setLoading false
      | Done =>
          data <- gets query_submissions ;;
          setSubmissions data ;;
          setLoading false
      end
  end.

(** [toggleSubmissionSelection]: the selection is a [Set], kept here in
    insertion order. *)
Definition toggleSubmissionSelection (st : GradingQueueState) (id : string) : M unit :=
  if existsb (String.eqb id) (selectedSubmissions st)
  then setSelectedSubmissions
         (filter (fun x => negb (String.eqb id x)) (selectedSubmissions st))
  else setSelectedSubmissions (selectedSubmissions st ++ [id]).

Definition dquote : string := String "034"%char EmptyString.

Section Handlers.

(** Operations of the JavaScript runtime and of the libraries that the
    handlers call and that are not part of the repository. *)
Variable parseFloat : string -> Js.number.
Variable Number_toString : Js.number -> string.
Variable toISOString : Timestamp -> string.

(** [`${v}`] in a template literal. *)
Definition to_string (v : Js.value) : string :=
  match v with
  | Js.Undefined => "undefined"
  | Js.Null => "null"
  | Js.Bool true => "true"
  | Js.Bool false => "false"
  | Js.Num n => Number_toString n
  | Js.Str s => s
  | Js.Obj _ => "[object Object]"
  end.

Definition nullable {A} (f : A -> Js.value) (x : option A) : Js.value :=
  match x with
  | Some a => f a
  | None => Js.Null
  end.

(** [(submission as any)]: the object the page holds for a submission,
    with exactly the properties that [fetchSubmissions] selected. *)
Definition as_any (s : Submission) : Js.object :=
  [ ("id", Js.Str (id s));
    ("submission_text", nullable Js.Str (submission_text s));
    ("submitted_at", nullable (fun t => Js.Str (toISOString t)) (submitted_at s));
    ("is_late", nullable Js.Bool (is_late s));
    ("status", nullable Js.Str (status s));
    ("grade", nullable Js.Num (grade s));
    ("feedback", nullable Js.Str (feedback s));
    ("student", Js.Obj [("full_name", Js.Str (full_name (student s)))]);
    ("assignment", Js.Obj [("title", Js.Str (title (assignment s)));
                           ("points", Js.Num (points (assignment s)));
                           ("rubric", rubric (assignment s))]) ].

Definition openGradingDialog (submission : Submission) : M unit :=
  setSelectedSubmission (Some submission) ;;
  setGrade (Js.or_else (option_map Number_toString (grade submission)) EmptyString) ;;
  setFeedback (Js.or_else (feedback submission) EmptyString).

(** The notification both grading paths send. *)
Definition graded_notification (submission : Submission) (gradeNum : Js.number)
  : NotificationInsert :=
  mkNotificationInsert
    (Js.get (as_any submission) "student_id")
    "assignment_graded"
    "Assignment Graded"
    ("Your assignment " ++ dquote ++ title (assignment submission) ++ dquote
       ++ " has been graded. Score: " ++ Number_toString gradeNum ++ "/"
       ++ Number_toString (points (assignment submission)))
    ("/assignments/" ++ to_string (Js.get (as_any submission) "assignment_id")).

(** [isNaN(gradeNum) || gradeNum < 0 || gradeNum > points]. *)
Definition out_of_range (gradeNum pts : Js.number) : bool :=
  Js.isNaN gradeNum || Js.lt gradeNum Js.zero || Js.gt gradeNum pts.

Definition submitGrade (st : GradingQueueState) : M unit :=
  match selectedSubmission st with
  | None => toast_error "Please enter a grade"
  | Some selected =>
      if Js.is_empty (gradeInput st) then toast_error "Please enter a grade"
      else
        let gradeNum := parseFloat (gradeInput st) in
        if out_of_range gradeNum (points (assignment selected))
        then toast_error ("Grade must be between 0 and "
                            ++ Number_toString (points (assignment selected)))
        else
          setGrading true ;;
          session <- getSession ;;
          now <- gets clock ;;
          error <- update_submissions
                     (mkSubmissionUpdate gradeNum (feedbackInput st) "graded" now session)
                     (id selected) ;;
          match error with
          | Some _ =>
              toast_error "Failed to submit grade" ;;
              setGrading false
          | None =>
              (* Send notification to student *)
              _ <- insert_notification (graded_notification selected gradeNum) ;;
              toast_success "Grade submitted successfully" ;;
              setSelectedSubmission None ;;
              setGrade EmptyString ;;
              setFeedback EmptyString ;;
              setGrading false ;;
              floating fetchSubmissions
          end
  end.

Definition grade_one (st : GradingQueueState) (session : option string)
    (submissionId : string) : M unit :=
  match find (fun s => String.eqb (id s) submissionId) (submissions st) with
  | None => ret tt
  | Some submission =>
      let gradeNum := parseFloat (bulkGrade st) in
      if out_of_range gradeNum (points (assignment submission))
      then toast_error ("Invalid grade for " ++ full_name (student submission))
      else
        now <- gets clock ;;
        _ <- update_submissions
               (mkSubmissionUpdate gradeNum (bulkFeedback st) "graded" now session)
               submissionId ;;
        (* Send notification *)
        _ <- insert_notification (graded_notification submission gradeNum) ;;
        ret tt
  end.

Definition handleBulkGrade (st : GradingQueueState) : M unit :=
  match selectedSubmissions st with
  | [] => toast_error "Please select submissions to grade"
  | _ :: _ =>
      if Js.is_empty (bulkGrade st) then toast_error "Please enter a grade"
      else
        setGrading true ;;
        session <- getSession ;;
        for_of (selectedSubmissions st) (grade_one st session) ;;
        toast_success ("Graded "
                         ++ Number_toString (Js.of_nat (length (selectedSubmissions st)))
                         ++ " submissions") ;;
        setSelectedSubmissions [] ;;
        setBulkGrade EmptyString ;;
        setBulkFeedback EmptyString ;;
        setGrading false ;;
        floating fetchSubmissions
  end.

End Handlers.

(* ================================================================== *)
(** * pages/CourseEnrollment.tsx *)
(* ================================================================== *)

Definition setEnrolledCourses (x : list string) : M unit :=
  modify (with_enrolledCourses x).

(** [handleDrop]; [enrolled] is the [enrolledCourses] set the handler
    closes over. *)
Definition handleDrop (enrolled : list string) (subjectId : string) : M unit :=
  try_catch
    (user <- getUser ;;
     match user with
     | None => ret tt
     | Some user_id =>
         (* Note: We don't delete the record, we could add a dropped_at field instead
            For now, let's just remove it (progress will be saved in content_progress table) *)
         error <- delete_student_course user_id subjectId ;;
         throw_if_error error ;;
         setEnrolledCourses (filter (fun c => negb (String.eqb c subjectId)) enrolled) ;;
         toast_success "Dropped course (your progress is saved!)"
     end)
    (fun error =>
       toast_error "Failed to drop course" ;;
       console_error error).

(* ================================================================== *)
(** * components/CertificateGenerator.tsx *)
(* ================================================================== *)

Record CertificateData : Type := mkCertificateData {
  studentName : string;
  courseName : string;
  completionDate : string;
  courseId : string;
  studentId : string
}.

Section Certificate.

(** jsPDF's page size for the landscape a4 format, the locale rendering
    of dates and the storage client's public URL of a path. *)
Variable pageWidth pageHeight : Q.
Variable toLocaleDateString : string -> string.
Variable getPublicUrl : string -> string.

Local Open Scope Q_scope.

(** The drawing operations of the certificate, in the order issued. *)
Definition render (data : CertificateData) : Blob :=
  let bandY := 25 in
  let bandHeight := 8 in
  let formattedDate := toLocaleDateString (completionDate data) in
  [ (* Background *)
    SetFillColor 255 255 255;
    Rect 0 0 pageWidth pageHeight "F";
    (* Border with Rwanda flag colors *)
    SetLineWidth 3;
    SetDrawColor 0 161 222;
    Rect 10 10 (pageWidth - 20) (pageHeight - 20) "S";
    SetLineWidth 1;
    SetDrawColor 250 210 1;
    Rect 12 12 (pageWidth - 24) (pageHeight - 24) "S";
    (* Top decorative band *)
    SetFillColor 0 161 222;
    Rect 15 bandY ((pageWidth - 30) / 3) bandHeight "F";
    SetFillColor 250 210 1;
    Rect (15 + (pageWidth - 30) / 3) bandY ((pageWidth - 30) / 3) bandHeight "F";
    SetFillColor 0 166 81;
    Rect (15 + (2 * (pageWidth - 30)) / 3) bandY ((pageWidth - 30) / 3) bandHeight "F";
    (* Certificate Title *)
    SetFont "helvetica" "bold";
    SetFontSize 40;
    SetTextColor 0 161 222;
    Text "CERTIFICATE" (pageWidth / 2) 55 "center";
    SetFontSize 20;
    SetTextColor 80 80 80;
    Text "of Course Completion" (pageWidth / 2) 68 "center";
    (* Decorative line *)
    SetLineWidth (1 # 2);
    SetDrawColor 250 210 1;
    Line (pageWidth / 2 - 50) 72 (pageWidth / 2 + 50) 72;
    (* Student Name *)
    SetFont "helvetica" "normal";
    SetFontSize 16;
    SetTextColor 60 60 60;
    Text "This certifies that" (pageWidth / 2) 85 "center";
    SetFont "helvetica" "bold";
    SetFontSize 32;
    SetTextColor 0 0 0;
    Text (studentName data) (pageWidth / 2) 100 "center";
    (* Course completion text *)
    SetFont "helvetica" "normal";
    SetFontSize 16;
    SetTextColor 60 60 60;
    Text "has successfully completed the course" (pageWidth / 2) 115 "center";
    (* Course Name *)
    SetFont "helvetica" "bold";
    SetFontSize 24;
    SetTextColor 0 166 81;
    Text (courseName data) (pageWidth / 2) 130 "center";
    (* Date *)
    SetFont "helvetica" "normal";
    SetFontSize 14;
    SetTextColor 80 80 80;
    Text ("Completion Date: " ++ formattedDate)%string (pageWidth / 2) 145 "center";
    (* Footer *)
    SetFontSize 12;
    SetTextColor 100 100 100;
    Text "Rwanda Secondary Education Online Learning Platform" (pageWidth / 2) 175 "center";
    (* Signature line *)
    SetLineWidth (1 # 2);
    SetDrawColor 150 150 150;
    Line (pageWidth / 2 - 30) 165 (pageWidth / 2 + 30) 165;
    SetFontSize 10;
    Text "Authorized Signature" (pageWidth / 2) 170 "center" ].

Local Close Scope Q_scope.

(** [`certificate-${courseName.replace(/\s+/g, "-")}-${Date.now()}.pdf`]. *)
Definition certificate_fileName (data : CertificateData) (now : Timestamp) : string :=
  "certificate-" ++ Js.replace_spaces (courseName data) ++ "-" ++ Js.decimal now ++ ".pdf".

(** [`certificates/${studentId}/${fileName}`]. *)
Definition certificate_path (data : CertificateData) (fileName : string) : string :=
  "certificates/" ++ studentId data ++ "/" ++ fileName.

(** [pdf.save(fileName)]: the browser downloads the document. *)
Definition pdf_save (pdf : Blob) (fileName : string) : M unit :=
  modify (fun w => with_downloads (downloads w ++ [(fileName, pdf)]) w).

Definition generateCertificate (data : CertificateData) : M (option string) :=
  (* Create PDF *)
  let pdf := render data in
  (* Convert to blob *)
  let pdfBlob := pdf in
  now <- gets clock ;;
  let fileName := certificate_fileName data now in
  try_catch
    ((* Upload to Supabase Storage *)
     uploadError <- upload (certificate_path data fileName) pdfBlob ;;
     throw_if_error uploadError ;;
     (* Get public URL *)
     let publicUrl := getPublicUrl (certificate_path data fileName) in
     (* Update student_courses with certificate URL *)
     updateError <- update_certificate_url publicUrl (studentId data) (courseId data) ;;
     throw_if_error updateError ;;
     (* Also trigger download *)
     pdf_save pdf fileName ;;
     toast_success "Certificate generated and saved successfully!" ;;
     ret (Some publicUrl))
    (fun error =>
       console_error error ;;
       toast_error "Failed to save certificate" ;;
       (* Still allow download even if upload fails *)
       pdf_save pdf fileName ;;
       ret None).

End Certificate.

(* ================================================================== *)
(** * Percentages *)
(* ================================================================== *)

(** [Math.round] on an exact value: the nearest integer, a tie going up. *)
Definition Math_round (x : Q) : Z := Qfloor (x + (1 # 2))%Q.

(** pages/Analytics.tsx, the completion rate of a subject:
    [enrolled > 0 ? Math.round((completed / enrolled) * 100) : 0]. *)
Definition completionRate (completed enrolled : nat) : Z :=
  if (0 <? enrolled)%nat
  then Math_round ((inject_Z (Z.of_nat completed) / inject_Z (Z.of_nat enrolled)) * 100)%Q
  else 0%Z.

(** Modelled from the spec: Progress Aggregation (section 4.1), which no
    file under src/ implements.  The progress of a student in a course is
    the share of the course's content items that the student's
    content-progress records mark completed, in percent, rounded; a course
    without content items has progress 0. *)
Definition item_completed (student : string) (records : list ContentProgressRow)
    (content_id : string) : bool :=
  existsb (fun r => String.eqb (cp_student_id r) student
                    && String.eqb (cp_content_id r) content_id
                    && cp_completed r) records.

Definition count_completed (student : string) (records : list ContentProgressRow)
    (items : list string) : nat :=
  length (filter (item_completed student records) items).

Definition progressAggregation (student : string) (items : list string)
    (records : list ContentProgressRow) : Z :=
  let total := length items in
  let completed := count_completed student records items in
  if (total =? 0)%nat then 0%Z
  else Math_round ((inject_Z (Z.of_nat completed) / inject_Z (Z.of_nat total)) * 100)%Q.

(** Modelled from the spec: Course Completion Trigger (section 4.2), which
    no file under src/ implements.  One aggregation run hands the trigger
    the aggregated progress; when it has reached the threshold the trigger
    writes [completed = true] and [completed_at = now()], both or neither;
    a run on a completed enrolment, or one whose write fails, changes
    nothing. *)
Definition completionThreshold : Z := 100.

Definition is_completed (e : StudentCourseRow) : bool :=
  match sc_completed e with
  | Some true => true
  | _ => false
  end.

Definition completionTrigger (now : Timestamp) (progress : Z) (write_ok : bool)
    (e : StudentCourseRow) : StudentCourseRow :=
  if is_completed e then e
  else if negb write_ok then e
  else if (completionThreshold <=? progress)%Z
       then mkStudentCourseRow (sc_id e) (sc_student_id e) (sc_subject_id e)
              (sc_progress e) (Some true) (Some now) (sc_certificate_url e)
       else e.

(** Modelled from the spec: the explicit reset of an enrolment's progress
    that section 4.2 excepts from the no-op rule; it takes the enrolment
    back to no progress and not completed. *)
Definition resetProgress (e : StudentCourseRow) : StudentCourseRow :=
  mkStudentCourseRow (sc_id e) (sc_student_id e) (sc_subject_id e)
    (Some Js.zero) (Some false) None (sc_certificate_url e).

(** A sequence of aggregation runs: the time, the aggregated progress and
    whether the write succeeds, for each run. *)
Fixpoint aggregationRuns (runs : list (Timestamp * Z * bool)) (e : StudentCourseRow)
  : StudentCourseRow :=
  match runs with
  | [] => e
  | (now, progress, write_ok) :: runs' =>
      aggregationRuns runs' (completionTrigger now progress write_ok e)
  end.

(* ================================================================== *)
(** * Sample runtime and sample data *)
(* ================================================================== *)

(** Instances of the runtime operations on which the handlers are run in
    the examples: [parseFloat] and [Number.toString] on integer literals,
    the a4 landscape page in millimetres, a project URL. *)
Definition parseFloat_int (s : string) : Js.number :=
  match NilZero.int_of_string s with
  | Some i => Js.Fin (inject_Z (Z.of_int i))
  | None => Js.NaN
  end.

Definition Number_toString_int (n : Js.number) : string :=
  match n with
  | Js.NaN => "NaN"
  | Js.NegInf => "-Infinity"
  | Js.PosInf => "Infinity"
  | Js.Fin q => NilZero.string_of_int (Z.to_int (Qfloor q))
  end.

Definition toISOString_ms (t : Timestamp) : string := Js.decimal t.

Definition a4_width : Q := 297%Q.
Definition a4_height : Q := 210%Q.

Definition toLocaleDateString_id (s : string) : string := s.

Definition publicUrl_of (path : string) : string :=
  "https://project.supabase.co/storage/v1/object/public/content-files/" ++ path.

Definition emptyQueue : GradingQueueState :=
  mkGradingQueueState [] true false None EmptyString EmptyString [] EmptyString EmptyString.

(** A class with one assignment worth 100 points, one worth 10, and three
    submitted works; a teacher is signed in. *)
Definition sample_rows : list SubmissionRow :=
  [ mkSubmissionRow "sub-1" "hw-100" "alice" (Some "essay") (Some 1000%N)
      None None None None (Some "submitted") (Some false);
    mkSubmissionRow "sub-2" "hw-10" "bob" (Some "quiz") (Some 2000%N)
      None None None None (Some "submitted") (Some false);
    mkSubmissionRow "sub-3" "hw-100" "bob" (Some "essay") (Some 3000%N)
      None None None None (Some "submitted") (Some true) ].

Definition sample_world : World :=
  mkWorld
    sample_rows
    [ mkAssignmentRow "hw-100" "Essay" (Js.Fin 100%Q) Js.Null;
      mkAssignmentRow "hw-10" "Quiz" (Js.Fin 10%Q) Js.Null ]
    [ mkProfileRow "alice" "Alice"; mkProfileRow "bob" "Bob" ]
    []
    [ mkStudentCourseRow "e-1" "alice" "math-s1" (Some (Js.Fin 40%Q)) (Some false) None None;
      mkStudentCourseRow "e-2" "bob" "math-s1" (Some (Js.Fin 100%Q)) (Some true)
        (Some 500%N) None ]
    [ mkContentProgressRow "alice" "c1" 100 true ]
    []
    (Some "teacher-1")
    5000%N
    []
    [] [] []
    emptyQueue
    [ "math-s1" ].

(** The first sample submission as the grading queue holds it, and the
    grading dialog opened on it with a grade typed in. *)
Definition sample_submission : Submission :=
  mkSubmission "sub-1" (Some "essay") (Some 1000%N) (Some false) (Some "submitted")
    None None (mkStudent "Alice") (mkAssignment "Essay" (Js.Fin 100%Q) Js.Null).

Definition sample_dialog (typed : string) : GradingQueueState :=
  mkGradingQueueState (query_submissions sample_world) false false
    (Some sample_submission) typed "well done" [] EmptyString EmptyString.

(** The three sample submissions selected for bulk grading with the grade
    50: the second one belongs to the assignment worth 10 points. *)
Definition sample_selection : GradingQueueState :=
  mkGradingQueueState (query_submissions sample_world) false false None
    EmptyString EmptyString [ "sub-1"; "sub-2"; "sub-3" ] "50" "ok".

(** The certificate of alice for the course math-s1, in which her
    enrolment is not completed. *)
Definition sample_certificate : CertificateData :=
  mkCertificateData "Alice" "Mathematics  S1" "2025-11-16" "math-s1" "alice".

(** The sample world with alice signed in. *)
Definition sample_student_world : World :=
  mkWorld [] [] [] []
    (student_courses sample_world) (content_progress sample_world) []
    (Some "alice") 6000%N [] [] [] [] emptyQueue [ "math-s1" ].

(** The same world once alice's enrolment is completed. *)
Definition sample_completed_world : World :=
  with_student_courses
    [ mkStudentCourseRow "e-1" "alice" "math-s1" (Some (Js.Fin 40%Q)) (Some true)
        (Some 5500%N) None;
      mkStudentCourseRow "e-2" "bob" "math-s1" (Some (Js.Fin 100%Q)) (Some true)
        (Some 500%N) None ]
    sample_student_world.

(* ================================================================== *)
(** * What a run leaves alone *)
(* ================================================================== *)

(** The tables and the bucket of two worlds are the same. *)
Definition same_tables (w w' : World) : Prop :=
  assignment_submissions w' = assignment_submissions w /\
  assignments w' = assignments w /\
  profiles w' = profiles w /\
  notifications w' = notifications w /\
  student_courses w' = student_courses w /\
  content_progress w' = content_progress w /\
  content_files w' = content_files w.

(** [m] relates every world to the world it leaves in [R]. *)
Definition preserves {A} (R : World -> World -> Prop) (m : M A) : Prop :=
  forall w, R w (snd (m w)).

(** Every reply still to come is [Done]: the backend carries out every
    request. *)
Definition all_done (w : World) : Prop :=
  Forall (fun r => r = Done) (net w).

(** The rows whose id is among [ids] are updated with [u]. *)
Definition graded_rows (u : SubmissionUpdate) (ids : list string)
    (rows : list SubmissionRow) : list SubmissionRow :=
  map (fun r => if existsb (String.eqb (sr_id r)) ids then apply_update u r else r) rows.

(** The bulk operation grades the submission [submissionId]: the page
    holds it and the shared grade is within its assignment's points. *)
Definition bulk_gradable (parseFloat : string -> Js.number) (st : GradingQueueState)
    (submissionId : string) : bool :=
  match find (fun s => String.eqb (id s) submissionId) (submissions st) with
  | Some submission =>
      negb (out_of_range (parseFloat (bulkGrade st)) (points (assignment submission)))
  | None => false
  end.

Definition is_done (r : Reply) : bool :=
  match r with
  | Done => true
  | _ => false
  end.

(** The upload of a certificate to [path] succeeds: the request is
    carried out and no object is stored under the path yet. *)
Definition upload_succeeds (path : string) (w : World) : bool :=
  is_done (hd Done (net w)) && negb (stored path (content_files w)).

(** The request that follows the upload is carried out. *)
Definition update_succeeds (w : World) : bool :=
  is_done (hd Done (tl (net w))).

(** An enrolment row with other progress and completion values and another
    certificate URL. *)
Definition with_enrolment_values (p : option Js.number) (c : option bool)
    (t : option Timestamp) (url : option string) (r : StudentCourseRow) : StudentCourseRow :=
  mkStudentCourseRow (sc_id r) (sc_student_id r) (sc_subject_id r) p c t url.

(** Two enrolment rows that differ at most in [completed] and
    [completed_at]. *)
Definition same_but_completion (r1 r2 : StudentCourseRow) : Prop :=
  sc_id r2 = sc_id r1 /\
  sc_student_id r2 = sc_student_id r1 /\
  sc_subject_id r2 = sc_subject_id r1 /\
  sc_progress r2 = sc_progress r1 /\
  sc_certificate_url r2 = sc_certificate_url r1.

(** Two worlds that differ at most in the completion state of their
    enrolments. *)
Definition differ_in_completion (w1 w2 : World) : Prop :=
  exists rows2,
    w2 = with_student_courses rows2 w1
    /\ Forall2 same_but_completion (student_courses w1) rows2.

(** The error a failed upload hands to the [catch] block. *)
Definition upload_error (w : World) : Exn :=
  match hd Done (net w) with
  | Done => BackendError "The resource already exists"
  | Failed e => BackendError e
  | Rejected e => BackendError e
  end.

(** The error a failed update hands to the [catch] block. *)
Definition update_error (w : World) : Exn :=
  match hd Done (tl (net w)) with
  | Done => BackendError EmptyString
  | Failed e => BackendError e
  | Rejected e => BackendError e
  end.

(* ================================================================== *)
(** * Further descriptions of runs *)
(* ================================================================== *)

(** What one turn of the bulk loop reports for [submissionId]: the toast
    for a submission the page holds and whose assignment does not admit
    the shared grade. *)
Definition bulk_report (parseFloat : string -> Js.number) (st : GradingQueueState)
    (submissionId : string) : list Toast :=
  match find (fun s => String.eqb (id s) submissionId) (submissions st) with
  | Some submission =>
      if out_of_range (parseFloat (bulkGrade st)) (points (assignment submission))
      then [ToastError ("Invalid grade for " ++ full_name (student submission))]
      else []
  | None => []
  end.

(** Two sample submissions selected for bulk grading with a grade that
    is no number. *)
Definition sample_selection_no_number : GradingQueueState :=
  mkGradingQueueState (query_submissions sample_world) false false None
    EmptyString EmptyString [ "sub-1"; "sub-2" ] "abc" "ok".

(* ================================================================== *)
(** * pages/CourseEnrollment.tsx: enrolling *)
(* ================================================================== *)

Section Enrolment.

(** What the table gives a new row and no migration under src/ shows:
    the generated id (it may depend on the rows present) and the default
    of [progress].  [completed] defaults to false; [completed_at] and
    [certificate_url] have no default. *)
Variable gen_random_uuid : list StudentCourseRow -> string.
Variable default_progress : option Js.number.

(** [from("student_courses").insert({ student_id: s, subject_id: c })]. *)
Definition insert_student_course (s c : string) : M (option string) :=
  request
    (modify (fun w =>
       with_student_courses
         (student_courses w ++
            [mkStudentCourseRow (gen_random_uuid (student_courses w)) s c
               default_progress (Some false) None None]) w) ;;
     ret None).

(** The notification of an enrolment: its body has no [link]. *)
Definition enrolment_notification (user : string) : NotificationRow :=
  mkNotificationRow user "course_enrolled" "Course Enrolled"
    "You have successfully enrolled in a new course" None.

Definition insert_enrolment_notification (user : string) : M (option string) :=
  request
    (modify (fun w =>
       with_notifications (notifications w ++ [enrolment_notification user]) w) ;;
     ret None).

(** [new Set([...enrolledCourses, subjectId])]. *)
Definition set_add (x : string) (s : list string) : list string :=
  if existsb (String.eqb x) s then s else s ++ [x].

(** [handleEnroll]; [enrolled] is the [enrolledCourses] set the handler
    closes over. *)
Definition handleEnroll (enrolled : list string) (subjectId : string) : M unit :=
  try_catch
    (user <- getUser ;;
     match user with
     | None => ret tt
     | Some user_id =>
         error <- insert_student_course user_id subjectId ;;
         throw_if_error error ;;
         setEnrolledCourses (set_add subjectId enrolled) ;;
         toast_success "Enrolled successfully!" ;;
         (* Create notification *)
         _ <- insert_enrolment_notification user_id ;;
         ret tt
     end)
    (fun error =>
       toast_error "Failed to enroll in course" ;;
       console_error error).

End Enrolment.

(** Sample defaults of a new enrolment row. *)
Definition sample_uuid (rows : list StudentCourseRow) : string :=
  "e-" ++ Js.decimal (N.of_nat (S (length rows))).

(** The sample world with a student signed in who is enrolled nowhere. *)
Definition sample_newcomer_world : World :=
  mkWorld [] [] [] []
    (student_courses sample_world) (content_progress sample_world) []
    (Some "carol") 6000%N [] [] [] [] emptyQueue [].

(** A string holds a white-space code unit. *)
Fixpoint has_space (s : string) : bool :=
  match s with
  | EmptyString => false
  | String c s' => Js.is_space c || has_space s'
  end.

(** What a run of generateCertificate may do to an enrolment row: leave
    it, or record [url] on it when it is a row of (student, course). *)
Definition certificate_recorded (s c url : string) (r r' : StudentCourseRow) : Prop :=
  r' = r \/ (enrolment_of s c r = true /\ r' = set_certificate_url url r).

(* ================================================================== *)
(** * pages/Progress.tsx *)
(* ================================================================== *)

(** [Math.max(...)] of numbers: NaN as soon as one argument is NaN,
    [-Infinity] without arguments. *)
Definition max2 (a b : Js.number) : Js.number :=
  if Js.isNaN a || Js.isNaN b then Js.NaN
  else if Js.lt a b then b else a.

Definition Math_max (l : list Js.number) : Js.number :=
  fold_left max2 l Js.NegInf.

(** A completed quiz attempt as the page holds it. *)
Record AttemptData : Type := mkAttemptData {
  a_id : string;
  score : Js.number;
  max_score : Js.number;
  a_completed_at : Timestamp;
  quiz_title : string;
  quiz_subject_name : string
}.

(** public.quiz_attempts with the quiz and subject it embeds (quiz_id and
    the quiz's subject_id are NOT NULL foreign keys); the page only reads
    it. *)
Record AttemptRow : Type := mkAttemptRow {
  qa_id : string;
  qa_student_id : string;
  qa_score : Js.number;
  qa_max_score : Js.number;
  qa_completed_at : option Timestamp;
  qa_quiz_title : string;
  qa_subject_name : string
}.

(** public.subjects: the columns the page embeds. *)
Record SubjectRow : Type := mkSubjectRow {
  sub_id : string;
  sub_name : string;
  sub_year_level : option string
}.

(** [subject:subjects(name, year_level)] as a row embeds it. *)
Record SubjectEmbed : Type := mkSubjectEmbed {
  se_name : string;
  se_year_level : option string
}.

(** A completed course as the page holds it; [cc_subject] is null when
    the row's subject is not in the table. *)
Record CompletedCourse : Type := mkCompletedCourse {
  cc_id : string;
  cc_subject_id : string;
  cc_completed : option bool;
  cc_completed_at : option Timestamp;
  cc_certificate_url : option string;
  cc_subject : option SubjectEmbed
}.

Record Stats : Type := mkStats {
  totalQuizzes : nat;
  averageScore : Js.number;
  highestScore : Js.number
}.

(** The state of the Progress component. *)
Record ProgressState : Type := mkProgressState {
  attempts : list AttemptData;
  completedCourses : list CompletedCourse;
  progressLoading : bool;
  generatingCert : option string;
  stats : Stats
}.

Definition setAttempts (x : list AttemptData) (s : ProgressState) : ProgressState :=
  mkProgressState x (completedCourses s) (progressLoading s) (generatingCert s) (stats s).

Definition setCompletedCourses (x : list CompletedCourse) (s : ProgressState) : ProgressState :=
  mkProgressState (attempts s) x (progressLoading s) (generatingCert s) (stats s).

Definition setProgressLoading (x : bool) (s : ProgressState) : ProgressState :=
  mkProgressState (attempts s) (completedCourses s) x (generatingCert s) (stats s).

Definition setGeneratingCert (x : option string) (s : ProgressState) : ProgressState :=
  mkProgressState (attempts s) (completedCourses s) (progressLoading s) x (stats s).

Definition setStats (x : Stats) (s : ProgressState) : ProgressState :=
  mkProgressState (attempts s) (completedCourses s) (progressLoading s) (generatingCert s) x.

(** [.order("completed_at", { ascending: false })]. *)
Fixpoint insert_by_completed_at (a : AttemptData) (l : list AttemptData) : list AttemptData :=
  match l with
  | [] => [a]
  | x :: l' =>
      if (a_completed_at x <=? a_completed_at a)%N then a :: l
      else x :: insert_by_completed_at a l'
  end.

Fixpoint order_by_completed_at (l : list AttemptData) : list AttemptData :=
  match l with
  | [] => []
  | x :: l' => insert_by_completed_at x (order_by_completed_at l')
  end.

(** [.eq("student_id", user).not("completed_at", "is", null)]. *)
Fixpoint select_attempts (user : string) (rows : list AttemptRow) : list AttemptData :=
  match rows with
  | [] => []
  | r :: rows' =>
      match qa_completed_at r with
      | Some t =>
          if String.eqb (qa_student_id r) user
          then mkAttemptData (qa_id r) (qa_score r) (qa_max_score r) t
                 (qa_quiz_title r) (qa_subject_name r) :: select_attempts user rows'
          else select_attempts user rows'
      | None => select_attempts user rows'
      end
  end.

(** [`${v}`] of a nullable text column. *)
Definition text_or_null (x : option string) : string :=
  match x with
  | Some s => s
  | None => "null"
  end.

Section ProgressPage.

(** The tables the page only reads, the arithmetic of doubles, and the
    text of a [completed_at] value as [new Date(...)] receives it. *)
Variable quiz_attempts : list AttemptRow.
Variable subjects : list SubjectRow.
Variable fadd fmul fdiv : Js.number -> Js.number -> Js.number.
Variable completed_at_text : option Timestamp -> string.

Variable pageWidth pageHeight : Q.
Variable toLocaleDateString : string -> string.
Variable getPublicUrl : string -> string.

(** [.eq("student_id", user).eq("completed", true)] on student_courses,
    with the subject each row embeds. *)
Definition is_completed_of (user : string) (r : StudentCourseRow) : bool :=
  String.eqb (sc_student_id r) user
  && match sc_completed r with
     | Some true => true
     | _ => false
     end.

Definition select_course (r : StudentCourseRow) : CompletedCourse :=
  mkCompletedCourse (sc_id r) (sc_subject_id r) (sc_completed r)
    (sc_completed_at r) (sc_certificate_url r)
    (option_map (fun s => mkSubjectEmbed (sub_name s) (sub_year_level s))
       (find (fun s => String.eqb (sub_id s) (sc_subject_id r)) subjects)).

Definition query_completed_courses (user : string) (w : World) : list CompletedCourse :=
  map select_course (filter (is_completed_of user) (student_courses w)).

(** The statistics of the attempts. *)
Definition percentage (a : AttemptData) : Js.number :=
  fmul (fdiv (score a) (max_score a)) (Js.Fin 100%Q).

Definition compute_stats (typedData : list AttemptData) : Stats :=
  let totalQuizzes := length typedData in
  let scores := map percentage typedData in
  let averageScore :=
    fdiv (fold_left fadd scores Js.zero)
         (Js.of_nat (if (totalQuizzes =? 0)%nat then 1%nat else totalQuizzes)) in
  let highestScore := Math_max (scores ++ [Js.zero]) in
  mkStats totalQuizzes averageScore highestScore.

(** [fetchProgress]; the page state is passed in and handed back. *)
Definition fetchProgress (ps : ProgressState) : M ProgressState :=
  session <- getSession ;;
  match session with
  | None =>
      toast_error "Please sign in to view your progress" ;;
      ret (setProgressLoading false ps)
  | Some user =>
      r <- next_reply ;;
      match r with
      | Rejected e => throw (BackendError e)
      | Failed _ =>
          toast_error "Failed to load progress" ;;
          ret (setProgressLoading false ps)
      | Done =>
          let typedData := order_by_completed_at (select_attempts user quiz_attempts) in
          let ps1 := setAttempts typedData ps in
          (* Calculate stats *)
          let ps2 := setStats (compute_stats typedData) ps1 in
          (* Fetch completed courses *)
          r2 <- next_reply ;;
          match r2 with
          | Rejected e => throw (BackendError e)
          | Failed _ =>
              ret (setProgressLoading false (setCompletedCourses [] ps2))
          | Done =>
              coursesData <- gets (query_completed_courses user) ;;
              ret (setProgressLoading false (setCompletedCourses coursesData ps2))
          end
      end
  end.

(** [.from("profiles").select("full_name").eq("id", user).single()]:
    the row when there is exactly one. *)
Definition single_profile (user : string) (w : World) : option ProfileRow :=
  match filter (fun p => String.eqb (pr_id p) user) (profiles w) with
  | [p] => Some p
  | _ => None
  end.

Definition certificate_data (profile : option ProfileRow) (course : CompletedCourse)
    (subject : SubjectEmbed) (user : string) : CertificateData :=
  mkCertificateData
    (Js.or_else (option_map pr_full_name profile) "Student")
    (se_name subject ++ " " ++ text_or_null (se_year_level subject))
    (completed_at_text (cc_completed_at course))
    (cc_subject_id course)
    user.

(** [handleGenerateCertificate]; reading [course.subject.name] of a
    course without subject throws.  The refresh that ends it is not
    awaited: when it throws, the model hands back the state before the
    refresh (the cells the refresh had set by then are not tracked). *)
Definition handleGenerateCertificate (ps : ProgressState) (course : CompletedCourse)
  : M ProgressState :=
  session <- getSession ;;
  match session with
  | None => ret ps
  | Some user =>
      r <- next_reply ;;
      profile <- match r with
                 | Done => gets (single_profile user)
                 | Failed _ => ret None
                 | Rejected e => throw (BackendError e)
                 end ;;
      let ps1 := setGeneratingCert (Some (cc_id course)) ps in
      match cc_subject course with
      | None => throw (TypeError "Cannot read properties of null (reading 'name')")
      | Some subject =>
          _ <- generateCertificate pageWidth pageHeight toLocaleDateString getPublicUrl
                 (certificate_data profile course subject user) ;;
          let ps2 := setGeneratingCert None ps1 in
          (* Refresh to get updated certificate URL *)
          try_catch (fetchProgress ps2) (fun _ => ret ps2)
      end
  end.

End ProgressPage.

(** Sample tables and runtime functions of the progress page: exact
    arithmetic on finite numbers. *)
Definition sample_subjects : list SubjectRow :=
  [ mkSubjectRow "math-s1" "Mathematics" (Some "S1") ].

Definition sample_quiz_attempts : list AttemptRow :=
  [ mkAttemptRow "qa-1" "alice" (Js.Fin 8%Q) (Js.Fin 10%Q) (Some 4000%N) "Fractions" "Mathematics";
    mkAttemptRow "qa-2" "bob" (Js.Fin 3%Q) (Js.Fin 10%Q) (Some 4100%N) "Fractions" "Mathematics";
    mkAttemptRow "qa-3" "alice" (Js.Fin 5%Q) (Js.Fin 10%Q) None "Decimals" "Mathematics" ].

Definition finite_op (f : Q -> Q -> Q) (a b : Js.number) : Js.number :=
  match a, b with
  | Js.Fin x, Js.Fin y => Js.Fin (Qred (f x y))
  | _, _ => Js.NaN
  end.

Definition sample_fadd : Js.number -> Js.number -> Js.number := finite_op Qplus.
Definition sample_fmul : Js.number -> Js.number -> Js.number := finite_op Qmult.
Definition sample_fdiv : Js.number -> Js.number -> Js.number := finite_op Qdiv.

Definition sample_completed_at_text (t : option Timestamp) : string :=
  match t with
  | Some n => Js.decimal n
  | None => "null"
  end.

Definition sample_stats : Stats := mkStats 0 Js.zero Js.zero.

Definition sample_progress : ProgressState :=
  mkProgressState [] [] true None sample_stats.

Definition sample_attempts : list AttemptData :=
  [ mkAttemptData "qa-1" (Js.Fin 8%Q) (Js.Fin 10%Q) 4000%N "Fractions" "Mathematics";
    mkAttemptData "qa-4" (Js.Fin 9%Q) (Js.Fin 10%Q) 3000%N "Decimals" "Mathematics" ].

Definition sample_course : CompletedCourse :=
  mkCompletedCourse "e-1" "math-s1" (Some true) (Some 5500%N) None
    (Some (mkSubjectEmbed "Mathematics" (Some "S1"))).

(** The world of the completed enrolments without a session. *)
Definition sample_signed_out_world : World :=
  mkWorld [] [] [] [] (student_courses sample_completed_world) [] []
    None 6000%N [] [] [] [] emptyQueue [].

(* ================================================================== *)
(** * Percentages: rounding *)
(* ================================================================== *)

Section Rounding.

Local Open Scope Z_scope.

(** [Math.round] of a quotient of integers, as one integer division. *)
Lemma Math_round_ratio (k : Z) (n : positive) :
  Math_round ((inject_Z k / inject_Z (Zpos n)) * 100)%Q
  = (200 * k + Zpos n) / (2 * Zpos n).
Proof.
  unfold Math_round.
  assert (E : (((inject_Z k / inject_Z (Zpos n)) * 100) + (1 # 2)
               == (200 * k + Zpos n) # (2 * n))%Q).
  { unfold Qeq, Qdiv, Qmult, Qplus, Qinv, inject_Z; cbn [Qnum Qden].
    rewrite !Pos2Z.inj_mul. lia. }
  rewrite (Qfloor_comp _ _ E).
  reflexivity.
Qed.

Lemma Math_round_percent (k n : nat) :
  (0 < n)%nat ->
  Math_round ((inject_Z (Z.of_nat k) / inject_Z (Z.of_nat n)) * 100)%Q
  = (200 * Z.of_nat k + Z.of_nat n) / (2 * Z.of_nat n).
Proof.
  intros Hn.
  destruct n as [|n']; [lia|].
  replace (Z.of_nat (S n')) with (Zpos (Pos.of_succ_nat n')) by lia.
  apply Math_round_ratio.
Qed.

(** The rounded percentage is the integer nearest to the exact one, a tie
    going up. *)
Lemma nearest_percent (k n : Z) :
  0 < n ->
  let p := (200 * k + n) / (2 * n) in
  2 * n * p <= 200 * k + n < 2 * n * (p + 1).
Proof.
  intros Hn p. subst p.
  split.
  - apply Z.mul_div_le. lia.
  - rewrite Z.mul_add_distr_l, Z.mul_1_r.
    pose proof (Z.mod_pos_bound (200 * k + n) (2 * n)) as Hm.
    pose proof (Z.div_mod (200 * k + n) (2 * n)) as Hd.
    lia.
Qed.

Lemma percent_range (k n : Z) :
  0 < n -> 0 <= k <= n -> 0 <= (200 * k + n) / (2 * n) <= 100.
Proof.
  intros Hn Hk. split.
  - apply Z.div_pos; lia.
  - apply Z.lt_succ_r. apply Z.div_lt_upper_bound; lia.
Qed.

End Rounding.

Lemma count_completed_le (student : string) (records : list ContentProgressRow)
    (items : list string) :
  (count_completed student records items <= length items)%nat.
Proof.
  unfold count_completed.
  induction items as [|i items IH]; simpl; [lia|].
  destruct (item_completed student records i); simpl; lia.
Qed.

(** Progress Aggregation is the percentage expression of the analytics
    page, applied to the content items of the course. *)
Lemma progressAggregation_completionRate
    (student : string) (items : list string) (records : list ContentProgressRow) :
  progressAggregation student items records
  = completionRate (count_completed student records items) (length items).
Proof.
  unfold progressAggregation, completionRate.
  destruct (length items); reflexivity.
Qed.

(** C1: for a course with N content items of which K are completed by the
    student, Progress Aggregation is 0 when N = 0 and, when N > 0, it is
    [Math.round(K / N * 100)]: the integer p nearest to 100 K / N (a tie
    going up), that is 2 N p <= 200 K + N < 2 N (p + 1); it lies in
    [0, 100]. *)
Theorem progressAggregation_rounds
    (student : string) (items : list string) (records : list ContentProgressRow) :
  let N := length items in
  let K := count_completed student records items in
  let p := progressAggregation student items records in
  (N = 0%nat -> p = 0%Z) /\
  ((0 < N)%nat ->
     p = Math_round ((inject_Z (Z.of_nat K) / inject_Z (Z.of_nat N)) * 100)%Q /\
     (2 * Z.of_nat N * p <= 200 * Z.of_nat K + Z.of_nat N < 2 * Z.of_nat N * (p + 1))%Z) /\
  (0 <= p <= 100)%Z.
Proof.
  intros N K p.
  pose proof (count_completed_le student records items) as HK.
  fold N K in HK.
  assert (Hp : (0 < N)%nat -> p = ((200 * Z.of_nat K + Z.of_nat N) / (2 * Z.of_nat N))%Z).
  { intros HN. subst p. unfold progressAggregation. fold N K.
    destruct (Nat.eqb_spec N 0) as [E|_]; [lia|].
    now apply Math_round_percent. }
  split; [|split].
  - intros HN. subst p. unfold progressAggregation. fold N. now rewrite HN.
  - intros HN. split.
    + subst p. unfold progressAggregation. fold N K.
      destruct (Nat.eqb_spec N 0) as [E|_]; [lia|reflexivity].
    + rewrite (Hp HN). apply nearest_percent. lia.
  - destruct (Nat.eq_dec N 0) as [E|E].
    + subst p. unfold progressAggregation. fold N. rewrite E. simpl. lia.
    + rewrite Hp by lia. apply percent_range; lia.
Qed.

Lemma progressAggregation_rounds_witness :
  let items := ["c1"; "c2"; "c3"; "c4"] in
  let records := [ mkContentProgressRow "alice" "c1" 100 true;
                   mkContentProgressRow "alice" "c2" 100 true;
                   mkContentProgressRow "alice" "c3" 100 true;
                   mkContentProgressRow "alice" "c4" 10 false ] in
  (0 < length items)%nat /\
  progressAggregation "alice" items records = 75%Z /\
  progressAggregation "alice" [] records = 0%Z.
Proof.
  intros items records.
  split; [simpl; lia|].
  split.
  - destruct (progressAggregation_rounds "alice" items records) as (_ & H & _).
    destruct H as [H _]; [simpl; lia|].
    rewrite H. reflexivity.
  - destruct (progressAggregation_rounds "alice" [] records) as (H & _ & _).
    apply H. reflexivity.
Defined.

(* ================================================================== *)
(** * Completion trigger *)
(* ================================================================== *)

Lemma completionTrigger_completed (now : Timestamp) (progress : Z) (write_ok : bool)
    (e : StudentCourseRow) :
  is_completed e = true -> completionTrigger now progress write_ok e = e.
Proof.
  intros H. unfold completionTrigger. now rewrite H.
Qed.

Lemma aggregationRuns_completed (runs : list (Timestamp * Z * bool)) (e : StudentCourseRow) :
  is_completed e = true -> aggregationRuns runs e = e.
Proof.
  induction runs as [|[[now progress] ok] runs IH]; intros H; simpl.
  - reflexivity.
  - rewrite completionTrigger_completed by assumption. now apply IH.
Qed.

Lemma completionTrigger_failed_write (now : Timestamp) (progress : Z) (e : StudentCourseRow) :
  completionTrigger now progress false e = e.
Proof.
  unfold completionTrigger. now destruct (is_completed e).
Qed.

(** C2: when the aggregated progress of an enrolment that is not yet
    completed reaches the threshold at time t1, the trigger sets
    completed = true and completed_at = t1; every later sequence of
    aggregation runs leaves the enrolment as it is, in particular a run
    that yields 100 again at a time t2 keeps completed_at = t1; after an
    explicit reset the next run at 100 stamps the new time. *)
Theorem completionTrigger_once
    (e : StudentCourseRow) (t1 : Timestamp) (p1 : Z)
    (runs : list (Timestamp * Z * bool)) :
  is_completed e = false ->
  (completionThreshold <= p1)%Z ->
  let e1 := completionTrigger t1 p1 true e in
  sc_completed e1 = Some true /\
  sc_completed_at e1 = Some t1 /\
  aggregationRuns runs e1 = e1 /\
  (forall t2 ok, completionTrigger t2 100 ok e1 = e1) /\
  (forall t2, sc_completed_at (completionTrigger t2 100 true (resetProgress e1)) = Some t2).
Proof.
  intros He Hp e1.
  assert (E1 : e1 = mkStudentCourseRow (sc_id e) (sc_student_id e) (sc_subject_id e)
                      (sc_progress e) (Some true) (Some t1) (sc_certificate_url e)).
  { subst e1. unfold completionTrigger. rewrite He. simpl.
    apply Z.leb_le in Hp. now rewrite Hp. }
  assert (C1 : is_completed e1 = true) by now rewrite E1.
  split; [|split; [|split; [|split]]].
  - now rewrite E1.
  - now rewrite E1.
  - now apply aggregationRuns_completed.
  - intros t2 ok. now apply completionTrigger_completed.
  - intros t2. reflexivity.
Qed.

Lemma completionTrigger_once_witness :
  let e := mkStudentCourseRow "e-1" "alice" "math-s1" (Some (Js.Fin 75%Q)) (Some false)
             None None in
  is_completed e = false /\
  (completionThreshold <= 100)%Z /\
  sc_completed_at
    (aggregationRuns [(9000%N, 100%Z, true); (9500%N, 100%Z, true)]
       (completionTrigger 7000%N 100 true e)) = Some 7000%N.
Proof.
  intros e.
  split; [reflexivity|].
  split; [unfold completionThreshold; lia|].
  destruct (completionTrigger_once e 7000%N 100
              [(9000%N, 100%Z, true); (9500%N, 100%Z, true)])
    as (_ & Hat & Hruns & _).
  - reflexivity.
  - unfold completionThreshold; lia.
  - rewrite Hruns. exact Hat.
Defined.

(** The scenario of a course with four content items: with three of them
    completed the progress is 75 and the enrolment stays open; with the
    fourth completed the progress is 100 and the enrolment is completed
    and stamped. *)
Example four_items_scenario :
  let items := ["c1"; "c2"; "c3"; "c4"] in
  let done3 := [ mkContentProgressRow "alice" "c1" 100 true;
                 mkContentProgressRow "alice" "c2" 100 true;
                 mkContentProgressRow "alice" "c3" 100 true;
                 mkContentProgressRow "alice" "c4" 60 false ] in
  let done4 := [ mkContentProgressRow "alice" "c1" 100 true;
                 mkContentProgressRow "alice" "c2" 100 true;
                 mkContentProgressRow "alice" "c3" 100 true;
                 mkContentProgressRow "alice" "c4" 100 true ] in
  let e := mkStudentCourseRow "e-1" "alice" "math-s1" None (Some false) None None in
  let e3 := completionTrigger 7000%N (progressAggregation "alice" items done3) true e in
  let e4 := completionTrigger 8000%N (progressAggregation "alice" items done4) true e3 in
  progressAggregation "alice" items done3 = 75%Z
  /\ sc_completed e3 = Some false
  /\ progressAggregation "alice" items done4 = 100%Z
  /\ sc_completed e4 = Some true
  /\ sc_completed_at e4 = Some 8000%N.
Proof. repeat split. Qed.

(* ================================================================== *)
(** * Reasoning about handlers *)
(* ================================================================== *)

Lemma bind_step {A B} (m : M A) (k : A -> M B) (w w1 : World) (a : A) :
  m w = (Ret a, w1) -> bind m k w = k a w1.
Proof. intros H. unfold bind. now rewrite H. Qed.

Lemma try_catch_ret {A} (m : M A) (h : Exn -> M A) (w w1 : World) (a : A) :
  m w = (Ret a, w1) -> try_catch m h w = (Ret a, w1).
Proof. intros H. unfold try_catch. now rewrite H. Qed.

Lemma try_catch_throw {A} (m : M A) (h : Exn -> M A) (w w1 : World) (e : Exn) :
  m w = (Throw e, w1) -> try_catch m h w = h e w1.
Proof. intros H. unfold try_catch. now rewrite H. Qed.

(** Worlds are kept in normal form along a run. *)
Ltac norm_world :=
  cbn [with_assignment_submissions with_notifications with_student_courses
       with_content_files with_clock with_net with_toasts with_console_errors
       with_downloads with_gradingQueue with_enrolledCourses
       assignment_submissions assignments profiles notifications student_courses
       content_progress content_files auth_user clock net toasts console_errors
       downloads gradingQueue enrolledCourses
       submissions loading grading selectedSubmission gradeInput feedbackInput
       selectedSubmissions bulkGrade bulkFeedback fst snd].

Ltac step := erewrite bind_step by reflexivity; norm_world.

Section Preservation.

Variable R : World -> World -> Prop.
Hypothesis R_refl : forall w, R w w.
Hypothesis R_trans : forall w1 w2 w3, R w1 w2 -> R w2 w3 -> R w1 w3.

Lemma preserves_ret {A} (a : A) : preserves R (ret a).
Proof. intros w. apply R_refl. Qed.

Lemma preserves_throw {A} (e : Exn) : preserves R (@throw A e).
Proof. intros w. apply R_refl. Qed.

Lemma preserves_gets {A} (f : World -> A) : preserves R (gets f).
Proof. intros w. apply R_refl. Qed.

Lemma preserves_bind {A B} (m : M A) (k : A -> M B) :
  preserves R m -> (forall a, preserves R (k a)) -> preserves R (bind m k).
Proof.
  intros Hm Hk w. unfold bind.
  specialize (Hm w). destruct (m w) as [[a|e] w1]; simpl in *.
  - eapply R_trans; [exact Hm|]. apply Hk.
  - exact Hm.
Qed.

Lemma preserves_try_catch {A} (m : M A) (h : Exn -> M A) :
  preserves R m -> (forall e, preserves R (h e)) -> preserves R (try_catch m h).
Proof.
  intros Hm Hh w. unfold try_catch.
  specialize (Hm w). destruct (m w) as [[a|e] w1]; simpl in *.
  - exact Hm.
  - eapply R_trans; [exact Hm|]. apply Hh.
Qed.

Lemma preserves_for_of {A} (xs : list A) (body : A -> M unit) :
  (forall x, preserves R (body x)) -> preserves R (for_of xs body).
Proof.
  intros Hb. induction xs as [|x xs IH]; simpl.
  - apply preserves_ret.
  - apply preserves_bind; [apply Hb|]. intros _. exact IH.
Qed.

Lemma preserves_floating (m : M unit) : preserves R m -> preserves R (floating m).
Proof.
  intros Hm. unfold floating. apply preserves_try_catch; [exact Hm|].
  intros e. apply preserves_ret.
Qed.

End Preservation.

Lemma same_tables_refl (w : World) : same_tables w w.
Proof. repeat split. Qed.

Lemma same_tables_trans (w1 w2 w3 : World) :
  same_tables w1 w2 -> same_tables w2 w3 -> same_tables w1 w3.
Proof.
  unfold same_tables.
  intros (A1 & A2 & A3 & A4 & A5 & A6 & A7) (B1 & B2 & B3 & B4 & B5 & B6 & B7).
  repeat split; congruence.
Qed.

(** Handlers built from steps that keep the tables keep the tables. *)
Ltac keeps_tables :=
  repeat first
    [ apply (preserves_bind same_tables same_tables_trans); [|intros ?]
    | apply (preserves_try_catch same_tables same_tables_trans); [|intros ?]
    | apply (preserves_floating same_tables same_tables_refl same_tables_trans)
    | apply (preserves_for_of same_tables same_tables_refl same_tables_trans); intros ?
    | apply (preserves_ret same_tables same_tables_refl)
    | apply (preserves_throw same_tables same_tables_refl)
    | apply (preserves_gets same_tables same_tables_refl)
    | assumption
    | solve [intros ?; repeat split]
    | match goal with
      | |- preserves _ (match ?x with _ => _ end) => destruct x
      | |- preserves _ (if ?x then _ else _) => destruct x
      end ].

Lemma fetchSubmissions_tables : preserves same_tables fetchSubmissions.
Proof.
  unfold fetchSubmissions, getSession. keeps_tables.
Qed.

(* ================================================================== *)
(** * Grading: validation and the single-grade operation *)
(* ================================================================== *)

Lemma out_of_range_finite (g p : Q) :
  out_of_range (Js.Fin g) (Js.Fin p) = true <-> (g < 0 \/ p < g)%Q.
Proof.
  unfold out_of_range, Js.gt, Js.lt, Js.zero; simpl.
  rewrite orb_true_iff, !negb_true_iff.
  split.
  - intros [H|H]; [left|right]; apply Qnot_le_lt; intros C;
      apply Qle_bool_iff in C; congruence.
  - intros [H|H]; [left|right];
      (destruct (Qle_bool _ _) eqn:E; [|reflexivity]);
      apply Qle_bool_iff in E; exfalso; eapply Qlt_not_le; eauto.
Qed.

Lemma in_range_finite (g p : Q) :
  out_of_range (Js.Fin g) (Js.Fin p) = false <-> (0 <= g /\ g <= p)%Q.
Proof.
  split.
  - intros H. split; apply Qnot_lt_le; intros C;
      assert (T : out_of_range (Js.Fin g) (Js.Fin p) = true)
        by (apply out_of_range_finite; auto);
      congruence.
  - intros [H0 Hp]. destruct (out_of_range (Js.Fin g) (Js.Fin p)) eqn:E; [|reflexivity].
    apply out_of_range_finite in E. destruct E as [E|E]; exfalso.
    + eapply Qlt_not_le; eauto.
    + eapply Qlt_not_le; eauto.
Qed.

(** A value that is not a number is never in range. *)
Lemma out_of_range_NaN (p : Js.number) : out_of_range Js.NaN p = true.
Proof. reflexivity. Qed.

Lemma update_submissions_done (u : SubmissionUpdate) (i : string) (w : World) :
  hd Done (net w) = Done ->
  update_submissions u i w
  = (Ret None,
     with_assignment_submissions
       (map (fun r => if String.eqb (sr_id r) i then apply_update u r else r)
            (assignment_submissions w))
       (with_net (tl (net w)) w)).
Proof.
  intros H. unfold update_submissions, request, bind, next_reply. cbn. now rewrite H.
Qed.

Lemma update_submissions_failed (u : SubmissionUpdate) (i : string) (w : World) (e : string) :
  hd Done (net w) = Failed e ->
  update_submissions u i w = (Ret (Some e), with_net (tl (net w)) w).
Proof.
  intros H. unfold update_submissions, request, bind, next_reply. cbn. now rewrite H.
Qed.

(** A notification without a user id is refused by the table. *)
Lemma insert_notification_refused (n : NotificationInsert) :
  user_id n = Js.Undefined -> preserves same_tables (insert_notification n).
Proof.
  intros H. unfold insert_notification, request. rewrite H.
  keeps_tables.
Qed.

Section GradingFacts.

Variable parseFloat : string -> Js.number.
Variable Number_toString : Js.number -> string.
Variable toISOString : Timestamp -> string.

(** The page holds no [student_id] for a submission: the user id of the
    notification is [undefined]. *)
Lemma graded_notification_user_id (s : Submission) (g : Js.number) :
  user_id (graded_notification Number_toString toISOString s g) = Js.Undefined.
Proof. reflexivity. Qed.

Lemma graded_notification_link (s : Submission) (g : Js.number) :
  link (graded_notification Number_toString toISOString s g) = "/assignments/undefined".
Proof. reflexivity. Qed.

Lemma submitGrade_rejects (st : GradingQueueState) (w : World) (sel : Submission) :
  selectedSubmission st = Some sel ->
  out_of_range (parseFloat (gradeInput st)) (points (assignment sel)) = true ->
  exists msg,
    (msg = "Please enter a grade"
     \/ msg = ("Grade must be between 0 and "
               ++ Number_toString (points (assignment sel)))%string)
    /\ submitGrade parseFloat Number_toString toISOString st w = (Ret tt, with_toasts (toasts w ++ [ToastError msg]) w).
Proof.
  intros Hsel Hout. unfold submitGrade. rewrite Hsel.
  destruct (Js.is_empty (gradeInput st)).
  - eexists. split; [left; reflexivity|reflexivity].
  - cbv zeta. rewrite Hout. eexists. split; [right; reflexivity|reflexivity].
Qed.

(** What follows a successful update leaves the tables alone. *)
Lemma after_update_tables (sel : Submission) (g : Js.number) :
  preserves same_tables
    (_ <- insert_notification (graded_notification Number_toString toISOString sel g) ;;
     toast_success "Grade submitted successfully" ;;
     setSelectedSubmission None ;;
     setGrade EmptyString ;;
     setFeedback EmptyString ;;
     setGrading false ;;
     floating fetchSubmissions).
Proof.
  apply (preserves_bind same_tables same_tables_trans).
  - apply insert_notification_refused, graded_notification_user_id.
  - intros _. keeps_tables.
Qed.

Lemma submitGrade_accepts (st : GradingQueueState) (w : World) (sel : Submission) :
  selectedSubmission st = Some sel ->
  Js.is_empty (gradeInput st) = false ->
  out_of_range (parseFloat (gradeInput st)) (points (assignment sel)) = false ->
  hd Done (net w) = Done ->
  let w' := exec (submitGrade parseFloat Number_toString toISOString st) w in
  assignment_submissions w'
  = map (fun r => if String.eqb (sr_id r) (id sel)
                  then apply_update
                         (mkSubmissionUpdate (parseFloat (gradeInput st)) (feedbackInput st)
                            "graded" (clock w) (auth_user w)) r
                  else r)
        (assignment_submissions w)
  /\ notifications w' = notifications w.
Proof.
  intros Hsel Hne Hin Hnet w'. subst w'.
  unfold exec, submitGrade. rewrite Hsel, Hne. cbv zeta. rewrite Hin.
  erewrite bind_step by reflexivity.
  erewrite bind_step by reflexivity.
  erewrite bind_step by reflexivity.
  erewrite bind_step by (apply update_submissions_done; exact Hnet).
  match goal with
  | |- context [snd (?m ?w0)] =>
      destruct (after_update_tables sel (parseFloat (gradeInput st)) w0)
        as (T1 & _ & _ & T4 & _)
  end.
  split.
  - etransitivity; [exact T1|]. reflexivity.
  - etransitivity; [exact T4|]. reflexivity.
Qed.

Lemma submitGrade_update_fails (st : GradingQueueState) (w : World) (sel : Submission)
    (e : string) :
  selectedSubmission st = Some sel ->
  Js.is_empty (gradeInput st) = false ->
  out_of_range (parseFloat (gradeInput st)) (points (assignment sel)) = false ->
  hd Done (net w) = Failed e ->
  let w' := exec (submitGrade parseFloat Number_toString toISOString st) w in
  same_tables w w' /\ toasts w' = toasts w ++ [ToastError "Failed to submit grade"].
Proof.
  intros Hsel Hne Hin Hnet w'. subst w'.
  unfold exec, submitGrade. rewrite Hsel, Hne. cbv zeta. rewrite Hin.
  erewrite bind_step by reflexivity.
  erewrite bind_step by reflexivity.
  erewrite bind_step by reflexivity.
  erewrite bind_step by (apply update_submissions_failed; exact Hnet).
  split; [repeat split|reflexivity].
Qed.

End GradingFacts.

Section GradeValidation.

Variable parseFloat : string -> Js.number.
Variable Number_toString : Js.number -> string.
Variable toISOString : Timestamp -> string.

(** C3: in the single-grade operation a grade g with g < 0 or
    g > assignment.points is rejected with a validation error: the handler
    only shows an error toast, the world is otherwise untouched and no
    request is sent.  The boundary grades g = 0 and g = assignment.points
    (for an assignment worth p >= 0 points) pass the validation and, when
    the update succeeds, the row of the submission holds the grade. *)
Theorem submitGrade_validates_grade
    (st : GradingQueueState) (w : World) (sel : Submission) (g p : Q) :
  selectedSubmission st = Some sel ->
  points (assignment sel) = Js.Fin p ->
  parseFloat (gradeInput st) = Js.Fin g ->
  ((g < 0 \/ p < g)%Q ->
     exists msg,
       (msg = "Please enter a grade"
        \/ msg = ("Grade must be between 0 and "
                  ++ Number_toString (points (assignment sel)))%string)
       /\ submitGrade parseFloat Number_toString toISOString st w
          = (Ret tt, with_toasts (toasts w ++ [ToastError msg]) w))
  /\
  ((g == 0 \/ g == p)%Q -> (0 <= p)%Q ->
   Js.is_empty (gradeInput st) = false ->
   hd Done (net w) = Done ->
     let w' := exec (submitGrade parseFloat Number_toString toISOString st) w in
     let u := mkSubmissionUpdate (Js.Fin g) (feedbackInput st) "graded"
                (clock w) (auth_user w) in
     assignment_submissions w'
     = map (fun r => if String.eqb (sr_id r) (id sel) then apply_update u r else r)
           (assignment_submissions w)
     /\ forall r, In r (assignment_submissions w) -> sr_id r = id sel ->
          In (apply_update u r) (assignment_submissions w')
          /\ sr_grade (apply_update u r) = Some (Js.Fin g)).
Proof.
  intros Hsel Hp Hg. split.
  - intros Hout.
    apply submitGrade_rejects; [exact Hsel|].
    rewrite Hg, Hp. now apply out_of_range_finite.
  - intros Hb Hp0 Hne Hnet w' u.
    assert (Hin : out_of_range (parseFloat (gradeInput st)) (points (assignment sel)) = false).
    { rewrite Hg, Hp. apply in_range_finite.
      destruct Hb as [E|E]; rewrite E; split;
        try apply Qle_refl; assumption. }
    destruct (submitGrade_accepts parseFloat Number_toString toISOString st w sel
                Hsel Hne Hin Hnet) as [HT _].
    rewrite Hg in HT. fold u in HT. fold w' in HT.
    split; [exact HT|].
    intros r Hr Hid. split; [|reflexivity].
    rewrite HT. apply in_map_iff. exists r. split; [|exact Hr].
    rewrite Hid, String.eqb_refl. reflexivity.
Qed.

End GradeValidation.

Lemma submitGrade_validates_grade_witness :
  let run typed := submitGrade parseFloat_int Number_toString_int toISOString_ms
                     (sample_dialog typed) in
  (* the hypotheses, at the grades -1 and 100 out of 100 *)
  (selectedSubmission (sample_dialog "-1") = Some sample_submission
   /\ points (assignment sample_submission) = Js.Fin 100
   /\ parseFloat_int "-1" = Js.Fin (-1)
   /\ (-1 < 0 \/ 100 < -1)%Q
   /\ parseFloat_int "100" = Js.Fin 100
   /\ (100 == 0 \/ 100 == 100)%Q /\ (0 <= 100)%Q
   /\ Js.is_empty "100" = false
   /\ hd Done (net sample_world) = Done)
  (* -1 is rejected *)
  /\ (exists msg, run "-1" sample_world
                  = (Ret tt, with_toasts (toasts sample_world ++ [ToastError msg]) sample_world))
  (* 100 is written *)
  /\ (exists r, In r (assignment_submissions (exec (run "100") sample_world))
                /\ sr_id r = "sub-1" /\ sr_grade r = Some (Js.Fin 100)).
Proof.
  intros run.
  assert (Hneg : (-1 < 0 \/ 100 < -1)%Q) by (left; reflexivity).
  assert (Hb : (100 == 0 \/ 100 == 100)%Q) by (right; reflexivity).
  assert (Hp0 : (0 <= 100)%Q) by discriminate.
  split; [repeat split; try reflexivity; assumption|].
  split.
  - destruct (submitGrade_validates_grade parseFloat_int Number_toString_int toISOString_ms
                (sample_dialog "-1") sample_world sample_submission (-1) 100
                eq_refl eq_refl eq_refl) as [H _].
    destruct (H Hneg) as (msg & _ & E).
    exists msg. exact E.
  - destruct (submitGrade_validates_grade parseFloat_int Number_toString_int toISOString_ms
                (sample_dialog "100") sample_world sample_submission 100 100
                eq_refl eq_refl eq_refl) as [_ H].
    destruct (H Hb Hp0 eq_refl eq_refl) as [_ H2].
    destruct (H2 (hd (mkSubmissionRow EmptyString EmptyString EmptyString None None None
                        None None None None None) sample_rows)) as [Hin Hgr].
    + simpl. left. reflexivity.
    + reflexivity.
    + eexists. split; [exact Hin|]. split; reflexivity.
Defined.

(* ================================================================== *)
(** * Grading: the bulk operation *)
(* ================================================================== *)

Lemma all_done_hd (w : World) : all_done w -> hd Done (net w) = Done.
Proof.
  unfold all_done. intros H. destruct (net w) as [|r rs]; [reflexivity|].
  now inversion H.
Qed.

Lemma all_done_tl (w : World) (l : list Reply) :
  all_done w -> l = tl (net w) -> Forall (fun r => r = Done) l.
Proof.
  unfold all_done. intros H ->. destruct (net w) as [|r rs]; [constructor|].
  now inversion H.
Qed.

Lemma apply_update_idem (u : SubmissionUpdate) (r : SubmissionRow) :
  apply_update u (apply_update u r) = apply_update u r.
Proof.
  unfold apply_update; simpl. now destruct (u_graded_by u).
Qed.

Lemma graded_rows_nil (u : SubmissionUpdate) (rows : list SubmissionRow) :
  graded_rows u [] rows = rows.
Proof.
  unfold graded_rows. simpl. apply map_id.
Qed.

(** Updating the row [i] and then the rows [ids] updates the rows
    [i :: ids]. *)
Lemma graded_rows_cons (u : SubmissionUpdate) (i : string) (ids : list string)
    (rows : list SubmissionRow) :
  graded_rows u ids
    (map (fun r => if String.eqb (sr_id r) i then apply_update u r else r) rows)
  = graded_rows u (i :: ids) rows.
Proof.
  unfold graded_rows. rewrite map_map. apply map_ext. intros r. simpl.
  destruct (String.eqb (sr_id r) i) eqn:E; simpl.
  - rewrite apply_update_idem. now destruct (existsb _ ids).
  - reflexivity.
Qed.

Section BulkFacts.

Variable parseFloat : string -> Js.number.
Variable Number_toString : Js.number -> string.
Variable toISOString : Timestamp -> string.

(** One turn of the loop, when the backend carries out every request. *)
Lemma grade_one_done (st : GradingQueueState) (session : option string)
    (submissionId : string) (w : World) :
  all_done w ->
  let u := mkSubmissionUpdate (parseFloat (bulkGrade st)) (bulkFeedback st) "graded"
             (clock w) session in
  let r := grade_one parseFloat Number_toString toISOString st session submissionId w in
  fst r = Ret tt
  /\ all_done (snd r)
  /\ clock (snd r) = clock w
  /\ notifications (snd r) = notifications w
  /\ assignment_submissions (snd r)
     = if bulk_gradable parseFloat st submissionId
       then map (fun x => if String.eqb (sr_id x) submissionId then apply_update u x else x)
              (assignment_submissions w)
       else assignment_submissions w.
Proof.
  intros Hd u r. subst r. unfold grade_one, bulk_gradable.
  destruct (find _ (submissions st)) as [s|]; [|repeat split; assumption].
  cbv zeta.
  destruct (out_of_range (parseFloat (bulkGrade st)) (points (assignment s))); simpl negb.
  - repeat split; assumption.
  - erewrite bind_step by reflexivity.
    erewrite bind_step by (apply update_submissions_done, all_done_hd, Hd).
    unfold bind, insert_notification, request, next_reply. cbn.
    assert (H2 : hd Done (tl (net w)) = Done).
    { apply (all_done_hd (with_net (tl (net w)) w)).
      eapply all_done_tl; [exact Hd|reflexivity]. }
    rewrite H2. cbn.
    repeat split.
    unfold all_done. cbn.
    apply (all_done_tl (with_net (tl (net w)) w)); [|reflexivity].
    eapply all_done_tl; [exact Hd|reflexivity].
Qed.

(** The loop of the bulk operation. *)
Lemma for_of_grade_one (st : GradingQueueState) (session : option string)
    (ids : list string) (w : World) :
  all_done w ->
  let u := mkSubmissionUpdate (parseFloat (bulkGrade st)) (bulkFeedback st) "graded"
             (clock w) session in
  let r := for_of ids (grade_one parseFloat Number_toString toISOString st session) w in
  fst r = Ret tt
  /\ all_done (snd r)
  /\ notifications (snd r) = notifications w
  /\ assignment_submissions (snd r)
     = graded_rows u (filter (bulk_gradable parseFloat st) ids) (assignment_submissions w).
Proof.
  revert w. induction ids as [|i ids IH]; intros w Hd u r; subst r.
  - simpl. repeat split; [assumption|]. now rewrite graded_rows_nil.
  - simpl for_of. unfold bind.
    destruct (grade_one_done st session i w Hd) as (R1 & D1 & C1 & N1 & T1).
    destruct (grade_one parseFloat Number_toString toISOString st session i w)
      as [r1 w1]. simpl in R1, D1, C1, N1, T1. subst r1.
    destruct (IH w1 D1) as (R2 & D2 & N2 & T2).
    split; [exact R2|]. split; [exact D2|]. split; [congruence|].
    rewrite T2, C1, T1. simpl filter.
    destruct (bulk_gradable parseFloat st i).
    + apply graded_rows_cons.
    + reflexivity.
Qed.

(** The bulk operation, when the backend carries out every request:
    the selected submissions that the page holds and whose assignment
    admits the shared grade are graded, every other row is left as it
    is, and no notification is stored. *)
Lemma handleBulkGrade_done (st : GradingQueueState) (w : World) :
  selectedSubmissions st <> [] ->
  Js.is_empty (bulkGrade st) = false ->
  all_done w ->
  let u := mkSubmissionUpdate (parseFloat (bulkGrade st)) (bulkFeedback st) "graded"
             (clock w) (auth_user w) in
  let w' := exec (handleBulkGrade parseFloat Number_toString toISOString st) w in
  assignment_submissions w'
  = graded_rows u (filter (bulk_gradable parseFloat st) (selectedSubmissions st))
      (assignment_submissions w)
  /\ notifications w' = notifications w.
Proof.
  intros Hsel Hne Hd u w'. subst w'.
  unfold exec, handleBulkGrade.
  destruct (selectedSubmissions st) as [|i0 ids0] eqn:Eids; [congruence|].
  rewrite Hne. rewrite <- Eids.
  erewrite bind_step by reflexivity.
  erewrite bind_step by reflexivity.
  match goal with
  | |- context [bind (for_of ?l (grade_one _ _ _ _ ?sess)) ?k ?w0] =>
      destruct (for_of_grade_one st sess l w0 Hd) as (R & D & N & T);
      destruct (for_of l (grade_one parseFloat Number_toString toISOString st sess) w0)
        as [r1 w1] eqn:Eloop;
      simpl in R, D, N, T; subst r1;
      erewrite (bind_step _ k) by exact Eloop
  end.
  match goal with
  | |- context [snd (?m w1)] =>
      assert (K : same_tables w1 (snd (m w1)))
        by (apply (fun H : preserves same_tables m => H w1); keeps_tables)
  end.
  destruct K as (K1 & _ & _ & K4 & _).
  split.
  - rewrite K1, T. reflexivity.
  - rewrite K4, N. reflexivity.
Qed.

End BulkFacts.

Section BulkOneInvalid.

Variable parseFloat : string -> Js.number.
Variable Number_toString : Js.number -> string.
Variable toISOString : Timestamp -> string.

Lemma filter_all (A : Type) (f : A -> bool) (l : list A) :
  Forall (fun x => f x = true) l -> filter f l = l.
Proof.
  induction 1 as [|x l Hx _ IH]; simpl; [reflexivity|].
  now rewrite Hx, IH.
Qed.

(** A batch of M selected submissions with one item whose ceiling the
    shared grade violates: the M - 1 other items are graded, the rows of
    the invalid item are left as they are, and no notification is
    stored. *)
Lemma handleBulkGrade_one_invalid
    (st : GradingQueueState) (w : World) (l1 l2 : list string) (bad : string) :
  selectedSubmissions st = l1 ++ bad :: l2 ->
  Forall (fun i => bulk_gradable parseFloat st i = true) (l1 ++ l2) ->
  bulk_gradable parseFloat st bad = false ->
  ~ In bad (l1 ++ l2) ->
  Js.is_empty (bulkGrade st) = false ->
  all_done w ->
  let u := mkSubmissionUpdate (parseFloat (bulkGrade st)) (bulkFeedback st) "graded"
             (clock w) (auth_user w) in
  let w' := exec (handleBulkGrade parseFloat Number_toString toISOString st) w in
  assignment_submissions w' = graded_rows u (l1 ++ l2) (assignment_submissions w)
  /\ length (l1 ++ l2) = (length (selectedSubmissions st) - 1)%nat
  /\ (forall r, sr_id r = bad -> graded_rows u (l1 ++ l2) [r] = [r])
  /\ notifications w' = notifications w.
Proof.
  intros Hsel Hok Hbad Hnot Hne Hd u w'.
  destruct (handleBulkGrade_done parseFloat Number_toString toISOString st w)
    as [HT HN]; try assumption.
  { rewrite Hsel. now destruct l1. }
  fold u w' in HT, HN.
  assert (F : filter (bulk_gradable parseFloat st) (selectedSubmissions st) = l1 ++ l2).
  { rewrite Hsel, filter_app. simpl. rewrite Hbad.
    apply Forall_app in Hok. destruct Hok as [H1 H2].
    now rewrite (filter_all _ _ _ H1), (filter_all _ _ _ H2). }
  rewrite F in HT.
  split; [exact HT|]. split.
  - rewrite Hsel, !length_app. simpl. lia.
  - split; [|exact HN].
    intros r Hr. unfold graded_rows. simpl.
    destruct (existsb (String.eqb (sr_id r)) (l1 ++ l2)) eqn:E; [|reflexivity].
    exfalso. apply Hnot. apply existsb_exists in E. destruct E as (x & Hx & Ex).
    apply String.eqb_eq in Ex. congruence.
Qed.

End BulkOneInvalid.

(** The selection never holds an id twice. *)
Lemma toggleSubmissionSelection_NoDup (st : GradingQueueState) (i : string) (w : World) :
  NoDup (selectedSubmissions st) ->
  NoDup (selectedSubmissions (gradingQueue (exec (toggleSubmissionSelection st i) w))).
Proof.
  intros H. unfold exec, toggleSubmissionSelection.
  destruct (existsb (String.eqb i) (selectedSubmissions st)) eqn:E; cbn.
  - now apply NoDup_filter.
  - apply NoDup_app; [exact H|repeat constructor; intros []|].
    intros x Hx [Ex|[]]. subst x.
    assert (T : existsb (String.eqb i) (selectedSubmissions st) = true).
    { apply existsb_exists. exists i. split; [exact Hx|apply String.eqb_refl]. }
    congruence.
Qed.

Example handleBulkGrade_one_invalid_sample :
  let w' := exec (handleBulkGrade parseFloat_int Number_toString_int toISOString_ms
                    sample_selection) sample_world in
  length (filter (fun r => match sr_status r with
                           | Some s => String.eqb s "graded"
                           | None => false
                           end) (assignment_submissions w')) = 2%nat
  /\ notifications w' = notifications sample_world.
Proof.
  destruct (handleBulkGrade_one_invalid parseFloat_int Number_toString_int toISOString_ms
              sample_selection sample_world ["sub-1"] ["sub-3"] "sub-2")
    as (HT & _ & _ & HN).
  - reflexivity.
  - repeat constructor.
  - reflexivity.
  - simpl. intros [C|[C|[]]]; discriminate.
  - reflexivity.
  - constructor.
  - split; [|exact HN]. cbv zeta. rewrite HT. reflexivity.
Qed.

Example sample_submission_fetched :
  hd_error (query_submissions sample_world) = Some sample_submission.
Proof. reflexivity. Qed.

(** C4 (the code departs from it): a grade of 100 out of 100 for the
    submission of student alice, with every request carried out.  The row
    is graded as specified (grade, feedback, status, graded_at,
    graded_by), but the notification is built from a row that holds no
    student_id: its user_id is undefined, the insert is refused and no
    Notification row is stored for the student. *)
Theorem submitGrade_stores_no_notification :
  let w' := exec (submitGrade parseFloat_int Number_toString_int toISOString_ms
                    (sample_dialog "100")) sample_world in
  assignment_submissions w'
  = [ mkSubmissionRow "sub-1" "hw-100" "alice" (Some "essay") (Some 1000%N)
        (Some (Js.Fin 100)) (Some "well done") (Some 5000%N) (Some "teacher-1")
        (Some "graded") (Some false);
      mkSubmissionRow "sub-2" "hw-10" "bob" (Some "quiz") (Some 2000%N)
        None None None None (Some "submitted") (Some false);
      mkSubmissionRow "sub-3" "hw-100" "bob" (Some "essay") (Some 3000%N)
        None None None None (Some "submitted") (Some true) ]
  /\ user_id (graded_notification Number_toString_int toISOString_ms
                sample_submission (Js.Fin 100)) = Js.Undefined
  /\ notifications w' = []
  /\ toasts w' = [ToastSuccess "Grade submitted successfully"].
Proof.
  vm_compute. repeat split.
Qed.

(** C5 (the code departs from it): three selected submissions and the
    shared grade 50, which the second one's assignment (10 points) does
    not admit; every request is carried out.  The two other rows are
    graded, the invalid one is untouched and reported, but no Notification
    row is stored where two are specified: each insert carries an
    undefined user_id and is refused. *)
Theorem handleBulkGrade_stores_no_notification :
  let w' := exec (handleBulkGrade parseFloat_int Number_toString_int toISOString_ms
                    sample_selection) sample_world in
  assignment_submissions w'
  = [ mkSubmissionRow "sub-1" "hw-100" "alice" (Some "essay") (Some 1000%N)
        (Some (Js.Fin 50)) (Some "ok") (Some 5000%N) (Some "teacher-1")
        (Some "graded") (Some false);
      mkSubmissionRow "sub-2" "hw-10" "bob" (Some "quiz") (Some 2000%N)
        None None None None (Some "submitted") (Some false);
      mkSubmissionRow "sub-3" "hw-100" "bob" (Some "essay") (Some 3000%N)
        (Some (Js.Fin 50)) (Some "ok") (Some 5000%N) (Some "teacher-1")
        (Some "graded") (Some true) ]
  /\ notifications w' = []
  /\ toasts w' = [ToastError "Invalid grade for Bob"; ToastSuccess "Graded 3 submissions"].
Proof.
  vm_compute. repeat split.
Qed.

(* ================================================================== *)
(** * Dropping a course *)
(* ================================================================== *)

Lemma enrolment_of_spec (s c : string) (r : StudentCourseRow) :
  enrolment_of s c r = true <-> sc_student_id r = s /\ sc_subject_id r = c.
Proof.
  unfold enrolment_of. rewrite andb_true_iff, !String.eqb_eq. reflexivity.
Qed.

(** Deleting an enrolment forgets the values its row held. *)
Lemma delete_forgets_values (s c : string) (p : option Js.number) (b : option bool)
    (t : option Timestamp) (url : option string) (rows : list StudentCourseRow) :
  filter (fun r => negb (enrolment_of s c r))
    (map (fun r => if enrolment_of s c r then with_enrolment_values p b t url r else r) rows)
  = filter (fun r => negb (enrolment_of s c r)) rows.
Proof.
  induction rows as [|r rows IH]; simpl; [reflexivity|].
  destruct (enrolment_of s c r) eqn:E; simpl.
  - unfold enrolment_of in *. simpl. rewrite E. simpl. exact IH.
  - rewrite E. simpl. now rewrite IH.
Qed.

(** C9: a successful drop (a signed-in user, both requests carried out)
    deletes the enrolment rows of (student, course) outright: the final
    world is the initial one without these rows, with the course removed
    from the page's set and with the toast that announces saved progress.
    No other table, and nothing else in the world, receives the progress,
    completed, completed_at or certificate_url of the row: the final world
    is the same whatever these values were. *)
Theorem handleDrop_deletes_enrolment
    (enrolled : list string) (subjectId user : string) (w : World) :
  auth_user w = Some user ->
  hd Done (net w) = Done ->
  hd Done (tl (net w)) = Done ->
  handleDrop enrolled subjectId w
  = (Ret tt,
     with_toasts (toasts w ++ [ToastSuccess "Dropped course (your progress is saved!)"])
       (with_enrolledCourses (filter (fun c => negb (String.eqb c subjectId)) enrolled)
          (with_student_courses
             (filter (fun r => negb (enrolment_of user subjectId r)) (student_courses w))
             (with_net (tl (tl (net w))) w))))
  /\ (forall r, In r (student_courses (exec (handleDrop enrolled subjectId) w)) ->
        ~ (sc_student_id r = user /\ sc_subject_id r = subjectId))
  /\ same_tables
       (with_student_courses (student_courses (exec (handleDrop enrolled subjectId) w)) w)
       (exec (handleDrop enrolled subjectId) w)
  /\ (forall p b t url,
        exec (handleDrop enrolled subjectId)
          (with_student_courses
             (map (fun r => if enrolment_of user subjectId r
                            then with_enrolment_values p b t url r else r)
                (student_courses w)) w)
        = exec (handleDrop enrolled subjectId) w).
Proof.
  intros Hu H1 H2.
  assert (E : forall rows,
             handleDrop enrolled subjectId (with_student_courses rows w)
             = (Ret tt,
                with_toasts (toasts w ++ [ToastSuccess "Dropped course (your progress is saved!)"])
                  (with_enrolledCourses (filter (fun c => negb (String.eqb c subjectId)) enrolled)
                     (with_student_courses
                        (filter (fun r => negb (enrolment_of user subjectId r)) rows)
                        (with_net (tl (tl (net w))) w))))).
  { intros rows.
    unfold handleDrop, try_catch, bind, getUser, next_reply, gets, delete_student_course,
      request, bind, next_reply, modify, ret, throw_if_error, setEnrolledCourses,
      toast_success.
    cbn. rewrite H1. cbn. rewrite Hu. cbn. rewrite H2. cbn. reflexivity. }
  assert (E0 : handleDrop enrolled subjectId w = _) by (apply (E (student_courses w))).
  split; [exact E0|].
  unfold exec. rewrite E0. cbn.
  split; [|split].
  - intros r Hr. apply filter_In in Hr. destruct Hr as [_ Hr].
    apply negb_true_iff in Hr. intros C. apply enrolment_of_spec in C. congruence.
  - repeat split.
  - intros p b t url. rewrite E. cbn. now rewrite delete_forgets_values.
Qed.

Lemma handleDrop_deletes_enrolment_witness :
  let w' := exec (handleDrop ["math-s1"] "math-s1") sample_student_world in
  auth_user sample_student_world = Some "alice"
  /\ hd Done (net sample_student_world) = Done
  /\ hd Done (tl (net sample_student_world)) = Done
  /\ student_courses w'
     = [ mkStudentCourseRow "e-2" "bob" "math-s1" (Some (Js.Fin 100%Q)) (Some true)
           (Some 500%N) None ]
  /\ content_progress w' = [ mkContentProgressRow "alice" "c1" 100 true ]
  /\ toasts w' = [ToastSuccess "Dropped course (your progress is saved!)"].
Proof.
  intros w'. subst w'. unfold exec.
  rewrite (proj1 (handleDrop_deletes_enrolment ["math-s1"] "math-s1" "alice"
                    sample_student_world eq_refl eq_refl eq_refl)).
  repeat split.
Defined.

(* ================================================================== *)
(** * Certificates *)
(* ================================================================== *)

Section CertificateFacts.

Variable pageWidth pageHeight : Q.
Variable toLocaleDateString : string -> string.
Variable getPublicUrl : string -> string.

(** The run in which the upload fails. *)
Lemma generateCertificate_upload_failure (data : CertificateData) (w : World) :
  let fileName := certificate_fileName data (clock w) in
  let path := certificate_path data fileName in
  let pdf := render pageWidth pageHeight toLocaleDateString data in
  upload_succeeds path w = false ->
  generateCertificate pageWidth pageHeight toLocaleDateString getPublicUrl data w
  = (Ret None,
     with_downloads (downloads w ++ [(fileName, pdf)])
       (with_toasts (toasts w ++ [ToastError "Failed to save certificate"])
          (with_console_errors (console_errors w ++ [upload_error w])
             (with_net (tl (net w)) w)))).
Proof.
  intros fileName path pdf H.
  unfold upload_succeeds in H. unfold upload_error.
  unfold generateCertificate, try_catch, bind, gets, upload, request, bind, next_reply,
    throw_if_error, throw, ret, console_error, toast_error, pdf_save, modify.
  cbn -[certificate_fileName certificate_path render stored].
  fold fileName. fold path. fold pdf.
  destruct (hd Done (net w)); cbn -[certificate_fileName certificate_path render stored];
    try reflexivity.
  fold fileName. fold path.
  destruct (stored path (content_files w)); [reflexivity|discriminate].
Qed.

(** The run in which the upload succeeds and the update fails. *)
Lemma generateCertificate_update_failure (data : CertificateData) (w : World) :
  let fileName := certificate_fileName data (clock w) in
  let path := certificate_path data fileName in
  let pdf := render pageWidth pageHeight toLocaleDateString data in
  upload_succeeds path w = true ->
  update_succeeds w = false ->
  generateCertificate pageWidth pageHeight toLocaleDateString getPublicUrl data w
  = (Ret None,
     with_downloads (downloads w ++ [(fileName, pdf)])
       (with_toasts (toasts w ++ [ToastError "Failed to save certificate"])
          (with_console_errors (console_errors w ++ [update_error w])
             (with_content_files (content_files w ++ [(path, pdf)])
                (with_net (tl (tl (net w))) w))))).
Proof.
  intros fileName path pdf H1 H2.
  unfold upload_succeeds in H1. unfold update_succeeds in H2. unfold update_error.
  apply andb_true_iff in H1. destruct H1 as [D S]. apply negb_true_iff in S.
  unfold generateCertificate, try_catch, bind, gets, upload, update_certificate_url,
    request, bind, next_reply, throw_if_error, throw, ret, console_error, toast_error,
    pdf_save, modify.
  cbn -[certificate_fileName certificate_path render stored].
  fold fileName. fold path. fold pdf.
  destruct (hd Done (net w)); try discriminate.
  cbn -[certificate_fileName certificate_path render stored]. fold fileName. fold path.
  rewrite S.
  cbn -[certificate_fileName certificate_path render stored].
  destruct (hd Done (tl (net w))); try discriminate; reflexivity.
Qed.

(** The run in which both succeed. *)
Lemma generateCertificate_success (data : CertificateData) (w : World) :
  let fileName := certificate_fileName data (clock w) in
  let path := certificate_path data fileName in
  let pdf := render pageWidth pageHeight toLocaleDateString data in
  upload_succeeds path w = true ->
  update_succeeds w = true ->
  generateCertificate pageWidth pageHeight toLocaleDateString getPublicUrl data w
  = (Ret (Some (getPublicUrl path)),
     with_toasts (toasts w ++ [ToastSuccess "Certificate generated and saved successfully!"])
       (with_downloads (downloads w ++ [(fileName, pdf)])
          (with_student_courses
             (map (fun r => if enrolment_of (studentId data) (courseId data) r
                            then set_certificate_url (getPublicUrl path) r else r)
                  (student_courses w))
             (with_content_files (content_files w ++ [(path, pdf)])
                (with_net (tl (tl (net w))) w))))).
Proof.
  intros fileName path pdf H1 H2.
  unfold upload_succeeds in H1. unfold update_succeeds in H2.
  apply andb_true_iff in H1. destruct H1 as [D S]. apply negb_true_iff in S.
  unfold generateCertificate, try_catch, bind, gets, upload, update_certificate_url,
    request, bind, next_reply, throw_if_error, throw, ret, console_error, toast_success,
    pdf_save, modify.
  cbn -[certificate_fileName certificate_path render stored].
  fold fileName. fold path. fold pdf.
  destruct (hd Done (net w)); try discriminate.
  cbn -[certificate_fileName certificate_path render stored]. fold fileName. fold path.
  rewrite S.
  cbn -[certificate_fileName certificate_path render stored].
  destruct (hd Done (tl (net w))); try discriminate; reflexivity.
Qed.

End CertificateFacts.

Section CertificateRuns.

Variable pageWidth pageHeight : Q.
Variable toLocaleDateString : string -> string.
Variable getPublicUrl : string -> string.

(** C6: when the storage upload fails (the request is answered with an
    error, the promise rejects, or an object is already stored under the
    path), the operation returns null instead of throwing and shows the
    error toast, sends no further request and leaves the enrolment rows
    (certificate_url) and the bucket as they were, and still saves the
    rendered document locally. *)
Theorem generateCertificate_upload_fails (data : CertificateData) (w : World) :
  let fileName := certificate_fileName data (clock w) in
  let path := certificate_path data fileName in
  let pdf := render pageWidth pageHeight toLocaleDateString data in
  upload_succeeds path w = false ->
  let r := generateCertificate pageWidth pageHeight toLocaleDateString getPublicUrl data w in
  fst r = Ret None
  /\ toasts (snd r) = toasts w ++ [ToastError "Failed to save certificate"]
  /\ console_errors (snd r) = console_errors w ++ [upload_error w]
  /\ student_courses (snd r) = student_courses w
  /\ net (snd r) = tl (net w)
  /\ content_files (snd r) = content_files w
  /\ downloads (snd r) = downloads w ++ [(fileName, pdf)].
Proof.
  intros fileName path pdf H r. subst r.
  rewrite (generateCertificate_upload_failure pageWidth pageHeight toLocaleDateString
             getPublicUrl data w H).
  repeat split.
Qed.

(** C10: generateCertificate never throws: it returns the public URL
    when both the upload and the update succeed and null in every other
    run, and every run saves the rendered document locally exactly
    once. *)
Theorem generateCertificate_never_throws (data : CertificateData) (w : World) :
  let fileName := certificate_fileName data (clock w) in
  let path := certificate_path data fileName in
  let pdf := render pageWidth pageHeight toLocaleDateString data in
  let r := generateCertificate pageWidth pageHeight toLocaleDateString getPublicUrl data w in
  fst r = Ret (if upload_succeeds path w && update_succeeds w
               then Some (getPublicUrl path) else None)
  /\ (fst r = Ret (Some (getPublicUrl path))
      <-> upload_succeeds path w = true /\ update_succeeds w = true)
  /\ downloads (snd r) = downloads w ++ [(fileName, pdf)].
Proof.
  intros fileName path pdf r. subst r.
  destruct (upload_succeeds path w) eqn:U.
  - destruct (update_succeeds w) eqn:V.
    + rewrite (generateCertificate_success pageWidth pageHeight toLocaleDateString
                 getPublicUrl data w U V).
      repeat split.
    + rewrite (generateCertificate_update_failure pageWidth pageHeight toLocaleDateString
                 getPublicUrl data w U V).
      simpl. repeat split; try discriminate. intros [_ C]. discriminate.
  - rewrite (generateCertificate_upload_failure pageWidth pageHeight toLocaleDateString
               getPublicUrl data w U).
    simpl. repeat split; try discriminate. intros [C _]. discriminate.
Qed.

End CertificateRuns.

Lemma generateCertificate_upload_fails_witness :
  let w := with_net [Failed "network"] sample_student_world in
  let r := generateCertificate a4_width a4_height toLocaleDateString_id publicUrl_of
             sample_certificate w in
  upload_succeeds
    (certificate_path sample_certificate
       (certificate_fileName sample_certificate (clock w))) w = false
  /\ fst r = Ret None
  /\ student_courses (snd r) = student_courses sample_student_world
  /\ map fst (downloads (snd r)) = ["certificate-Mathematics-S1-6000.pdf"].
Proof.
  intros w r.
  split; [reflexivity|].
  destruct (generateCertificate_upload_fails a4_width a4_height toLocaleDateString_id
              publicUrl_of sample_certificate w eq_refl)
    as (H1 & _ & _ & H4 & _ & _ & H7).
  split; [exact H1|]. split; [exact H4|].
  fold r in H7. rewrite H7. reflexivity.
Defined.

(* ================================================================== *)
(** * File names *)
(* ================================================================== *)

Lemma append_inj_l (p a b : string) : (p ++ a = p ++ b)%string -> a = b.
Proof.
  induction p as [|c p IH]; simpl; intros H; [exact H|].
  injection H as H. now apply IH.
Qed.

Lemma length_append (a b : string) :
  String.length (a ++ b) = (String.length a + String.length b)%nat.
Proof.
  induction a as [|c a IH]; simpl; [reflexivity|]. now rewrite IH.
Qed.

Lemma append_inj_r (s a b : string) : (a ++ s = b ++ s)%string -> a = b.
Proof.
  revert b. induction a as [|c a IH]; intros [|d b] H; simpl in H.
  - reflexivity.
  - exfalso. apply (f_equal String.length) in H. simpl in H.
    rewrite length_append in H. lia.
  - exfalso. apply (f_equal String.length) in H. simpl in H.
    rewrite length_append in H. lia.
  - injection H as Hc H. subst d. f_equal. now apply IH.
Qed.

(** Two instants have the same decimal rendering only if they are the
    same. *)
Lemma decimal_inj (a b : N) : Js.decimal a = Js.decimal b -> a = b.
Proof.
  unfold Js.decimal. intros H.
  assert (Hnil : forall n, N.to_uint n <> Decimal.Nil).
  { intros [|p]; simpl; [discriminate|]. apply DecimalPos.Unsigned.to_uint_nonnil. }
  apply (f_equal NilZero.uint_of_string) in H.
  rewrite !NilZero.usu in H by apply Hnil.
  injection H as H. now apply DecimalN.Unsigned.to_uint_inj.
Qed.

(** The storage path of a certificate determines the instant it was
    generated at. *)
Lemma certificate_path_inj (data : CertificateData) (t1 t2 : Timestamp) :
  certificate_path data (certificate_fileName data t1)
  = certificate_path data (certificate_fileName data t2) ->
  t1 = t2.
Proof.
  unfold certificate_path, certificate_fileName. intros H.
  apply append_inj_l in H. apply append_inj_l in H. apply append_inj_l in H.
  apply append_inj_l in H. apply append_inj_l in H. apply append_inj_l in H.
  apply append_inj_r in H. now apply decimal_inj.
Qed.

Lemma stored_app (path : string) (l l' : list (string * Blob)) :
  stored path (l ++ l') = stored path l || stored path l'.
Proof. unfold stored. apply existsb_app. Qed.

Section CertificateTwice.

Variable pageWidth pageHeight : Q.
Variable toLocaleDateString : string -> string.
Variable getPublicUrl : string -> string.

(** Recording a second URL overwrites the first. *)
Lemma set_certificate_url_twice (s c url1 url2 : string) (rows : list StudentCourseRow) :
  map (fun r => if enrolment_of s c r then set_certificate_url url2 r else r)
    (map (fun r => if enrolment_of s c r then set_certificate_url url1 r else r) rows)
  = map (fun r => if enrolment_of s c r then set_certificate_url url2 r else r) rows.
Proof.
  rewrite map_map. apply map_ext. intros r.
  destruct (enrolment_of s c r) eqn:E.
  - unfold enrolment_of in *. simpl. now rewrite E.
  - now rewrite E.
Qed.

(** C7: two runs of certificate generation for the same (student,
    course) at two different clock readings, every request being carried
    out and neither path being in use: both runs return a URL, the two
    storage paths are distinct and both objects are kept in the bucket,
    and the enrolment rows of the pair hold the URL of the second run; the
    second run changes the bucket again, so the operation is not
    idempotent. *)
Theorem generateCertificate_twice (data : CertificateData) (w : World) (t2 : Timestamp) :
  let p1 := certificate_path data (certificate_fileName data (clock w)) in
  let p2 := certificate_path data (certificate_fileName data t2) in
  let pdf := render pageWidth pageHeight toLocaleDateString data in
  all_done w ->
  stored p1 (content_files w) = false ->
  stored p2 (content_files w) = false ->
  t2 <> clock w ->
  let r1 := generateCertificate pageWidth pageHeight toLocaleDateString getPublicUrl data w in
  let r2 := generateCertificate pageWidth pageHeight toLocaleDateString getPublicUrl data
              (with_clock t2 (snd r1)) in
  fst r1 = Ret (Some (getPublicUrl p1))
  /\ fst r2 = Ret (Some (getPublicUrl p2))
  /\ p1 <> p2
  /\ content_files (snd r2) = content_files w ++ [(p1, pdf); (p2, pdf)]
  /\ content_files (snd r2) <> content_files (snd r1)
  /\ student_courses (snd r2)
     = map (fun r => if enrolment_of (studentId data) (courseId data) r
                     then set_certificate_url (getPublicUrl p2) r else r)
         (student_courses w)
  /\ (forall r, In r (student_courses (snd r2)) ->
        enrolment_of (studentId data) (courseId data) r = true ->
        sc_certificate_url r = Some (getPublicUrl p2)).
Proof.
  intros p1 p2 pdf Hd S1 S2 Ht r1 r2.
  assert (Hp : p1 <> p2).
  { intros C. apply certificate_path_inj in C. congruence. }
  assert (D1 : hd Done (net w) = Done) by now apply all_done_hd.
  assert (D2 : hd Done (tl (net w)) = Done).
  { apply (all_done_hd (with_net (tl (net w)) w)).
    eapply all_done_tl; [exact Hd|reflexivity]. }
  assert (U1 : upload_succeeds p1 w = true).
  { unfold upload_succeeds. now rewrite D1, S1. }
  assert (V1 : update_succeeds w = true).
  { unfold update_succeeds. now rewrite D2. }
  assert (E1 : r1 = _)
    by apply (generateCertificate_success pageWidth pageHeight toLocaleDateString
                getPublicUrl data w U1 V1).
  fold p1 pdf in E1.
  subst r2.
  remember (with_clock t2 (snd r1)) as w1 eqn:Ew1.
  assert (K1 : clock w1 = t2) by now rewrite Ew1.
  assert (N1 : net w1 = tl (tl (net w))) by now rewrite Ew1, E1.
  assert (F1 : content_files w1 = content_files w ++ [(p1, pdf)])
    by now rewrite Ew1, E1.
  assert (C1 : student_courses w1
               = map (fun r => if enrolment_of (studentId data) (courseId data) r
                               then set_certificate_url (getPublicUrl p1) r else r)
                   (student_courses w))
    by now rewrite Ew1, E1.
  clear Ew1.
  set (r2 := generateCertificate pageWidth pageHeight toLocaleDateString getPublicUrl
               data w1).
  assert (Hd1 : all_done w1).
  { unfold all_done. rewrite N1.
    apply (all_done_tl (with_net (tl (net w)) w)); [|reflexivity].
    eapply all_done_tl; [exact Hd|reflexivity]. }
  assert (U2 : upload_succeeds
                 (certificate_path data (certificate_fileName data (clock w1))) w1 = true).
  { assert (S21 : stored p2 [(p1, pdf)] = false).
    { unfold stored. cbn [existsb fst]. rewrite orb_false_r. now apply String.eqb_neq. }
    rewrite K1. fold p2.
    unfold upload_succeeds. now rewrite (all_done_hd w1 Hd1), F1, stored_app, S2, S21. }
  assert (V2 : update_succeeds w1 = true).
  { unfold update_succeeds.
    apply (f_equal is_done (x := hd Done (tl (net w1))) (y := Done)).
    apply (all_done_hd (with_net (tl (net w1)) w1)).
    eapply all_done_tl; [exact Hd1|reflexivity]. }
  assert (E2 : r2 = _)
    by apply (generateCertificate_success pageWidth pageHeight toLocaleDateString
                getPublicUrl data w1 U2 V2).
  rewrite K1 in E2. fold p2 pdf in E2.
  assert (F2 : content_files (snd r2) = content_files w ++ [(p1, pdf); (p2, pdf)]).
  { rewrite E2. simpl. rewrite F1, <- app_assoc. reflexivity. }
  assert (C2 : student_courses (snd r2)
               = map (fun r => if enrolment_of (studentId data) (courseId data) r
                               then set_certificate_url (getPublicUrl p2) r else r)
                   (student_courses w)).
  { rewrite E2. simpl. rewrite C1. apply set_certificate_url_twice. }
  split; [now rewrite E1|]. split; [now rewrite E2|]. split; [exact Hp|].
  split; [exact F2|]. split; [|split; [exact C2|]].
  - rewrite F2. rewrite E1. simpl. intros C.
    apply (f_equal (@length _)) in C. rewrite !length_app in C. simpl in C. lia.
  - intros r Hr He. rewrite C2 in Hr. apply in_map_iff in Hr.
    destruct Hr as (r0 & Hr0 & _).
    destruct (enrolment_of (studentId data) (courseId data) r0) eqn:E0.
    + now subst r.
    + subst r. congruence.
Qed.

End CertificateTwice.

Lemma generateCertificate_twice_witness :
  let w := sample_student_world in
  let r1 := generateCertificate a4_width a4_height toLocaleDateString_id publicUrl_of
              sample_certificate w in
  let r2 := generateCertificate a4_width a4_height toLocaleDateString_id publicUrl_of
              sample_certificate (with_clock 6001%N (snd r1)) in
  all_done w
  /\ 6001%N <> clock w
  /\ map fst (content_files (snd r2))
     = [ "certificates/alice/certificate-Mathematics-S1-6000.pdf";
         "certificates/alice/certificate-Mathematics-S1-6001.pdf" ]
  /\ fst r2 = Ret (Some (publicUrl_of
                           "certificates/alice/certificate-Mathematics-S1-6001.pdf")).
Proof.
  intros w r1 r2.
  assert (Hd : all_done w) by constructor.
  assert (Ht : 6001%N <> clock w) by discriminate.
  split; [exact Hd|]. split; [exact Ht|].
  destruct (generateCertificate_twice a4_width a4_height toLocaleDateString_id publicUrl_of
              sample_certificate w 6001%N Hd eq_refl eq_refl Ht)
    as (_ & H2 & _ & H4 & _).
  fold r1 r2 in H2, H4.
  split; [rewrite H4; reflexivity|exact H2].
Defined.

Section CertificateCompletion.

Variable pageWidth pageHeight : Q.
Variable toLocaleDateString : string -> string.
Variable getPublicUrl : string -> string.

Lemma same_but_completion_enrolment (s c : string) (r1 r2 : StudentCourseRow) :
  same_but_completion r1 r2 -> enrolment_of s c r2 = enrolment_of s c r1.
Proof.
  intros (_ & H2 & H3 & _). unfold enrolment_of. now rewrite H2, H3.
Qed.

Lemma same_but_completion_update (s c url : string) (rows1 rows2 : list StudentCourseRow) :
  Forall2 same_but_completion rows1 rows2 ->
  Forall2 same_but_completion
    (map (fun r => if enrolment_of s c r then set_certificate_url url r else r) rows1)
    (map (fun r => if enrolment_of s c r then set_certificate_url url r else r) rows2).
Proof.
  induction 1 as [|r1 r2 rows1 rows2 Hr _ IH]; simpl; constructor; [|exact IH].
  rewrite (same_but_completion_enrolment s c r1 r2 Hr).
  destruct (enrolment_of s c r1); [|exact Hr].
  destruct Hr as (H1 & H2 & H3 & H4 & _).
  unfold same_but_completion, set_certificate_url; simpl. auto.
Qed.

(** C8: generateCertificate neither reads nor depends on the completion
    state of the enrolment.  On two worlds that differ at most in the
    completed and completed_at values of their enrolment rows it returns
    the same result and leaves two worlds that again differ at most in
    these values: the same document is uploaded and saved and the same URL
    is recorded.  When its two requests succeed, every enrolment row of
    the (student, course) pair, completed or not, receives the URL. *)
Theorem generateCertificate_ignores_completion
    (data : CertificateData) (w1 w2 : World) :
  differ_in_completion w1 w2 ->
  let path := certificate_path data (certificate_fileName data (clock w1)) in
  let r1 := generateCertificate pageWidth pageHeight toLocaleDateString getPublicUrl data w1 in
  let r2 := generateCertificate pageWidth pageHeight toLocaleDateString getPublicUrl data w2 in
  fst r2 = fst r1
  /\ differ_in_completion (snd r1) (snd r2)
  /\ (upload_succeeds path w1 = true -> update_succeeds w1 = true ->
      forall r, In r (student_courses w1) ->
        enrolment_of (studentId data) (courseId data) r = true ->
        In (set_certificate_url (getPublicUrl path) r) (student_courses (snd r1))).
Proof.
  intros (rows2 & -> & F) path r1 r2. subst r1 r2.
  destruct (upload_succeeds path w1) eqn:U.
  - destruct (update_succeeds w1) eqn:V.
    + rewrite (generateCertificate_success pageWidth pageHeight toLocaleDateString
                 getPublicUrl data w1 U V).
      rewrite (generateCertificate_success pageWidth pageHeight toLocaleDateString
                 getPublicUrl data (with_student_courses rows2 w1) U V).
      split; [reflexivity|]. split.
      * eexists. split; [reflexivity|]. cbn [snd student_courses with_student_courses
          with_toasts with_downloads with_content_files with_net].
        apply same_but_completion_update. exact F.
      * intros _ _ r Hr He. cbn. apply in_map_iff. exists r. split; [|exact Hr].
        fold path. now rewrite He.
    + rewrite (generateCertificate_update_failure pageWidth pageHeight toLocaleDateString
                 getPublicUrl data w1 U V).
      rewrite (generateCertificate_update_failure pageWidth pageHeight toLocaleDateString
                 getPublicUrl data (with_student_courses rows2 w1) U V).
      split; [reflexivity|]. split; [|discriminate].
      exists rows2. split; [reflexivity|exact F].
  - rewrite (generateCertificate_upload_failure pageWidth pageHeight toLocaleDateString
               getPublicUrl data w1 U).
    rewrite (generateCertificate_upload_failure pageWidth pageHeight toLocaleDateString
               getPublicUrl data (with_student_courses rows2 w1) U).
    split; [reflexivity|]. split; [|discriminate].
    exists rows2. split; [reflexivity|exact F].
Qed.

End CertificateCompletion.

Lemma generateCertificate_ignores_completion_witness :
  let run := generateCertificate a4_width a4_height toLocaleDateString_id publicUrl_of
               sample_certificate in
  let url := publicUrl_of "certificates/alice/certificate-Mathematics-S1-6000.pdf" in
  differ_in_completion sample_student_world sample_completed_world
  /\ fst (run sample_completed_world) = fst (run sample_student_world)
  /\ fst (run sample_student_world) = Ret (Some url)
  /\ In (mkStudentCourseRow "e-1" "alice" "math-s1" (Some (Js.Fin 40%Q)) (Some false)
           None (Some url))
        (student_courses (snd (run sample_student_world))).
Proof.
  intros run url.
  assert (D : differ_in_completion sample_student_world sample_completed_world).
  { eexists. split; [reflexivity|].
    repeat constructor. }
  split; [exact D|].
  destruct (generateCertificate_ignores_completion a4_width a4_height toLocaleDateString_id
              publicUrl_of sample_certificate sample_student_world sample_completed_world D)
    as (H1 & _ & H3).
  split; [exact H1|]. split; [reflexivity|].
  apply (H3 eq_refl eq_refl
           (mkStudentCourseRow "e-1" "alice" "math-s1" (Some (Js.Fin 40%Q)) (Some false)
              None None)).
  - left. reflexivity.
  - reflexivity.
Defined.

(* ================================================================== *)
(** * The grading queue: what the page holds *)
(* ================================================================== *)









(** A query depends on the tables only. *)
Lemma query_submissions_tables (w w' : World) :
  same_tables w w' -> query_submissions w' = query_submissions w.
Proof.
  intros (H1 & H2 & H3 & _). unfold query_submissions. rewrite H1. f_equal.
  assert (E : forall r, select_submission w' r = select_submission w r).
  { intros r. unfold select_submission. now rewrite H2, H3. }
  induction (filter is_submitted (assignment_submissions w)) as [|r rows IH]; simpl.
  - reflexivity.
  - rewrite E, IH. reflexivity.
Qed.

(** The run of [fetchSubmissions] for a signed-in user whose query is
    carried out. *)
Lemma fetchSubmissions_done (w : World) (u : string) :
  auth_user w = Some u ->
  hd Done (net w) = Done ->
  fetchSubmissions w
  = (Ret tt,
     with_gradingQueue
       (mkGradingQueueState (query_submissions w) false (grading (gradingQueue w))
          (selectedSubmission (gradingQueue w)) (gradeInput (gradingQueue w))
          (feedbackInput (gradingQueue w)) (selectedSubmissions (gradingQueue w))
          (bulkGrade (gradingQueue w)) (bulkFeedback (gradingQueue w)))
       (with_net (tl (net w)) w)).
Proof.
  intros Hu Hn.
  unfold fetchSubmissions, bind, getSession, gets, next_reply.
  rewrite Hu, Hn.
  unfold setSubmissions, setLoading, update_gradingQueue, modify. cbn.
  rewrite <- (query_submissions_tables w (with_net (tl (net w)) w))
    by (repeat split).
  reflexivity.
Qed.



(** X2: fetchSubmissions without a session sends no request and changes
    nothing; when the query is answered with an error it shows the toast
    Failed to load submissions, clears the loading flag and keeps the
    submissions the page held. *)
Theorem fetchSubmissions_keeps_list (w : World) :
  (auth_user w = None -> fetchSubmissions w = (Ret tt, w))
  /\ (forall u e, auth_user w = Some u -> hd Done (net w) = Failed e ->
        let w' := exec fetchSubmissions w in
        result fetchSubmissions w = Ret tt
        /\ submissions (gradingQueue w') = submissions (gradingQueue w)
        /\ loading (gradingQueue w') = false
        /\ toasts w' = toasts w ++ [ToastError "Failed to load submissions"]
        /\ same_tables w w').
Proof.
  split.
  - intros Hu. unfold fetchSubmissions, bind, getSession, gets. now rewrite Hu.
  - intros u e Hu Hn w'. subst w'.
    unfold exec, result, fetchSubmissions, bind, getSession, gets, next_reply.
    rewrite Hu, Hn. cbn. repeat split.
Qed.

Lemma fetchSubmissions_keeps_list_witness :
  let signed_out := mkWorld sample_rows [] [] [] [] [] [] None 5000%N [] [] [] []
                      emptyQueue [] in
  let offline := with_net [Failed "network"] sample_world in
  auth_user signed_out = None
  /\ fetchSubmissions signed_out = (Ret tt, signed_out)
  /\ auth_user offline = Some "teacher-1"
  /\ hd Done (net offline) = Failed "network"
  /\ toasts (exec fetchSubmissions offline) = [ToastError "Failed to load submissions"].
Proof.
  intros signed_out offline.
  split; [reflexivity|].
  split; [apply (proj1 (fetchSubmissions_keeps_list signed_out) eq_refl)|].
  split; [reflexivity|]. split; [reflexivity|].
  destruct (proj2 (fetchSubmissions_keeps_list offline) "teacher-1" "network"
              eq_refl eq_refl) as (_ & _ & _ & H & _).
  exact H.
Defined.

(* ================================================================== *)
(** * The single-grade operation: refresh, failure, missing input *)
(* ================================================================== *)


Section SingleGrade.

Variable parseFloat : string -> Js.number.
Variable Number_toString : Js.number -> string.
Variable toISOString : Timestamp -> string.



(** X4: when the update of a valid grade is answered with an error, the
    handler shows Failed to submit grade and stops: no notification is
    requested (one reply is consumed), no table changes, the dialog and
    its inputs stay as the page had them and the grading flag is
    cleared. *)
Theorem submitGrade_failed_update_stops
    (st : GradingQueueState) (w : World) (sel : Submission) (e : string) :
  selectedSubmission st = Some sel ->
  Js.is_empty (gradeInput st) = false ->
  out_of_range (parseFloat (gradeInput st)) (points (assignment sel)) = false ->
  hd Done (net w) = Failed e ->
  let w' := exec (submitGrade parseFloat Number_toString toISOString st) w in
  result (submitGrade parseFloat Number_toString toISOString st) w = Ret tt
  /\ same_tables w w'
  /\ net w' = tl (net w)
  /\ toasts w' = toasts w ++ [ToastError "Failed to submit grade"]
  /\ selectedSubmission (gradingQueue w') = selectedSubmission (gradingQueue w)
  /\ gradeInput (gradingQueue w') = gradeInput (gradingQueue w)
  /\ submissions (gradingQueue w') = submissions (gradingQueue w)
  /\ grading (gradingQueue w') = false.
Proof.
  intros Hsel Hne Hin Hnet w'. subst w'.
  unfold exec, result, submitGrade. rewrite Hsel, Hne. cbv zeta. rewrite Hin.
  erewrite bind_step by reflexivity.
  erewrite bind_step by reflexivity.
  erewrite bind_step by reflexivity.
  erewrite bind_step by (apply update_submissions_failed; exact Hnet).
  repeat split.
Qed.

(** X5: a grade input that parseFloat does not turn into a finite number
    (NaN, Infinity, -Infinity) is rejected for an assignment with finite
    points: the handler only shows an error toast and sends nothing. *)
Theorem submitGrade_rejects_non_numbers
    (st : GradingQueueState) (w : World) (sel : Submission) (p : Q) :
  selectedSubmission st = Some sel ->
  points (assignment sel) = Js.Fin p ->
  (forall g, parseFloat (gradeInput st) <> Js.Fin g) ->
  exists msg,
    submitGrade parseFloat Number_toString toISOString st w
    = (Ret tt, with_toasts (toasts w ++ [ToastError msg]) w).
Proof.
  intros Hsel Hp Hg.
  destruct (submitGrade_rejects parseFloat Number_toString toISOString st w sel Hsel)
    as (msg & _ & E).
  - rewrite Hp. destruct (parseFloat (gradeInput st)) as [| |g|]; try reflexivity.
    now destruct (Hg g).
  - exists msg. exact E.
Qed.

(** X6: without a selected submission, or with an empty grade input,
    submitGrade only shows Please enter a grade: the world is otherwise
    unchanged and nothing is parsed or sent. *)
Theorem submitGrade_needs_input (st : GradingQueueState) (w : World) :
  selectedSubmission st = None \/ gradeInput st = EmptyString ->
  submitGrade parseFloat Number_toString toISOString st w
  = (Ret tt, with_toasts (toasts w ++ [ToastError "Please enter a grade"]) w).
Proof.
  intros [H|H]; unfold submitGrade.
  - now rewrite H.
  - rewrite H. now destruct (selectedSubmission st).
Qed.

End SingleGrade.


Lemma submitGrade_failed_update_stops_witness :
  let w := with_net [Failed "permission denied"] sample_world in
  let w' := exec (submitGrade parseFloat_int Number_toString_int toISOString_ms
                    (sample_dialog "100")) w in
  hd Done (net w) = Failed "permission denied"
  /\ assignment_submissions w' = sample_rows
  /\ net w' = []
  /\ toasts w' = [ToastError "Failed to submit grade"].
Proof.
  intros w w'.
  split; [reflexivity|].
  destruct (submitGrade_failed_update_stops parseFloat_int Number_toString_int
              toISOString_ms (sample_dialog "100") w sample_submission
              "permission denied" eq_refl eq_refl eq_refl eq_refl)
    as (_ & (T & _) & N & H & _).
  split; [exact T|]. split; [exact N|exact H].
Defined.

Lemma submitGrade_rejects_non_numbers_witness :
  parseFloat_int "abc" = Js.NaN
  /\ exists msg,
       submitGrade parseFloat_int Number_toString_int toISOString_ms
         (sample_dialog "abc") sample_world
       = (Ret tt, with_toasts (toasts sample_world ++ [ToastError msg]) sample_world).
Proof.
  split; [reflexivity|].
  apply (submitGrade_rejects_non_numbers parseFloat_int Number_toString_int toISOString_ms
           (sample_dialog "abc") sample_world sample_submission 100 eq_refl eq_refl).
  intros g. discriminate.
Defined.

Lemma submitGrade_needs_input_witness :
  selectedSubmission emptyQueue = None
  /\ toasts (exec (submitGrade parseFloat_int Number_toString_int toISOString_ms emptyQueue)
               sample_world)
     = [ToastError "Please enter a grade"].
Proof.
  split; [reflexivity|].
  unfold exec.
  rewrite (submitGrade_needs_input parseFloat_int Number_toString_int toISOString_ms
             emptyQueue sample_world (or_introl eq_refl)).
  reflexivity.
Defined.

(* ================================================================== *)
(** * The selection of the bulk operation *)
(* ================================================================== *)

Lemma existsb_eqb_In (i : string) (l : list string) :
  existsb (String.eqb i) l = true <-> In i l.
Proof.
  rewrite existsb_exists. split.
  - intros (x & Hx & E). apply String.eqb_eq in E. now subst.
  - intros H. exists i. split; [exact H|apply String.eqb_refl].
Qed.

(** The selection after a toggle. *)
Lemma toggleSubmissionSelection_run (st : GradingQueueState) (i : string) (w : World) :
  selectedSubmissions (gradingQueue (exec (toggleSubmissionSelection st i) w))
  = if existsb (String.eqb i) (selectedSubmissions st)
    then filter (fun x => negb (String.eqb i x)) (selectedSubmissions st)
    else selectedSubmissions st ++ [i].
Proof.
  unfold exec, toggleSubmissionSelection.
  now destruct (existsb (String.eqb i) (selectedSubmissions st)).
Qed.

(** X7: toggling an id flips its membership in the selection and leaves
    the membership of every other id as it was; nothing but the selection
    changes in the world. *)
Theorem toggleSubmissionSelection_flips (st : GradingQueueState) (i : string) (w : World) :
  let sel' := selectedSubmissions (gradingQueue (exec (toggleSubmissionSelection st i) w)) in
  (In i sel' <-> ~ In i (selectedSubmissions st))
  /\ (forall x, x <> i -> (In x sel' <-> In x (selectedSubmissions st)))
  /\ exec (toggleSubmissionSelection st i) w
     = with_gradingQueue
         (mkGradingQueueState (submissions (gradingQueue w)) (loading (gradingQueue w))
            (grading (gradingQueue w)) (selectedSubmission (gradingQueue w))
            (gradeInput (gradingQueue w)) (feedbackInput (gradingQueue w))
            sel' (bulkGrade (gradingQueue w)) (bulkFeedback (gradingQueue w))) w.
Proof.
  intros sel'. subst sel'. rewrite toggleSubmissionSelection_run.
  split; [|split].
  - destruct (existsb (String.eqb i) (selectedSubmissions st)) eqn:E.
    + apply existsb_eqb_In in E. rewrite filter_In, String.eqb_refl. simpl.
      split; [intros [_ C]; discriminate|intros C; contradiction].
    + assert (N : ~ In i (selectedSubmissions st)).
      { intros C. apply existsb_eqb_In in C. congruence. }
      rewrite in_app_iff. simpl. split; [intros _; exact N|auto].
  - intros x Hx.
    destruct (existsb (String.eqb i) (selectedSubmissions st)).
    + rewrite filter_In. split; [now intros [H _]|].
      intros H. split; [exact H|]. apply negb_true_iff, String.eqb_neq. congruence.
    + rewrite in_app_iff. simpl. split; [|auto].
      intros [H|[H|[]]]; [exact H|congruence].
  - unfold exec, toggleSubmissionSelection.
    now destruct (existsb (String.eqb i) (selectedSubmissions st)).
Qed.

(** X8: toggling the same id twice, the second time on the selection the
    first toggle left, gives back a selection with the same members (the
    same list when the id was not selected and the selection held no id
    twice). *)
Theorem toggleSubmissionSelection_twice (st : GradingQueueState) (i : string) (w : World) :
  let st1 := gradingQueue (exec (toggleSubmissionSelection st i) w) in
  let sel2 := selectedSubmissions
                (gradingQueue (exec (toggleSubmissionSelection st1 i)
                                 (exec (toggleSubmissionSelection st i) w))) in
  (forall x, In x sel2 <-> In x (selectedSubmissions st))
  /\ (~ In i (selectedSubmissions st) -> sel2 = selectedSubmissions st).
Proof.
  intros st1 sel2. subst sel2 st1.
  rewrite toggleSubmissionSelection_run. rewrite toggleSubmissionSelection_run.
  destruct (existsb (String.eqb i) (selectedSubmissions st)) eqn:E.
  - assert (Hi : In i (selectedSubmissions st)) by now apply existsb_eqb_In.
    assert (E2 : existsb (String.eqb i)
                   (filter (fun x => negb (String.eqb i x)) (selectedSubmissions st)) = false).
    { destruct (existsb _ (filter _ _)) eqn:E2; [|reflexivity].
      apply existsb_eqb_In, filter_In in E2. destruct E2 as [_ C].
      rewrite String.eqb_refl in C. discriminate. }
    rewrite E2. split; [|intros C; contradiction].
    intros x. rewrite in_app_iff, filter_In. simpl. split.
    + intros [[H _]|[<-|[]]]; assumption.
    + intros H. destruct (String.eqb_spec i x) as [->|N]; [right; left; reflexivity|].
      left. split; [exact H|reflexivity].
  - assert (Hi : ~ In i (selectedSubmissions st)).
    { intros C. apply existsb_eqb_In in C. congruence. }
    assert (E2 : existsb (String.eqb i) (selectedSubmissions st ++ [i]) = true).
    { apply existsb_eqb_In, in_app_iff. right. left. reflexivity. }
    rewrite E2.
    assert (F : filter (fun x => negb (String.eqb i x)) (selectedSubmissions st ++ [i])
                = selectedSubmissions st).
    { rewrite filter_app. simpl. rewrite String.eqb_refl. simpl. rewrite app_nil_r.
      apply filter_all. apply Forall_forall. intros x Hx.
      apply negb_true_iff, String.eqb_neq. congruence. }
    rewrite F. split; [reflexivity|reflexivity].
Qed.

Lemma toggleSubmissionSelection_twice_witness :
  let st := sample_selection in
  let w1 := exec (toggleSubmissionSelection st "sub-9") sample_world in
  let w2 := exec (toggleSubmissionSelection (gradingQueue w1) "sub-9") w1 in
  ~ In "sub-9" (selectedSubmissions st)
  /\ selectedSubmissions (gradingQueue w1) = ["sub-1"; "sub-2"; "sub-3"; "sub-9"]
  /\ selectedSubmissions (gradingQueue w2) = ["sub-1"; "sub-2"; "sub-3"].
Proof.
  intros st w1 w2.
  assert (N : ~ In "sub-9" (selectedSubmissions st)).
  { simpl. intros [C|[C|[C|[]]]]; discriminate. }
  split; [exact N|]. split; [reflexivity|].
  exact (proj2 (toggleSubmissionSelection_twice st "sub-9" sample_world) N).
Defined.

Lemma toggleSubmissionSelection_flips_witness :
  let sel' := selectedSubmissions
                (gradingQueue (exec (toggleSubmissionSelection sample_selection "sub-2")
                                 sample_world)) in
  In "sub-2" (selectedSubmissions sample_selection)
  /\ ~ In "sub-2" sel'
  /\ In "sub-3" sel'.
Proof.
  intros sel'.
  destruct (toggleSubmissionSelection_flips sample_selection "sub-2" sample_world)
    as (H1 & H2 & _).
  fold sel' in H1, H2.
  assert (I : In "sub-2" (selectedSubmissions sample_selection))
    by (right; left; reflexivity).
  split; [exact I|]. split.
  - intros C. apply H1 in C. contradiction.
  - apply H2; [discriminate|]. right. right. left. reflexivity.
Defined.

(* ================================================================== *)
(** * The bulk operation: guards, exactness, report *)
(* ================================================================== *)

Lemma existsb_filter (i : string) (f : string -> bool) (l : list string) :
  existsb (String.eqb i) (filter f l) = existsb (String.eqb i) l && f i.
Proof.
  induction l as [|x l IH]; simpl; [reflexivity|].
  destruct (f x) eqn:Fx; simpl; rewrite IH;
    (destruct (String.eqb_spec i x) as [->|N]; simpl; [rewrite Fx|reflexivity]);
    now destruct (existsb (String.eqb x) l).
Qed.

Section BulkMore.

Variable parseFloat : string -> Js.number.
Variable Number_toString : Js.number -> string.
Variable toISOString : Timestamp -> string.

(** X9: the bulk operation with nothing selected, or with an empty grade
    input, only shows a toast (Please select submissions to grade, resp.
    Please enter a grade): no request is sent and nothing else changes. *)
Theorem handleBulkGrade_needs_input (st : GradingQueueState) (w : World) :
  (selectedSubmissions st = [] ->
     handleBulkGrade parseFloat Number_toString toISOString st w
     = (Ret tt,
        with_toasts (toasts w ++ [ToastError "Please select submissions to grade"]) w))
  /\ (selectedSubmissions st <> [] -> bulkGrade st = EmptyString ->
        handleBulkGrade parseFloat Number_toString toISOString st w
        = (Ret tt, with_toasts (toasts w ++ [ToastError "Please enter a grade"]) w)).
Proof.
  unfold handleBulkGrade. split.
  - intros H. now rewrite H.
  - intros H1 H2. destruct (selectedSubmissions st); [congruence|]. now rewrite H2.
Qed.

(** X10: when every request is carried out, the bulk operation updates a
    row exactly if its id is selected, the page holds a submission with
    that id and the shared grade is within that submission's points; the
    update writes the shared grade and feedback, status graded, the
    current time and the signed-in user.  Every other row is left as it
    is, and the table keeps its length and order. *)
Theorem handleBulkGrade_updates_exactly (st : GradingQueueState) (w : World) :
  selectedSubmissions st <> [] ->
  Js.is_empty (bulkGrade st) = false ->
  all_done w ->
  let u := mkSubmissionUpdate (parseFloat (bulkGrade st)) (bulkFeedback st) "graded"
             (clock w) (auth_user w) in
  let w' := exec (handleBulkGrade parseFloat Number_toString toISOString st) w in
  assignment_submissions w'
  = map (fun r => if existsb (String.eqb (sr_id r)) (selectedSubmissions st)
                     && bulk_gradable parseFloat st (sr_id r)
                  then apply_update u r else r)
      (assignment_submissions w).
Proof.
  intros Hsel Hne Hd u w'.
  destruct (handleBulkGrade_done parseFloat Number_toString toISOString st w Hsel Hne Hd)
    as [HT _].
  fold u w' in HT. rewrite HT. unfold graded_rows.
  apply map_ext. intros r. now rewrite existsb_filter.
Qed.

(** One turn of the loop for a submission that is not graded: at most a
    toast. *)
Lemma grade_one_skips (st : GradingQueueState) (session : option string)
    (i : string) (w : World) :
  bulk_gradable parseFloat st i = false ->
  grade_one parseFloat Number_toString toISOString st session i w
  = (Ret tt, match bulk_report parseFloat st i with
             | [] => w
             | t => with_toasts (toasts w ++ t) w
             end).
Proof.
  unfold bulk_gradable, bulk_report, grade_one.
  destruct (find _ (submissions st)) as [s|]; [|reflexivity].
  destruct (out_of_range _ _); [reflexivity|discriminate].
Qed.

(** One turn of the loop: its toasts. *)
Lemma grade_one_toasts (st : GradingQueueState) (session : option string)
    (i : string) (w : World) :
  all_done w ->
  let r := grade_one parseFloat Number_toString toISOString st session i w in
  toasts (snd r) = toasts w ++ bulk_report parseFloat st i
  /\ gradingQueue (snd r) = gradingQueue w
  /\ auth_user (snd r) = auth_user w.
Proof.
  intros Hd r. subst r.
  destruct (bulk_gradable parseFloat st i) eqn:G.
  - unfold bulk_gradable in G. unfold bulk_report, grade_one.
    destruct (find _ (submissions st)) as [s|]; [|discriminate].
    destruct (out_of_range _ _); [discriminate|].
    cbv zeta.
    erewrite bind_step by reflexivity.
    erewrite bind_step by (apply update_submissions_done, all_done_hd, Hd).
    unfold bind, insert_notification, request, next_reply. cbn.
    destruct (hd Done (tl (net w))); cbn; now rewrite app_nil_r.
  - rewrite (grade_one_skips st session i w G).
    destruct (bulk_report parseFloat st i); cbn; [now rewrite app_nil_r|auto].
Qed.

Lemma for_of_grade_one_toasts (st : GradingQueueState) (session : option string)
    (ids : list string) (w : World) :
  all_done w ->
  let r := for_of ids (grade_one parseFloat Number_toString toISOString st session) w in
  toasts (snd r) = toasts w ++ flat_map (bulk_report parseFloat st) ids
  /\ gradingQueue (snd r) = gradingQueue w
  /\ auth_user (snd r) = auth_user w.
Proof.
  revert w. induction ids as [|i ids IH]; intros w Hd r; subst r.
  - simpl. now rewrite app_nil_r.
  - simpl for_of. unfold bind.
    destruct (grade_one_done parseFloat Number_toString toISOString st session i w Hd)
      as (R1 & D1 & _).
    destruct (grade_one_toasts st session i w Hd) as (T1 & Q1 & A1).
    destruct (grade_one parseFloat Number_toString toISOString st session i w)
      as [r1 w1]. simpl in R1, D1, T1, Q1, A1. subst r1.
    destruct (IH w1 D1) as (T2 & Q2 & A2).
    split; [|split; congruence].
    rewrite T2, T1. simpl. now rewrite app_assoc.
Qed.

(** [fetchSubmissions] shows no toast when every request is carried
    out, and touches the list and the loading flag only. *)
Lemma fetchSubmissions_silent (w : World) :
  all_done w ->
  let w' := exec (floating fetchSubmissions) w in
  toasts w' = toasts w
  /\ selectedSubmissions (gradingQueue w') = selectedSubmissions (gradingQueue w)
  /\ bulkGrade (gradingQueue w') = bulkGrade (gradingQueue w)
  /\ bulkFeedback (gradingQueue w') = bulkFeedback (gradingQueue w)
  /\ grading (gradingQueue w') = grading (gradingQueue w).
Proof.
  intros Hd w'. subst w'. unfold exec, floating.
  destruct (auth_user w) as [u|] eqn:Hu.
  - erewrite try_catch_ret
      by (apply (fetchSubmissions_done w u Hu), all_done_hd, Hd).
    repeat split.
  - erewrite try_catch_ret
      by (unfold fetchSubmissions, bind, getSession, gets; rewrite Hu; reflexivity).
    repeat split.
Qed.

(** X11: when every request is carried out, the bulk operation shows one
    Invalid grade toast for each selected submission that the page holds
    and whose points the shared grade violates, in the order of the
    selection, and then the toast Graded M submissions, where M is the
    size of the whole selection, whatever the number of rows it graded;
    it ends with the selection emptied, both bulk inputs emptied and the
    grading flag cleared. *)
Theorem handleBulkGrade_reports_selection_size (st : GradingQueueState) (w : World) :
  selectedSubmissions st <> [] ->
  Js.is_empty (bulkGrade st) = false ->
  all_done w ->
  let w' := exec (handleBulkGrade parseFloat Number_toString toISOString st) w in
  toasts w'
  = toasts w
    ++ flat_map (bulk_report parseFloat st) (selectedSubmissions st)
    ++ [ToastSuccess ("Graded "
                        ++ Number_toString (Js.of_nat (length (selectedSubmissions st)))
                        ++ " submissions")]
  /\ selectedSubmissions (gradingQueue w') = []
  /\ bulkGrade (gradingQueue w') = EmptyString
  /\ bulkFeedback (gradingQueue w') = EmptyString
  /\ grading (gradingQueue w') = false.
Proof.
  intros Hsel Hne Hd w'. subst w'.
  unfold exec, handleBulkGrade.
  destruct (selectedSubmissions st) as [|i0 ids0] eqn:Eids; [congruence|].
  rewrite Hne. rewrite <- Eids.
  erewrite bind_step by reflexivity.
  erewrite bind_step by reflexivity.
  match goal with
  | |- context [bind (for_of ?l (grade_one _ _ _ _ ?sess)) ?k ?w0] =>
      destruct (for_of_grade_one parseFloat Number_toString toISOString st sess l w0 Hd)
        as (R & D & _);
      destruct (for_of_grade_one_toasts st sess l w0 Hd) as (T & Q & A);
      destruct (for_of l (grade_one parseFloat Number_toString toISOString st sess) w0)
        as [r1 w1] eqn:Eloop;
      simpl in R, D, T, Q, A; subst r1;
      erewrite (bind_step _ k) by exact Eloop
  end.
  step. step. step. step. step.
  match goal with
  | |- context [snd (floating fetchSubmissions ?w2)] =>
      destruct (fetchSubmissions_silent w2 D) as (F1 & F2 & F3 & F4 & F5)
  end.
  unfold exec in F1, F2, F3, F4, F5.
  rewrite F1, F2, F3, F4, F5. cbn.
  rewrite T. rewrite <- app_assoc. repeat split.
Qed.

(** X12: when none of the selected submissions can be graded (the grade
    does not parse, exceeds every item's points, or the page no longer
    holds the items), the bulk operation sends no update: whatever the
    backend would answer, the tables are unchanged; the handler still
    returns normally and still shows Graded M submissions. *)
Theorem handleBulkGrade_grades_nothing (st : GradingQueueState) (w : World) :
  selectedSubmissions st <> [] ->
  Js.is_empty (bulkGrade st) = false ->
  Forall (fun i => bulk_gradable parseFloat st i = false) (selectedSubmissions st) ->
  let w' := exec (handleBulkGrade parseFloat Number_toString toISOString st) w in
  result (handleBulkGrade parseFloat Number_toString toISOString st) w = Ret tt
  /\ same_tables w w'
  /\ In (ToastSuccess ("Graded "
                         ++ Number_toString (Js.of_nat (length (selectedSubmissions st)))
                         ++ " submissions")) (toasts w').
Proof.
  intros Hsel Hne Hall w'. subst w'.
  assert (L : forall ids session w0,
             Forall (fun i => bulk_gradable parseFloat st i = false) ids ->
             let r := for_of ids
                        (grade_one parseFloat Number_toString toISOString st session) w0 in
             fst r = Ret tt /\ same_tables w0 (snd r) /\ net (snd r) = net w0
             /\ exists ts, toasts (snd r) = toasts w0 ++ ts).
  { induction ids as [|i ids IH]; intros session w0 HF r; subst r.
    - simpl. repeat split. exists []. now rewrite app_nil_r.
    - inversion HF as [|? ? Hi HF']; subst. simpl for_of. unfold bind.
      rewrite (grade_one_skips st session i w0 Hi).
      destruct (IH session
                  (match bulk_report parseFloat st i with
                   | [] => w0
                   | t => with_toasts (toasts w0 ++ t) w0
                   end) HF') as (R & S & N & ts & T).
      split; [exact R|].
      destruct (bulk_report parseFloat st i) as [|t0 ts0].
      + split; [exact S|]. split; [exact N|]. exists ts. exact T.
      + split; [exact S|]. split; [exact N|].
        exists ((t0 :: ts0) ++ ts). rewrite T. cbn. now rewrite <- app_assoc. }
  unfold exec, result, handleBulkGrade.
  destruct (selectedSubmissions st) as [|i0 ids0] eqn:Eids; [congruence|].
  rewrite Hne. rewrite <- Eids in *.
  erewrite bind_step by reflexivity.
  erewrite bind_step by reflexivity.
  match goal with
  | |- context [bind (for_of ?l (grade_one _ _ _ _ ?sess)) ?k ?w0] =>
      destruct (L l sess w0 Hall) as (R & S & N & ts & T);
      destruct (for_of l (grade_one parseFloat Number_toString toISOString st sess) w0)
        as [r1 w1] eqn:Eloop;
      simpl in R, S, N, T; subst r1;
      rewrite !(bind_step _ k _ _ _ Eloop)
  end.
  step. step. step. step. step.
  match goal with
  | |- context [floating fetchSubmissions ?w2] =>
      pose proof (preserves_floating same_tables same_tables_refl same_tables_trans
                    fetchSubmissions fetchSubmissions_tables w2) as K;
      assert (KT : exists ts2, toasts (snd (floating fetchSubmissions w2))
                               = toasts w2 ++ ts2);
      [|assert (KR : fst (floating fetchSubmissions w2) = Ret tt)]
  end.
  - unfold floating, try_catch, fetchSubmissions, bind, getSession, gets, next_reply.
    cbn. destruct (auth_user w1); cbn.
    + destruct (hd Done (net w1)); cbn; eexists; try (now rewrite app_nil_r);
        reflexivity.
    + exists []. now rewrite app_nil_r.
  - unfold floating, try_catch, fetchSubmissions, bind, getSession, gets, next_reply.
    cbn. destruct (auth_user w1); cbn; [|reflexivity].
    destruct (hd Done (net w1)); reflexivity.
  - split; [exact KR|]. split.
    + eapply same_tables_trans; [|exact K].
      eapply same_tables_trans; [|split; [|split; [|split; [|split; [|split; [|split]]]]];
                                  reflexivity].
      exact S.
    + destruct KT as (ts2 & KT). rewrite KT. cbn. rewrite T.
      rewrite !in_app_iff. left. right. left. reflexivity.
Qed.

End BulkMore.

Lemma handleBulkGrade_needs_input_witness :
  selectedSubmissions emptyQueue = []
  /\ toasts (exec (handleBulkGrade parseFloat_int Number_toString_int toISOString_ms
                     emptyQueue) sample_world)
     = [ToastError "Please select submissions to grade"].
Proof.
  split; [reflexivity|]. unfold exec.
  rewrite (proj1 (handleBulkGrade_needs_input parseFloat_int Number_toString_int
                    toISOString_ms emptyQueue sample_world) eq_refl).
  reflexivity.
Defined.

Lemma handleBulkGrade_updates_exactly_witness :
  let w' := exec (handleBulkGrade parseFloat_int Number_toString_int toISOString_ms
                    sample_selection) sample_world in
  selectedSubmissions sample_selection <> []
  /\ Js.is_empty (bulkGrade sample_selection) = false
  /\ all_done sample_world
  /\ map sr_status (assignment_submissions w')
     = [Some "graded"; Some "submitted"; Some "graded"].
Proof.
  intros w'.
  assert (H1 : selectedSubmissions sample_selection <> []) by discriminate.
  assert (H3 : all_done sample_world) by constructor.
  split; [exact H1|]. split; [reflexivity|]. split; [exact H3|].
  subst w'.
  rewrite (handleBulkGrade_updates_exactly parseFloat_int Number_toString_int
             toISOString_ms sample_selection sample_world H1 eq_refl H3).
  reflexivity.
Defined.

Lemma handleBulkGrade_reports_selection_size_witness :
  selectedSubmissions sample_selection <> []
  /\ all_done sample_world
  /\ toasts (exec (handleBulkGrade parseFloat_int Number_toString_int toISOString_ms
                     sample_selection) sample_world)
     = [ToastError "Invalid grade for Bob"; ToastSuccess "Graded 3 submissions"].
Proof.
  assert (H1 : selectedSubmissions sample_selection <> []) by discriminate.
  assert (H3 : all_done sample_world) by constructor.
  split; [exact H1|]. split; [exact H3|].
  rewrite (proj1 (handleBulkGrade_reports_selection_size parseFloat_int Number_toString_int
                    toISOString_ms sample_selection sample_world H1 eq_refl H3)).
  reflexivity.
Defined.

Lemma handleBulkGrade_grades_nothing_witness :
  let w := with_net [Failed "offline"; Failed "offline"] sample_world in
  let w' := exec (handleBulkGrade parseFloat_int Number_toString_int toISOString_ms
                    sample_selection_no_number) w in
  Forall (fun i => bulk_gradable parseFloat_int sample_selection_no_number i = false)
    (selectedSubmissions sample_selection_no_number)
  /\ assignment_submissions w' = sample_rows
  /\ In (ToastSuccess "Graded 2 submissions") (toasts w').
Proof.
  intros w w'.
  assert (H1 : selectedSubmissions sample_selection_no_number <> []) by discriminate.
  assert (H3 : Forall (fun i => bulk_gradable parseFloat_int sample_selection_no_number i
                                = false)
                 (selectedSubmissions sample_selection_no_number))
    by (repeat constructor).
  split; [exact H3|].
  destruct (handleBulkGrade_grades_nothing parseFloat_int Number_toString_int
              toISOString_ms sample_selection_no_number w H1 eq_refl H3)
    as (_ & (T & _) & S).
  split; [exact T|exact S].
Defined.

(* ================================================================== *)
(** * Enrolling and dropping *)
(* ================================================================== *)

Lemma set_add_In (x : string) (s : list string) (c : string) :
  In c (set_add x s) <-> In c s \/ c = x.
Proof.
  unfold set_add.
  destruct (existsb (String.eqb x) s) eqn:E.
  - apply existsb_eqb_In in E. split; [auto|]. intros [H | ->]; assumption.
  - rewrite in_app_iff. simpl. split.
    + intros [H|[H|[]]]; auto.
    + intros [H | ->]; auto.
Qed.

(** The run of a successful drop. *)
Lemma handleDrop_run (enrolled : list string) (subjectId user : string) (w : World) :
  auth_user w = Some user ->
  hd Done (net w) = Done ->
  hd Done (tl (net w)) = Done ->
  handleDrop enrolled subjectId w
  = (Ret tt,
     with_toasts (toasts w ++ [ToastSuccess "Dropped course (your progress is saved!)"])
       (with_enrolledCourses (filter (fun c => negb (String.eqb c subjectId)) enrolled)
          (with_student_courses
             (filter (fun r => negb (enrolment_of user subjectId r)) (student_courses w))
             (with_net (tl (tl (net w))) w)))).
Proof.
  intros Hu H1 H2.
  unfold handleDrop, try_catch, bind, getUser, next_reply, gets, delete_student_course,
    request, bind, next_reply, modify, ret, throw_if_error, setEnrolledCourses,
    toast_success.
  cbn. rewrite H1. cbn. rewrite Hu. cbn. rewrite H2. cbn. reflexivity.
Qed.

Section EnrolmentFacts.

Variable gen_random_uuid : list StudentCourseRow -> string.
Variable default_progress : option Js.number.

(** The run of a successful enrolment. *)
Lemma handleEnroll_run (enrolled : list string) (subjectId user : string) (w : World) :
  auth_user w = Some user ->
  hd Done (net w) = Done ->
  hd Done (tl (net w)) = Done ->
  hd Done (tl (tl (net w))) = Done ->
  handleEnroll gen_random_uuid default_progress enrolled subjectId w
  = (Ret tt,
     with_notifications (notifications w ++ [enrolment_notification user])
       (with_toasts (toasts w ++ [ToastSuccess "Enrolled successfully!"])
          (with_enrolledCourses (set_add subjectId enrolled)
             (with_student_courses
                (student_courses w ++
                   [mkStudentCourseRow (gen_random_uuid (student_courses w)) user subjectId
                      default_progress (Some false) None None])
                (with_net (tl (tl (tl (net w)))) w))))).
Proof.
  intros Hu H1 H2 H3.
  unfold handleEnroll, try_catch, bind, getUser, next_reply, gets, insert_student_course,
    insert_enrolment_notification, request, bind, next_reply, modify, ret, throw_if_error,
    setEnrolledCourses, toast_success.
  cbn. rewrite H1. cbn. rewrite Hu. cbn. rewrite H2. cbn. rewrite H3. cbn. reflexivity.
Qed.

(** X13: a successful enrolment (a signed-in user, the three requests
    carried out) appends one row for (user, course) that is not
    completed and has no certificate, keeps every row that was there,
    makes the course a member of the page's set, shows Enrolled
    successfully! and stores one notification whose user_id is the
    enrolling user; the other tables are unchanged. *)
Theorem handleEnroll_enrols
    (enrolled : list string) (subjectId user : string) (w : World) :
  auth_user w = Some user ->
  hd Done (net w) = Done ->
  hd Done (tl (net w)) = Done ->
  hd Done (tl (tl (net w))) = Done ->
  let w' := exec (handleEnroll gen_random_uuid default_progress enrolled subjectId) w in
  (exists r, student_courses w' = student_courses w ++ [r]
             /\ sc_student_id r = user /\ sc_subject_id r = subjectId
             /\ sc_completed r = Some false /\ sc_completed_at r = None
             /\ sc_certificate_url r = None)
  /\ (exists n, notifications w' = notifications w ++ [n] /\ nr_user_id n = user
                /\ nr_type n = "course_enrolled")
  /\ In subjectId (enrolledCourses w')
  /\ (forall c, In c enrolled -> In c (enrolledCourses w'))
  /\ toasts w' = toasts w ++ [ToastSuccess "Enrolled successfully!"]
  /\ assignment_submissions w' = assignment_submissions w
  /\ content_files w' = content_files w.
Proof.
  intros Hu H1 H2 H3 w'. subst w'. unfold exec.
  rewrite (handleEnroll_run enrolled subjectId user w Hu H1 H2 H3). cbn.
  split; [eexists; repeat split|].
  split; [eexists; repeat split|].
  pose proof (set_add_In subjectId enrolled) as S.
  split; [apply S; auto|]. split; [intros c Hc; apply S; auto|].
  repeat split.
Qed.

(** X14: handleEnroll without a user (no session, or the auth server
    answers with an error) enrols nobody and shows nothing: only the one
    reply is consumed.  When the insert is answered with an error it
    shows Failed to enroll in course and logs the error; no row is
    added, the page's set is kept and no notification is requested. *)
Theorem handleEnroll_fails_quietly
    (enrolled : list string) (subjectId : string) (w : World) :
  ((hd Done (net w) = Done /\ auth_user w = None)
   \/ (exists e, hd Done (net w) = Failed e) ->
     handleEnroll gen_random_uuid default_progress enrolled subjectId w
     = (Ret tt, with_net (tl (net w)) w))
  /\ (forall user e,
        auth_user w = Some user -> hd Done (net w) = Done ->
        hd Done (tl (net w)) = Failed e ->
        handleEnroll gen_random_uuid default_progress enrolled subjectId w
        = (Ret tt,
           with_console_errors (console_errors w ++ [BackendError e])
             (with_toasts (toasts w ++ [ToastError "Failed to enroll in course"])
                (with_net (tl (tl (net w))) w)))).
Proof.
  split.
  - intros H.
    unfold handleEnroll, try_catch, bind, getUser, next_reply, gets, ret. cbn.
    destruct H as [[R Hu]|(e & He)].
    + rewrite R. cbn. now rewrite Hu.
    + now rewrite He.
  - intros user e Hu H1 H2.
    unfold handleEnroll, try_catch, bind, getUser, next_reply, gets, insert_student_course,
      request, bind, next_reply, modify, ret, throw, throw_if_error, toast_error,
      console_error.
    cbn. rewrite H1. cbn. rewrite Hu. cbn. rewrite H2. cbn. reflexivity.
Qed.

(** X15: enrolling in a course and then dropping it, every request being
    carried out, gives back the enrolment table as it was when the user
    had no row for the course; the page's set no longer holds the course.
    The notification of the enrolment stays. *)
Theorem handleEnroll_then_handleDrop
    (enrolled : list string) (subjectId user : string) (w : World) :
  auth_user w = Some user ->
  all_done w ->
  Forall (fun r => enrolment_of user subjectId r = false) (student_courses w) ->
  let w1 := exec (handleEnroll gen_random_uuid default_progress enrolled subjectId) w in
  let w2 := exec (handleDrop (enrolledCourses w1) subjectId) w1 in
  student_courses w2 = student_courses w
  /\ ~ In subjectId (enrolledCourses w2)
  /\ (forall c, c <> subjectId -> (In c (enrolledCourses w2) <-> In c enrolled))
  /\ notifications w2 = notifications w ++ [enrolment_notification user]
  /\ toasts w2 = toasts w ++ [ToastSuccess "Enrolled successfully!";
                              ToastSuccess "Dropped course (your progress is saved!)"].
Proof.
  intros Hu Hd Hnone w1 w2.
  assert (D1 : hd Done (net w) = Done) by now apply all_done_hd.
  assert (Dt : forall l, Forall (fun r => r = Done) l -> hd Done l = Done
                         /\ Forall (fun r => r = Done) (tl l)).
  { intros [|r l] H; [split; [reflexivity|constructor]|]. inversion H; subst. now split. }
  unfold all_done in Hd.
  destruct (Dt _ Hd) as [_ Hd1]. destruct (Dt _ Hd1) as [D2 Hd2].
  destruct (Dt _ Hd2) as [D3 Hd3]. destruct (Dt _ Hd3) as [D4 Hd4].
  destruct (Dt _ Hd4) as [D5 _].
  pose proof (set_add_In subjectId enrolled) as S.
  subst w2 w1. unfold exec.
  rewrite (handleEnroll_run enrolled subjectId user w Hu D1 D2 D3). cbn [snd].
  erewrite handleDrop_run; [|exact Hu|exact D4|exact D5].
  norm_world.
  split; [|split; [|split; [|split]]].
  - rewrite filter_app. simpl. unfold enrolment_of at 2. simpl.
    rewrite !String.eqb_refl. simpl. rewrite app_nil_r.
    apply filter_all. eapply Forall_impl; [|exact Hnone].
    intros r Hr. simpl in Hr. now rewrite Hr.
  - rewrite filter_In, String.eqb_refl. simpl. intros [_ C]. discriminate.
  - intros c Hc. rewrite filter_In, S. split.
    + intros [[H|H] _]; [exact H|contradiction].
    + intros H. split; [auto|]. apply negb_true_iff, String.eqb_neq. exact Hc.
  - reflexivity.
  - rewrite <- app_assoc. reflexivity.
Qed.

End EnrolmentFacts.

(** X16: handleDrop without a user (no session, or the auth server
    answers with an error) deletes nothing and shows nothing.  When the
    delete is answered with an error it shows Failed to drop course and
    logs the error; the enrolment rows and the page's set are kept. *)
Theorem handleDrop_fails_quietly (enrolled : list string) (subjectId : string) (w : World) :
  ((hd Done (net w) = Done /\ auth_user w = None)
   \/ (exists e, hd Done (net w) = Failed e) ->
     handleDrop enrolled subjectId w = (Ret tt, with_net (tl (net w)) w))
  /\ (forall user e,
        auth_user w = Some user -> hd Done (net w) = Done ->
        hd Done (tl (net w)) = Failed e ->
        handleDrop enrolled subjectId w
        = (Ret tt,
           with_console_errors (console_errors w ++ [BackendError e])
             (with_toasts (toasts w ++ [ToastError "Failed to drop course"])
                (with_net (tl (tl (net w))) w)))).
Proof.
  split.
  - intros H.
    unfold handleDrop, try_catch, bind, getUser, next_reply, gets, ret. cbn.
    destruct H as [[R Hu]|(e & He)].
    + rewrite R. cbn. now rewrite Hu.
    + now rewrite He.
  - intros user e Hu H1 H2.
    unfold handleDrop, try_catch, bind, getUser, next_reply, gets, delete_student_course,
      request, bind, next_reply, modify, ret, throw, throw_if_error, toast_error,
      console_error.
    cbn. rewrite H1. cbn. rewrite Hu. cbn. rewrite H2. cbn. reflexivity.
Qed.

Lemma handleEnroll_enrols_witness :
  let w' := exec (handleEnroll sample_uuid None [] "math-s1") sample_newcomer_world in
  auth_user sample_newcomer_world = Some "carol"
  /\ (exists r, student_courses w' = student_courses sample_newcomer_world ++ [r]
                /\ sc_student_id r = "carol")
  /\ notifications w' = [enrolment_notification "carol"]
  /\ enrolledCourses w' = ["math-s1"].
Proof.
  intros w'. split; [reflexivity|].
  destruct (handleEnroll_enrols sample_uuid None [] "math-s1" "carol"
              sample_newcomer_world eq_refl eq_refl eq_refl eq_refl)
    as ((r & Hr & Hs & _) & _).
  split; [exists r; split; assumption|]. split; reflexivity.
Defined.

Lemma handleEnroll_fails_quietly_witness :
  let w := with_net [Done; Failed "duplicate key"] sample_newcomer_world in
  let w' := exec (handleEnroll sample_uuid None [] "math-s1") w in
  hd Done (tl (net w)) = Failed "duplicate key"
  /\ student_courses w' = student_courses sample_newcomer_world
  /\ notifications w' = []
  /\ toasts w' = [ToastError "Failed to enroll in course"].
Proof.
  intros w w'. split; [reflexivity|].
  subst w'. unfold exec.
  rewrite (proj2 (handleEnroll_fails_quietly sample_uuid None [] "math-s1" w)
             "carol" "duplicate key" eq_refl eq_refl eq_refl).
  repeat split.
Defined.

Lemma handleEnroll_then_handleDrop_witness :
  let w1 := exec (handleEnroll sample_uuid None [] "math-s1") sample_newcomer_world in
  let w2 := exec (handleDrop (enrolledCourses w1) "math-s1") w1 in
  all_done sample_newcomer_world
  /\ Forall (fun r => enrolment_of "carol" "math-s1" r = false)
       (student_courses sample_newcomer_world)
  /\ length (student_courses w1) = 3%nat
  /\ student_courses w2 = student_courses sample_newcomer_world
  /\ notifications w2 = [enrolment_notification "carol"].
Proof.
  intros w1 w2.
  assert (Hd : all_done sample_newcomer_world) by constructor.
  assert (Hn : Forall (fun r => enrolment_of "carol" "math-s1" r = false)
                 (student_courses sample_newcomer_world)) by (repeat constructor).
  split; [exact Hd|]. split; [exact Hn|]. split; [reflexivity|].
  destruct (handleEnroll_then_handleDrop sample_uuid None [] "math-s1" "carol"
              sample_newcomer_world eq_refl Hd Hn) as (H1 & _ & _ & H4 & _).
  split; [exact H1|exact H4].
Defined.

Lemma handleDrop_fails_quietly_witness :
  let w := with_net [Done; Failed "permission denied"] sample_student_world in
  let w' := exec (handleDrop ["math-s1"] "math-s1") w in
  hd Done (tl (net w)) = Failed "permission denied"
  /\ student_courses w' = student_courses sample_student_world
  /\ enrolledCourses w' = ["math-s1"]
  /\ toasts w' = [ToastError "Failed to drop course"].
Proof.
  intros w w'. split; [reflexivity|].
  subst w'. unfold exec.
  rewrite (proj2 (handleDrop_fails_quietly ["math-s1"] "math-s1" w)
             "alice" "permission denied" eq_refl eq_refl eq_refl).
  repeat split.
Defined.

(* ================================================================== *)
(** * Certificates: the orphaned object, the file name, the rows *)
(* ================================================================== *)

Lemma has_space_append (a b : string) :
  has_space (a ++ b) = has_space a || has_space b.
Proof.
  induction a as [|c a IH]; simpl; [reflexivity|]. now rewrite IH, orb_assoc.
Qed.

Lemma has_space_replace_spaces_from (b : bool) (s : string) :
  has_space (Js.replace_spaces_from b s) = false.
Proof.
  revert b. induction s as [|c s IH]; intros b; simpl; [reflexivity|].
  destruct (Js.is_space c) eqn:E.
  - destruct b; simpl; apply IH.
  - simpl. now rewrite E, IH.
Qed.

Lemma has_space_string_of_uint (d : Decimal.uint) :
  has_space (NilEmpty.string_of_uint d) = false.
Proof.
  induction d; simpl; try reflexivity; exact IHd.
Qed.

Lemma has_space_decimal (n : N) : has_space (Js.decimal n) = false.
Proof.
  unfold Js.decimal, NilZero.string_of_uint.
  destruct (N.to_uint n); try reflexivity; apply has_space_string_of_uint.
Qed.

(** X18: the file name of a certificate holds no white space, whatever
    the course name: every run of white space in the name has become one
    hyphen, and the other parts are a fixed prefix, the digits of the
    clock reading and the suffix .pdf. *)
Theorem certificate_fileName_no_space (data : CertificateData) (now : Timestamp) :
  has_space (certificate_fileName data now) = false.
Proof.
  unfold certificate_fileName.
  rewrite !has_space_append.
  unfold Js.replace_spaces.
  now rewrite has_space_replace_spaces_from, has_space_decimal.
Qed.

Lemma replace_spaces_from_no_space (b : bool) (s : string) :
  has_space s = false -> Js.replace_spaces_from b s = s.
Proof.
  revert b. induction s as [|c s IH]; intros b H; simpl in *; [reflexivity|].
  apply orb_false_iff in H. destruct H as [Hc Hs].
  rewrite Hc. now rewrite IH.
Qed.

Lemma replace_spaces_from_length (b : bool) (s : string) :
  (String.length (Js.replace_spaces_from b s) <= String.length s)%nat.
Proof.
  revert b. induction s as [|c s IH]; intros b; simpl; [lia|].
  destruct (Js.is_space c).
  - destruct b; simpl.
    + specialize (IH true). lia.
    + specialize (IH true). lia.
  - simpl. specialize (IH false). lia.
Qed.

(** X20: replacing the white space of a name that holds none gives the
    name back; replacing twice is replacing once; the result is never
    longer than the name. *)
Theorem replace_spaces_idempotent (s : string) :
  (has_space s = false -> Js.replace_spaces s = s)
  /\ Js.replace_spaces (Js.replace_spaces s) = Js.replace_spaces s
  /\ (String.length (Js.replace_spaces s) <= String.length s)%nat.
Proof.
  unfold Js.replace_spaces. split; [|split].
  - apply replace_spaces_from_no_space.
  - apply replace_spaces_from_no_space, has_space_replace_spaces_from.
  - apply replace_spaces_from_length.
Qed.

Lemma replace_spaces_idempotent_witness :
  has_space "Mathematics-S1" = false
  /\ Js.replace_spaces "Mathematics-S1" = "Mathematics-S1"
  /\ Js.replace_spaces "Mathematics   S1" = "Mathematics-S1".
Proof.
  split; [reflexivity|].
  split; [|reflexivity].
  apply (proj1 (replace_spaces_idempotent "Mathematics-S1")). reflexivity.
Defined.

Section CertificateMore.

Variable pageWidth pageHeight : Q.
Variable toLocaleDateString : string -> string.
Variable getPublicUrl : string -> string.

(** X17: when the upload succeeds and the update of the enrolment fails,
    the uploaded object stays in the bucket although no enrolment row
    records it: the bucket has grown by the object, the rows are
    unchanged, the operation returns null with the toast Failed to save
    certificate, and the document is saved locally once. *)
Theorem generateCertificate_orphans_object (data : CertificateData) (w : World) :
  let fileName := certificate_fileName data (clock w) in
  let path := certificate_path data fileName in
  let pdf := render pageWidth pageHeight toLocaleDateString data in
  upload_succeeds path w = true ->
  update_succeeds w = false ->
  let r := generateCertificate pageWidth pageHeight toLocaleDateString getPublicUrl data w in
  fst r = Ret None
  /\ content_files (snd r) = content_files w ++ [(path, pdf)]
  /\ student_courses (snd r) = student_courses w
  /\ toasts (snd r) = toasts w ++ [ToastError "Failed to save certificate"]
  /\ console_errors (snd r) = console_errors w ++ [update_error w]
  /\ downloads (snd r) = downloads w ++ [(fileName, pdf)].
Proof.
  intros fileName path pdf U V r. subst r.
  rewrite (generateCertificate_update_failure pageWidth pageHeight toLocaleDateString
             getPublicUrl data w U V).
  repeat split.
Qed.

Lemma certificate_recorded_map (s c url : string) (rows : list StudentCourseRow) :
  Forall2 (certificate_recorded s c url) rows
    (map (fun r => if enrolment_of s c r then set_certificate_url url r else r) rows).
Proof.
  induction rows as [|r rows IH]; simpl; constructor; [|exact IH].
  unfold certificate_recorded. destruct (enrolment_of s c r); auto.
Qed.

Lemma certificate_recorded_refl (s c url : string) (rows : list StudentCourseRow) :
  Forall2 (certificate_recorded s c url) rows rows.
Proof.
  induction rows; constructor; [now left|assumption].
Qed.

(** What any run does to the tables. *)
Lemma generateCertificate_rows (data : CertificateData) (w : World) :
  let path := certificate_path data (certificate_fileName data (clock w)) in
  let w' := snd (generateCertificate pageWidth pageHeight toLocaleDateString getPublicUrl
                   data w) in
  Forall2 (certificate_recorded (studentId data) (courseId data) (getPublicUrl path))
    (student_courses w) (student_courses w')
  /\ assignment_submissions w' = assignment_submissions w
  /\ notifications w' = notifications w
  /\ assignments w' = assignments w
  /\ profiles w' = profiles w
  /\ auth_user w' = auth_user w.
Proof.
  intros path w'. subst w'.
  destruct (upload_succeeds path w) eqn:U.
  - destruct (update_succeeds w) eqn:V.
    + rewrite (generateCertificate_success pageWidth pageHeight toLocaleDateString
                 getPublicUrl data w U V).
      split; [apply certificate_recorded_map|repeat split].
    + rewrite (generateCertificate_update_failure pageWidth pageHeight
                 toLocaleDateString getPublicUrl data w U V).
      split; [apply certificate_recorded_refl|repeat split].
  - rewrite (generateCertificate_upload_failure pageWidth pageHeight toLocaleDateString
               getPublicUrl data w U).
    split; [apply certificate_recorded_refl|repeat split].
Qed.

(** X19: in every run, whatever the backend answers, generateCertificate
    changes an enrolment row at most by recording the URL on a row of the
    given (student, course): the table keeps its rows in place, no row of
    another student or course changes, and progress, completed and
    completed_at never change.  Submissions and notifications are never
    touched. *)
Theorem generateCertificate_touches_only_url (data : CertificateData) (w : World) :
  let path := certificate_path data (certificate_fileName data (clock w)) in
  let w' := snd (generateCertificate pageWidth pageHeight toLocaleDateString getPublicUrl
                   data w) in
  Forall2 (certificate_recorded (studentId data) (courseId data) (getPublicUrl path))
    (student_courses w) (student_courses w')
  /\ Forall2 (fun r r' => sc_id r' = sc_id r
                          /\ sc_student_id r' = sc_student_id r
                          /\ sc_subject_id r' = sc_subject_id r
                          /\ sc_progress r' = sc_progress r
                          /\ sc_completed r' = sc_completed r
                          /\ sc_completed_at r' = sc_completed_at r)
       (student_courses w) (student_courses w')
  /\ assignment_submissions w' = assignment_submissions w
  /\ notifications w' = notifications w.
Proof.
  intros path w'.
  destruct (generateCertificate_rows data w) as (H1 & H2 & H3 & _).
  fold path w' in H1, H2, H3.
  split; [exact H1|]. split; [|split; assumption].
  eapply Forall2_impl; [|exact H1].
  intros r r' [->|[_ ->]]; repeat split.
Qed.

End CertificateMore.

Lemma generateCertificate_orphans_object_witness :
  let w := with_net [Done; Failed "permission denied"] sample_student_world in
  let r := generateCertificate a4_width a4_height toLocaleDateString_id publicUrl_of
             sample_certificate w in
  update_succeeds w = false
  /\ fst r = Ret None
  /\ map fst (content_files (snd r))
     = ["certificates/alice/certificate-Mathematics-S1-6000.pdf"]
  /\ student_courses (snd r) = student_courses sample_student_world.
Proof.
  intros w r. split; [reflexivity|].
  destruct (generateCertificate_orphans_object a4_width a4_height toLocaleDateString_id
              publicUrl_of sample_certificate w eq_refl eq_refl)
    as (H1 & H2 & H3 & _).
  fold r in H1, H2, H3.
  split; [exact H1|]. split; [rewrite H2; reflexivity|exact H3].
Defined.

(* ================================================================== *)
(** * The progress page *)
(* ================================================================== *)

Lemma lt_irrefl (a : Js.number) : Js.lt a a = false.
Proof.
  destruct a as [| |q|]; simpl; try reflexivity.
  apply negb_false_iff, Qle_bool_iff, Qle_refl.
Qed.

Lemma lt_asym (a b : Js.number) : Js.lt a b = true -> Js.lt b a = false.
Proof.
  destruct a as [| |x|], b as [| |y|]; simpl; try reflexivity; try discriminate.
  intros H. apply negb_true_iff in H. apply negb_false_iff, Qle_bool_iff.
  destruct (Qlt_le_dec y x) as [L|L]; [|exact L].
  exfalso. apply Qlt_le_weak, Qle_bool_iff in L. congruence.
Qed.

(** On numbers, not being below is transitive. *)
Lemma not_lt_trans (a b c : Js.number) :
  Js.isNaN a = false -> Js.isNaN b = false -> Js.isNaN c = false ->
  Js.lt a b = false -> Js.lt b c = false -> Js.lt a c = false.
Proof.
  destruct a as [| |x|], b as [| |y|], c as [| |z|]; simpl;
    try reflexivity; try discriminate.
  intros _ _ _ H1 H2.
  apply negb_false_iff, Qle_bool_iff in H1. apply negb_false_iff, Qle_bool_iff in H2.
  apply negb_false_iff, Qle_bool_iff. eapply Qle_trans; eauto.
Qed.

Lemma fold_max2 (l : list Js.number) (a : Js.number) :
  Js.isNaN a = false ->
  Forall (fun x => Js.isNaN x = false) l ->
  let m := fold_left max2 l a in
  Js.isNaN m = false
  /\ Js.lt m a = false
  /\ (forall x, In x l -> Js.lt m x = false)
  /\ (m = a \/ In m l).
Proof.
  revert a. induction l as [|x l IH]; intros a Ha Hl m; subst m; simpl.
  - repeat split; [exact Ha|apply lt_irrefl|intros x []|now left].
  - inversion Hl as [|? ? Hx Hl']; subst.
    assert (E : max2 a x = if Js.lt a x then x else a)
      by (unfold max2; now rewrite Ha, Hx).
    assert (Hm : Js.isNaN (max2 a x) = false)
      by (rewrite E; now destruct (Js.lt a x)).
    assert (Ma : Js.lt (max2 a x) a = false).
    { rewrite E. destruct (Js.lt a x) eqn:L; [now apply lt_asym|apply lt_irrefl]. }
    assert (Mx : Js.lt (max2 a x) x = false).
    { rewrite E. destruct (Js.lt a x) eqn:L; [apply lt_irrefl|exact L]. }
    destruct (IH (max2 a x) Hm Hl') as (N & G & A & M).
    split; [exact N|]. split; [|split].
    + eapply not_lt_trans; [exact N|exact Hm|exact Ha|exact G|exact Ma].
    + intros y [<-|Hy]; [|now apply A].
      eapply not_lt_trans; [exact N|exact Hm|exact Hx|exact G|exact Mx].
    + destruct M as [M|M]; [|right; right; exact M].
      rewrite M, E. destruct (Js.lt a x); [right; left; reflexivity|now left].
Qed.

Lemma select_attempts_length (user : string) (rows : list AttemptRow) :
  length (select_attempts user rows)
  = length (filter (fun r => match qa_completed_at r with
                             | Some _ => String.eqb (qa_student_id r) user
                             | None => false
                             end) rows).
Proof.
  induction rows as [|r rows IH]; simpl; [reflexivity|].
  destruct (qa_completed_at r); [|exact IH].
  destruct (String.eqb (qa_student_id r) user); simpl; now rewrite IH.
Qed.

Lemma insert_by_completed_at_length (a : AttemptData) (l : list AttemptData) :
  length (insert_by_completed_at a l) = S (length l).
Proof.
  induction l as [|x l IH]; simpl; [reflexivity|].
  destruct (_ <=? _)%N; simpl; [reflexivity|now rewrite IH].
Qed.

Lemma order_by_completed_at_length (l : list AttemptData) :
  length (order_by_completed_at l) = length l.
Proof.
  induction l as [|x l IH]; simpl; [reflexivity|].
  now rewrite insert_by_completed_at_length, IH.
Qed.

Section ProgressFacts.

Variable quiz_attempts : list AttemptRow.
Variable subjects : list SubjectRow.
Variable fadd fmul fdiv : Js.number -> Js.number -> Js.number.
Variable completed_at_text : option Timestamp -> string.
Variable pageWidth pageHeight : Q.
Variable toLocaleDateString : string -> string.
Variable getPublicUrl : string -> string.

(** The courses a query offers are the completed enrolments of the user. *)
Lemma query_completed_courses_In (user : string) (w : World) (c : CompletedCourse) :
  In c (query_completed_courses subjects user w)
  <-> exists r, In r (student_courses w)
                /\ sc_student_id r = user /\ sc_completed r = Some true
                /\ c = select_course subjects r.
Proof.
  unfold query_completed_courses. rewrite in_map_iff. split.
  - intros (r & E & Hr). apply filter_In in Hr. destruct Hr as [Hr Hc].
    unfold is_completed_of in Hc. apply andb_true_iff in Hc. destruct Hc as [Hu Hc].
    apply String.eqb_eq in Hu.
    exists r. split; [exact Hr|]. split; [exact Hu|]. split; [|now symmetry].
    destruct (sc_completed r) as [[|]|]; congruence.
  - intros (r & Hr & Hs & Hc & ->). exists r. split; [reflexivity|].
    apply filter_In. split; [exact Hr|].
    unfold is_completed_of. now rewrite Hs, Hc, String.eqb_refl.
Qed.

(** The run of [fetchProgress] for a signed-in user whose two queries are
    carried out. *)
Lemma fetchProgress_run (ps : ProgressState) (w : World) (u : string) :
  auth_user w = Some u ->
  hd Done (net w) = Done ->
  hd Done (tl (net w)) = Done ->
  let typedData := order_by_completed_at (select_attempts u quiz_attempts) in
  fetchProgress quiz_attempts subjects fadd fmul fdiv ps w
  = (Ret (mkProgressState typedData (query_completed_courses subjects u w) false
            (generatingCert ps) (compute_stats fadd fmul fdiv typedData)),
     with_net (tl (tl (net w))) w).
Proof.
  intros Hu H1 H2 typedData.
  unfold fetchProgress, bind, getSession, gets, next_reply, ret.
  rewrite Hu, H1. norm_world. rewrite H2. reflexivity.
Qed.

(** X21: for a signed-in user whose queries are carried out, the
    progress page offers for certificate generation exactly the views of
    the user's enrolments with completed = true; it holds as many attempts
    as the user has completed, with their statistics, the loading flag is
    cleared and no table is changed. *)
Theorem fetchProgress_offers_completed (ps : ProgressState) (w : World) (u : string) :
  auth_user w = Some u ->
  hd Done (net w) = Done ->
  hd Done (tl (net w)) = Done ->
  exists ps',
    fetchProgress quiz_attempts subjects fadd fmul fdiv ps w
    = (Ret ps', with_net (tl (tl (net w))) w)
    /\ (forall c, In c (completedCourses ps') <->
          exists r, In r (student_courses w)
                    /\ sc_student_id r = u /\ sc_completed r = Some true
                    /\ c = select_course subjects r)
    /\ (forall c, In c (completedCourses ps') -> cc_completed c = Some true)
    /\ stats ps' = compute_stats fadd fmul fdiv (attempts ps')
    /\ totalQuizzes (stats ps')
       = length (filter (fun r => match qa_completed_at r with
                                  | Some _ => String.eqb (qa_student_id r) u
                                  | None => false
                                  end) quiz_attempts)
    /\ progressLoading ps' = false.
Proof.
  intros Hu H1 H2. eexists. split; [apply (fetchProgress_run ps w u Hu H1 H2)|].
  cbn [completedCourses stats attempts progressLoading].
  split; [|split; [|split; [reflexivity|split; [|reflexivity]]]].
  - intros c. apply query_completed_courses_In.
  - intros c Hc. apply query_completed_courses_In in Hc.
    destruct Hc as (r & _ & _ & Hc & ->). exact Hc.
  - unfold compute_stats. cbn [totalQuizzes].
    now rewrite order_by_completed_at_length, select_attempts_length.
Qed.

(** X22: without a session the progress page sends no request:
    fetchProgress shows Please sign in to view your progress and clears
    the loading flag, and handleGenerateCertificate does nothing at
    all. *)
Theorem progress_page_needs_session
    (ps : ProgressState) (course : CompletedCourse) (w : World) :
  auth_user w = None ->
  fetchProgress quiz_attempts subjects fadd fmul fdiv ps w
  = (Ret (setProgressLoading false ps),
     with_toasts (toasts w ++ [ToastError "Please sign in to view your progress"]) w)
  /\ handleGenerateCertificate quiz_attempts subjects fadd fmul fdiv completed_at_text
       pageWidth pageHeight toLocaleDateString getPublicUrl ps course w
     = (Ret ps, w).
Proof.
  intros Hu. split.
  - unfold fetchProgress, bind, getSession, gets. rewrite Hu. reflexivity.
  - unfold handleGenerateCertificate, bind, getSession, gets. rewrite Hu. reflexivity.
Qed.

(** X23: Best Score.  When no attempt's percentage is NaN, the highest
    score of the statistics is a number that is not below 0 and not below
    the percentage of any attempt, and it is 0 or the percentage of one of
    the attempts; the number of quizzes is the number of attempts, and
    without attempts the highest score is 0. *)
Theorem compute_stats_highest (typedData : list AttemptData) :
  Forall (fun a => Js.isNaN (percentage fmul fdiv a) = false) typedData ->
  let s := compute_stats fadd fmul fdiv typedData in
  totalQuizzes s = length typedData
  /\ Js.isNaN (highestScore s) = false
  /\ Js.lt (highestScore s) Js.zero = false
  /\ (forall a, In a typedData -> Js.lt (highestScore s) (percentage fmul fdiv a) = false)
  /\ (highestScore s = Js.zero
      \/ exists a, In a typedData /\ highestScore s = percentage fmul fdiv a)
  /\ (typedData = [] -> highestScore s = Js.zero).
Proof.
  intros Hn s. subst s. unfold compute_stats. cbn [totalQuizzes highestScore].
  split; [reflexivity|].
  assert (F : Forall (fun x => Js.isNaN x = false)
                (map (percentage fmul fdiv) typedData ++ [Js.zero])).
  { apply Forall_app. split; [|repeat constructor].
    apply Forall_forall. intros x Hx. apply in_map_iff in Hx.
    destruct Hx as (a & <- & Ha). revert a Ha. now apply Forall_forall. }
  destruct (fold_max2 (map (percentage fmul fdiv) typedData ++ [Js.zero]) Js.NegInf
              eq_refl F) as (N & _ & A & M).
  unfold Math_max.
  assert (Z0 : Js.lt (fold_left max2 (map (percentage fmul fdiv) typedData ++ [Js.zero])
                        Js.NegInf) Js.zero = false).
  { apply A. apply in_app_iff. right. left. reflexivity. }
  split; [exact N|]. split; [exact Z0|]. split; [|split].
  - intros a Ha. apply A. apply in_app_iff. left. now apply in_map.
  - destruct M as [M|M].
    + rewrite M in Z0. discriminate.
    + apply in_app_iff in M. destruct M as [M|[M|[]]]; [right|left; now symmetry].
      apply in_map_iff in M. destruct M as (a & E & Ha). exists a. split; [exact Ha|].
      now symmetry.
  - intros ->. reflexivity.
Qed.

(** The refresh that ends handleGenerateCertificate changes no table. *)
Lemma refresh_tables (ps : ProgressState) :
  preserves same_tables
    (try_catch (fetchProgress quiz_attempts subjects fadd fmul fdiv ps)
       (fun _ => ret ps)).
Proof.
  unfold fetchProgress, getSession. keeps_tables.
Qed.

(** X24: handleGenerateCertificate for a signed-in user, whatever the
    backend answers and whatever course it is given: the enrolment table
    keeps its rows in place and a row changes at most by receiving a
    certificate URL, and only if it is a row of the signed-in user and of
    the course's subject.  No row of another student is ever changed. *)
Theorem handleGenerateCertificate_own_rows_only
    (ps : ProgressState) (course : CompletedCourse) (w : World) (u : string) :
  auth_user w = Some u ->
  let w' := snd (handleGenerateCertificate quiz_attempts subjects fadd fmul fdiv
                   completed_at_text pageWidth pageHeight toLocaleDateString getPublicUrl
                   ps course w) in
  (exists url,
     Forall2 (certificate_recorded u (cc_subject_id course) url)
       (student_courses w) (student_courses w'))
  /\ Forall2 (fun r r' => sc_student_id r <> u -> r' = r)
       (student_courses w) (student_courses w').
Proof.
  intros Hu w'.
  assert (H : exists url,
             Forall2 (certificate_recorded u (cc_subject_id course) url)
               (student_courses w) (student_courses w')).
  { subst w'.
    unfold handleGenerateCertificate.
    unfold bind at 1. unfold getSession, gets. rewrite Hu.
    unfold bind at 1. unfold next_reply.
    set (w0 := with_net (tl (net w)) w).
    assert (S0 : student_courses w0 = student_courses w) by reflexivity.
    rewrite <- S0. clearbody w0. clear S0.
    assert (K : forall profile w1,
               exists url,
                 Forall2 (certificate_recorded u (cc_subject_id course) url)
                   (student_courses w1)
                   (student_courses
                      (snd (match cc_subject course with
                            | None => throw (TypeError
                                        "Cannot read properties of null (reading 'name')")
                            | Some subject =>
                                bind (generateCertificate pageWidth pageHeight
                                        toLocaleDateString getPublicUrl
                                        (certificate_data completed_at_text profile course
                                           subject u))
                                  (fun _ =>
                                     try_catch
                                       (fetchProgress quiz_attempts subjects fadd fmul fdiv
                                          (setGeneratingCert None
                                             (setGeneratingCert (Some (cc_id course)) ps)))
                                       (fun _ => ret (setGeneratingCert None
                                                   (setGeneratingCert (Some (cc_id course))
                                                      ps))))
                            end w1)))).
    { intros profile w1. destruct (cc_subject course) as [subject|].
      - unfold bind at 1.
        pose proof (generateCertificate_rows pageWidth pageHeight toLocaleDateString
                      getPublicUrl
                      (certificate_data completed_at_text profile course subject u) w1)
          as (R & _).
        destruct (generateCertificate pageWidth pageHeight toLocaleDateString getPublicUrl
                    (certificate_data completed_at_text profile course subject u) w1)
          as [[a|x] w2]; cbn [snd] in *.
        + eexists.
          destruct (refresh_tables (setGeneratingCert None
                                      (setGeneratingCert (Some (cc_id course)) ps)) w2)
            as (_ & _ & _ & _ & E & _).
          rewrite E. exact R.
        + eexists. exact R.
      - exists EmptyString. apply certificate_recorded_refl. }
    destruct (hd Done (net w)) as [|e|e].
    - unfold bind at 1. unfold gets. apply K.
    - unfold bind at 1. unfold ret. apply K.
    - unfold bind at 1. unfold throw. cbn [snd].
      exists EmptyString. apply certificate_recorded_refl. }
  split; [exact H|].
  destruct H as (url & H).
  eapply Forall2_impl; [|exact H].
  intros r r' [->|[E ->]] N; [reflexivity|].
  unfold enrolment_of in E. apply andb_true_iff in E. destruct E as [E _].
  apply String.eqb_eq in E. contradiction.
Qed.

(** X25: generating the certificate of a course from the page, every
    request carried out and no object stored under the certificate's path:
    the handler ends with no certificate in generation, and the refreshed
    page shows the new public URL on every offered course of that subject,
    among them the view of each completed enrolment of the user in it (the
    button turns into Download). *)
Theorem handleGenerateCertificate_shows_url
    (ps : ProgressState) (course : CompletedCourse) (subject : SubjectEmbed)
    (w : World) (u : string) :
  auth_user w = Some u ->
  cc_subject course = Some subject ->
  all_done w ->
  let data := certificate_data completed_at_text (single_profile u w) course subject u in
  let path := certificate_path data (certificate_fileName data (clock w)) in
  stored path (content_files w) = false ->
  exists ps',
    fst (handleGenerateCertificate quiz_attempts subjects fadd fmul fdiv completed_at_text
           pageWidth pageHeight toLocaleDateString getPublicUrl ps course w) = Ret ps'
    /\ generatingCert ps' = None
    /\ progressLoading ps' = false
    /\ (forall c, In c (completedCourses ps') ->
          cc_subject_id c = cc_subject_id course ->
          cc_certificate_url c = Some (getPublicUrl path))
    /\ (forall r, In r (student_courses w) ->
          sc_student_id r = u -> sc_subject_id r = cc_subject_id course ->
          sc_completed r = Some true ->
          exists c, In c (completedCourses ps') /\ cc_id c = sc_id r
                    /\ cc_certificate_url c = Some (getPublicUrl path)).
Proof.
  intros Hu Hs Hd data path Hp.
  assert (D : forall k, hd Done (Nat.iter k (@tl Reply) (net w)) = Done).
  { unfold all_done in Hd. revert Hd. generalize (net w) as l.
    intros l Hl k. revert l Hl. induction k as [|k IH]; intros l Hl.
    - destruct Hl; [reflexivity|assumption].
    - rewrite Nat.iter_succ_r. apply IH. destruct Hl; [constructor|assumption]. }
  pose proof (D 0%nat) as D0. pose proof (D 1%nat) as D1. pose proof (D 2%nat) as D2.
  pose proof (D 3%nat) as D3. pose proof (D 4%nat) as D4. simpl in D0, D1, D2, D3, D4.
  clear D.
  unfold handleGenerateCertificate.
  unfold bind at 1. unfold getSession, gets. rewrite Hu.
  unfold bind at 1. unfold next_reply. rewrite D0.
  unfold bind at 1. unfold gets. rewrite Hs.
  change (single_profile u (with_net (tl (net w)) w)) with (single_profile u w).
  fold data.
  unfold bind at 1.
  rewrite generateCertificate_success;
    [|unfold upload_succeeds; norm_world; fold data; fold path; now rewrite D1, Hp
     |unfold update_succeeds; norm_world; now rewrite D2].
  norm_world. fold data. fold path.
  unfold try_catch.
  erewrite fetchProgress_run; [|norm_world; exact Hu|norm_world; exact D3|norm_world; exact D4].
  cbn [fst]. eexists. split; [reflexivity|].
  cbn [generatingCert progressLoading completedCourses setGeneratingCert].
  split; [reflexivity|]. split; [reflexivity|]. split.
  - intros c Hc Hsub. apply query_completed_courses_In in Hc.
    destruct Hc as (r' & Hr & Hst & _ & ->). norm_world.
    cbn [select_course cc_certificate_url cc_subject_id] in *.
    apply in_map_iff in Hr. destruct Hr as (r & <- & Hr).
    destruct (enrolment_of (studentId data) (courseId data) r) eqn:E.
    + reflexivity.
    + exfalso. unfold enrolment_of in E. cbn [studentId courseId data certificate_data] in E.
      rewrite Hst, Hsub, !String.eqb_refl in E. discriminate.
  - intros r Hr Hst Hsub Hc.
    exists (select_course subjects (set_certificate_url (getPublicUrl path) r)).
    split; [|split; reflexivity].
    apply query_completed_courses_In.
    exists (set_certificate_url (getPublicUrl path) r).
    split; [|split; [exact Hst|split; [exact Hc|reflexivity]]].
    norm_world. apply in_map_iff. exists r. split; [|exact Hr].
    unfold enrolment_of. cbn [studentId courseId data certificate_data].
    now rewrite Hst, Hsub, !String.eqb_refl.
Qed.

End ProgressFacts.

Lemma fetchProgress_offers_completed_witness :
  let w := sample_completed_world in
  auth_user w = Some "alice"
  /\ hd Done (net w) = Done
  /\ hd Done (tl (net w)) = Done
  /\ exists ps',
       fetchProgress sample_quiz_attempts sample_subjects sample_fadd sample_fmul
         sample_fdiv sample_progress w = (Ret ps', with_net (tl (tl (net w))) w)
       /\ (forall c, In c (completedCourses ps') -> cc_completed c = Some true)
       /\ totalQuizzes (stats ps') = 1%nat
       /\ progressLoading ps' = false.
Proof.
  intros w. split; [reflexivity|]. split; [reflexivity|]. split; [reflexivity|].
  destruct (fetchProgress_offers_completed sample_quiz_attempts sample_subjects
              sample_fadd sample_fmul sample_fdiv sample_progress w "alice"
              eq_refl eq_refl eq_refl) as (ps' & H1 & _ & H3 & _ & H5 & H6).
  exists ps'. split; [exact H1|]. split; [exact H3|]. split; [exact H5|exact H6].
Defined.

Lemma progress_page_needs_session_witness :
  auth_user sample_signed_out_world = None
  /\ toasts (snd (fetchProgress sample_quiz_attempts sample_subjects sample_fadd
                    sample_fmul sample_fdiv sample_progress sample_signed_out_world))
     = [ToastError "Please sign in to view your progress"]
  /\ snd (handleGenerateCertificate sample_quiz_attempts sample_subjects sample_fadd
            sample_fmul sample_fdiv sample_completed_at_text a4_width a4_height
            toLocaleDateString_id publicUrl_of sample_progress sample_course
            sample_signed_out_world)
     = sample_signed_out_world.
Proof.
  split; [reflexivity|].
  destruct (progress_page_needs_session sample_quiz_attempts sample_subjects sample_fadd
              sample_fmul sample_fdiv sample_completed_at_text a4_width a4_height
              toLocaleDateString_id publicUrl_of sample_progress sample_course
              sample_signed_out_world eq_refl) as [H1 H2].
  rewrite H1, H2. split; reflexivity.
Defined.

Lemma compute_stats_highest_witness :
  Forall (fun a => Js.isNaN (percentage sample_fmul sample_fdiv a) = false) sample_attempts
  /\ Js.lt (highestScore (compute_stats sample_fadd sample_fmul sample_fdiv sample_attempts))
       (Js.Fin 90%Q) = false
  /\ totalQuizzes (compute_stats sample_fadd sample_fmul sample_fdiv sample_attempts) = 2%nat.
Proof.
  assert (F : Forall (fun a => Js.isNaN (percentage sample_fmul sample_fdiv a) = false)
                sample_attempts) by (repeat constructor).
  split; [exact F|].
  destruct (compute_stats_highest sample_fadd sample_fmul sample_fdiv sample_attempts F)
    as (H1 & _ & _ & H4 & _).
  split; [|exact H1].
  apply (H4 (mkAttemptData "qa-4" (Js.Fin 9%Q) (Js.Fin 10%Q) 3000%N "Decimals" "Mathematics")).
  right. left. reflexivity.
Defined.

Lemma handleGenerateCertificate_own_rows_only_witness :
  let w := sample_completed_world in
  let w' := snd (handleGenerateCertificate sample_quiz_attempts sample_subjects sample_fadd
                   sample_fmul sample_fdiv sample_completed_at_text a4_width a4_height
                   toLocaleDateString_id publicUrl_of sample_progress sample_course w) in
  auth_user w = Some "alice"
  /\ Forall2 (fun r r' => sc_student_id r <> "alice" -> r' = r)
       (student_courses w) (student_courses w').
Proof.
  intros w w'. split; [reflexivity|].
  exact (proj2 (handleGenerateCertificate_own_rows_only sample_quiz_attempts
                  sample_subjects sample_fadd sample_fmul sample_fdiv
                  sample_completed_at_text a4_width a4_height toLocaleDateString_id
                  publicUrl_of sample_progress sample_course w "alice" eq_refl)).
Defined.

Lemma handleGenerateCertificate_shows_url_witness :
  let w := sample_completed_world in
  let url := publicUrl_of "certificates/alice/certificate-Mathematics-S1-6000.pdf" in
  auth_user w = Some "alice"
  /\ cc_subject sample_course = Some (mkSubjectEmbed "Mathematics" (Some "S1"))
  /\ all_done w
  /\ stored "certificates/alice/certificate-Mathematics-S1-6000.pdf" (content_files w) = false
  /\ exists ps',
       fst (handleGenerateCertificate sample_quiz_attempts sample_subjects sample_fadd
              sample_fmul sample_fdiv sample_completed_at_text a4_width a4_height
              toLocaleDateString_id publicUrl_of sample_progress sample_course w) = Ret ps'
       /\ generatingCert ps' = None
       /\ exists c, In c (completedCourses ps') /\ cc_id c = "e-1"
                    /\ cc_certificate_url c = Some url.
Proof.
  intros w url.
  assert (Hd : all_done w) by constructor.
  split; [reflexivity|]. split; [reflexivity|]. split; [exact Hd|]. split; [reflexivity|].
  destruct (handleGenerateCertificate_shows_url sample_quiz_attempts sample_subjects
              sample_fadd sample_fmul sample_fdiv sample_completed_at_text a4_width
              a4_height toLocaleDateString_id publicUrl_of sample_progress sample_course
              (mkSubjectEmbed "Mathematics" (Some "S1")) w "alice"
              eq_refl eq_refl Hd eq_refl) as (ps' & H1 & H2 & _ & _ & H5).
  exists ps'. split; [exact H1|]. split; [exact H2|].
  apply (H5 (mkStudentCourseRow "e-1" "alice" "math-s1" (Some (Js.Fin 40%Q)) (Some true)
               (Some 5500%N) None)); [left; reflexivity|reflexivity|reflexivity|reflexivity].
Defined.

(* ================================================================== *)
(** * The grading dialog *)
(* ================================================================== *)

Section Dialog.

Variable parseFloat : string -> Js.number.
Variable Number_toString : Js.number -> string.
Variable toISOString : Timestamp -> string.

(** X26: opening the grading dialog for a submission without grade
    selects it with an empty grade input and never a null feedback, and
    leaves the rest of the page and every table alone; submitting the
    dialog as it opened only shows Please enter a grade. *)
Theorem openGradingDialog_ungraded_needs_grade (submission : Submission) (w : World) :
  grade submission = None ->
  let w1 := exec (openGradingDialog Number_toString submission) w in
  selectedSubmission (gradingQueue w1) = Some submission
  /\ gradeInput (gradingQueue w1) = EmptyString
  /\ feedbackInput (gradingQueue w1) = Js.or_else (feedback submission) EmptyString
  /\ submissions (gradingQueue w1) = submissions (gradingQueue w)
  /\ selectedSubmissions (gradingQueue w1) = selectedSubmissions (gradingQueue w)
  /\ same_tables w w1
  /\ net w1 = net w
  /\ submitGrade parseFloat Number_toString toISOString (gradingQueue w1) w1
     = (Ret tt, with_toasts (toasts w ++ [ToastError "Please enter a grade"]) w1).
Proof.
  intros Hg w1. subst w1.
  unfold exec, openGradingDialog, bind, setSelectedSubmission, setGrade, setFeedback,
    update_gradingQueue, modify.
  rewrite Hg. norm_world. cbn [option_map Js.or_else].
  repeat (split; [reflexivity|]).
  split; [repeat split|]. split; [reflexivity|].
  unfold submitGrade. norm_world. reflexivity.
Qed.

End Dialog.

Lemma openGradingDialog_ungraded_needs_grade_witness :
  let w1 := exec (openGradingDialog Number_toString_int sample_submission) sample_world in
  grade sample_submission = None
  /\ selectedSubmission (gradingQueue w1) = Some sample_submission
  /\ toasts (exec (submitGrade parseFloat_int Number_toString_int toISOString_ms
                     (gradingQueue w1)) w1)
     = [ToastError "Please enter a grade"].
Proof.
  intros w1. split; [reflexivity|].
  destruct (openGradingDialog_ungraded_needs_grade parseFloat_int Number_toString_int
              toISOString_ms sample_submission sample_world eq_refl)
    as (H1 & _ & _ & _ & _ & _ & _ & H8).
  split; [exact H1|]. unfold exec. fold w1 in H8. rewrite H8. reflexivity.
Defined.
